(** * draw_scene.cc: the scene driver, its input callbacks and its models

    A shallow embedding of [src/draw_scene.cc].  The program talks to four
    collaborators that are not part of the file: the windowing library
    (GLFW), the graphics device (OpenGL through GLEW), the image decoder
    (CImg) and the [wvu] classes of the repository ([Model],
    [ShaderProgram], [CameraController], the transformation helpers).  Every
    command the file issues to one of them is recorded as a [Call]; every
    answer it reads back comes from a [World].  The file's own globals and
    the statics of [MouseCallback] live in a [State].

    C++ [int] is [Z]; [float] and [double] are the kernel's binary64
    numbers ([float]): every binary32 value is one of them, and the file
    does no arithmetic in binary32. *)

From Stdlib Require Import ZArith Floats.
From stdpp Require Import base option list strings gmap.

Open Scope Z_scope.

(** ** Constants of the libraries' headers *)

Module GLFW.
Definition GLFW_RELEASE : Z := 0.
Definition GLFW_PRESS : Z := 1.
Definition GLFW_REPEAT : Z := 2.
Definition GLFW_KEY_A : Z := 65.
Definition GLFW_KEY_D : Z := 68.
Definition GLFW_KEY_S : Z := 83.
Definition GLFW_KEY_W : Z := 87.
Definition GLFW_KEY_ESCAPE : Z := 256.
Definition GLFW_RESIZABLE : Z := 0x00020003.
Definition GLFW_CONTEXT_VERSION_MAJOR : Z := 0x00022002.
Definition GLFW_CONTEXT_VERSION_MINOR : Z := 0x00022003.
Definition GLFW_OPENGL_FORWARD_COMPAT : Z := 0x00022006.
Definition GLFW_OPENGL_PROFILE : Z := 0x00022008.
Definition GLFW_OPENGL_CORE_PROFILE : Z := 0x00032001.
End GLFW.
Export GLFW.

Module GL.
Definition GL_FALSE : Z := 0.
Definition GL_TRUE : Z := 1.
Definition GL_DEPTH_BUFFER_BIT : Z := 0x00000100.
Definition GL_COLOR_BUFFER_BIT : Z := 0x00004000.
Definition GL_FRONT_AND_BACK : Z := 0x0408.
Definition GL_DEPTH_TEST : Z := 0x0B71.
Definition GL_TEXTURE_2D : Z := 0x0DE1.
Definition GL_UNSIGNED_BYTE : Z := 0x1401.
Definition GL_RGB : Z := 0x1907.
Definition GL_LINE : Z := 0x1B01.
Definition GL_LINEAR : Z := 0x2601.
Definition GL_TEXTURE_MAG_FILTER : Z := 0x2800.
Definition GL_TEXTURE_MIN_FILTER : Z := 0x2801.
Definition GL_TEXTURE_WRAP_S : Z := 0x2802.
Definition GL_TEXTURE_WRAP_T : Z := 0x2803.
Definition GL_REPEAT : Z := 0x2901.
End GL.
Export GL.

(** Window dimensions. *)
Definition kWindowWidth : Z := 640.
Definition kWindowHeight : Z := 480.

(** ** Numbers *)

(** [static_cast<float>(int)] and the promotion of an [int] operand to
    [double]: exact for every 32-bit [int]. *)
Definition float_of_int (z : Z) : float :=
  if z <? 0 then (- PrimFloat.of_uint63 (Uint63.of_Z (- z)))%float
  else PrimFloat.of_uint63 (Uint63.of_Z z).

(** The conversion of a [double] to [int] drops the fraction (rounds toward
    zero); it is undefined when the result does not fit an [int], and for
    infinities and NaN: [None]. *)
Definition int_of_double (d : float) : option Z :=
  match Prim2SF d with
  | S754_zero _ => Some 0
  | S754_finite s m e =>
      let v := if 0 <=? e then Z.pos m * 2 ^ e else Z.pos m / 2 ^ (- e) in
      let z := if s then - v else v in
      if (- 2 ^ 31 <=? z) && (z <? 2 ^ 31) then Some z else None
  | S754_infinity _ | S754_nan => None
  end.

(** C++ [int] division truncates; both window dimensions are positive. *)
Definition int_div (a b : Z) : Z := Z.quot a b.

(** ** Eigen values *)

(** A fixed-size column vector ([Vector3f], [Vector2f]) is the list of its
    coefficients. *)
Definition Vector3f (x y z : float) : list float := [x; y; z].
Definition Vector2f (x y : float) : list float := [x; y].

(** [Matrix4f]: four rows of four coefficients. *)
Definition Matrix4f : Type := list (list float).

Definition Matrix4f_Identity : Matrix4f :=
  [ [1; 0; 0; 0]; [0; 1; 0; 0]; [0; 0; 1; 0]; [0; 0; 0; 1] ]%float.

(** [MatrixXf]: the rows of a dynamically sized matrix.  [MatrixXf(r, c)]
    allocates without initialising: a coefficient that was never assigned is
    [None]. *)
Definition MatrixXf : Type := list (list (option float)).

Definition MatrixXf_new (rows cols : nat) : MatrixXf :=
  replicate rows (replicate cols None).

Definition MatrixXf_rows (m : MatrixXf) : nat := length m.

(** [m(i, j) = x], refused (Eigen's assertion) outside the matrix. *)
Definition set_coeff (m : MatrixXf) (i j : nat) (x : float) : option MatrixXf :=
  row ← m !! i;
  if decide (j < length row)%nat
  then Some (<[i := <[j := Some x]> row]> m)
  else None.

Fixpoint assign_column (m : MatrixXf) (i j : nat) (v : list float)
  : option MatrixXf :=
  match v with
  | [] => Some m
  | x :: v' => m' ← set_coeff m i j x; assign_column m' (S i) j v'
  end.

(** [m.block(i, j, p, q) = v] for a column vector [v]: the block is [p] by
    [q] and must have the size of [v]. *)
Definition block_assign (m : MatrixXf) (i j p q : nat) (v : list float)
  : option MatrixXf :=
  if decide (p = length v ∧ q = 1%nat) then assign_column m i j v else None.

(** ** The repository's classes, as this file sees them *)

(** [wvu::Model] (model.h is not part of the file): what the constructor is
    given.  Its methods are recorded as calls. *)
Record Model := mkModel {
  model_scale : list float;
  model_translation : list float;
  model_vertices : MatrixXf;
  model_indices : list Z;
}.

(** [wvu::CameraController] (camera_controller.cc is not part of the file):
    the one value the file reads from it.  Its mutators are recorded as
    calls. *)
Record CameraController := mkCameraController {
  rotation_sensitivity : float;
}.

(** Modelled from the spec: [wvu::ShaderProgram] (shader_program.h is not
    part of the file).  The sources are stored by the two loaders; [Create]
    compiles and links: on failure it returns failure with the device's
    diagnostic, otherwise it assigns a non-zero program identifier.  A
    program that was never linked has identifier 0. *)
Record ShaderProgram := mkShaderProgram {
  vertex_source : option string;
  fragment_source : option string;
  shader_program_id : Z;
}.

Definition ShaderProgram_new : ShaderProgram := mkShaderProgram None None 0.

(** The two definitions the file gives for each of [ErrorCallback] and
    [KeyCallback]: the first under "User Input Callbacks" (lines 77 and 99),
    the second after the shader sources (lines 195 and 201). *)
Inductive Definition_site := first_definition | second_definition.

Definition GLFWwindow : Type := Z.

(** ** Calls to the collaborators *)

Inductive Call :=
| gflags_ParseCommandLineFlags
| google_InitGoogleLogging
| LOG_FATAL (message : string)
| std_cout (text : string)
| std_cerr (text : string)
| glfwInit
| glfwTerminate
| glfwSetErrorCallback (f : Definition_site)
| glfwWindowHint (hint value : Z)
| glfwCreateWindow (width height : Z) (title : string)
| glfwMakeContextCurrent (window : GLFWwindow)
| glfwSwapInterval (interval : Z)
| glfwSetKeyCallback (window : GLFWwindow) (f : Definition_site)
| glfwSetWindowShouldClose (window : GLFWwindow) (value : Z)
| glfwSwapBuffers (window : GLFWwindow)
| glfwPollEvents
| glfwDestroyWindow (window : GLFWwindow)
| glewInit
| glViewport (x y width height : Z)
| glEnable (cap : Z)
| glClearColor (red green blue alpha : float)
| glClear (mask : Z)
| glPolygonMode (face mode : Z)
| glBindVertexArray (array : Z)
| glGenTextures (n : Z)
| glBindTexture (target texture : Z)
| glTexParameteri (target pname param : Z)
| glTexImage2D (target level internalformat width height border format type : Z)
               (image : string)
| glGenerateMipmap (target : Z)
| CImg_load (filepath : string)
| CImg_permute_axes (order : string)
| ShaderProgram_LoadVertexShaderFromString (source : string)
| ShaderProgram_LoadFragmentShaderFromString (source : string)
| ShaderProgram_Create
| ShaderProgram_Use (program : Z)
| Model_SetVerticesIntoGpu (model : Model)
| Model_Draw (model : Model) (program : Z) (projection view : Matrix4f)
             (texture_id : Z)
| Model_delete (model : Model)
| CameraController_MoveFront
| CameraController_MoveBack
| CameraController_MoveLeft
| CameraController_MoveRight
| CameraController_AddYawOffset (offset : float)
| CameraController_AddPitchOffset (offset : float)
| CameraController_AdjustZoom (offset : float)
| wvu_ConvertDegreesToRadians (degrees : float)
| wvu_ComputePerspectiveProjectionMatrix (field_of_view aspect_ratio near far : float).

(** ** Events delivered by the windowing library *)

Inductive Event :=
| KeyEvent (key scancode action mods : Z)
| CursorPosEvent (x_position y_position : float)
| ScrollEvent (x_offset y_offset : float)
| CloseRequest
| ErrorEvent (error : Z) (description : string).

(** ** The answers of the collaborators *)

(** A decoded image: its dimensions and its pixel data (opaque here). *)
Record Image := mkImage {
  image_width : Z;
  image_height : Z;
  image_data : string;
}.

Record World := mkWorld {
  (** what gflags parsed from the command line: flag name to value *)
  command_line : gmap string string;
  (** [FLAGS_brick_filepath] and [FLAGS_stone_filepath]: [main] reads them,
      no [DEFINE_string] of the file declares them *)
  FLAGS_brick_filepath : string;
  FLAGS_stone_filepath : string;
  glfwInit_result : bool;
  glfwCreateWindow_result : option GLFWwindow;
  (** whether [glewInit()] returned [GLEW_OK] *)
  glewInit_ok : bool;
  framebuffer_size : Z * Z;
  (** the device's answer to compiling and linking the two sources: a
      diagnostic, or the identifier of the linked program *)
  link_result : string + positive;
  (** CImg: the image found at a path *)
  image_at : string → Image;
  (** the name [glGenTextures] hands out on its n-th call *)
  texture_name : nat → Z;
  (** transformations.h (not part of the file) *)
  ConvertDegreesToRadians : float → float;
  ComputePerspectiveProjectionMatrix : float → float → float → float → Matrix4f;
}.

(** [DEFINE_string(name, default, description)]: the flag's value is the one
    given on the command line, else its default. *)
Definition DEFINE_string (w : World) (name default_value description : string)
  : string :=
  default default_value (command_line w !! name).

Definition FLAGS_texture1_filepath (w : World) : string :=
  DEFINE_string w "texture1_filepath" "texture1.bmp" "Filepath of the first texture.".
Definition FLAGS_texture2_filepath (w : World) : string :=
  DEFINE_string w "texture2_filepath" "texture2.bmp" "Filepath of the second texture.".

(** ** The program's state *)

Record State := mkState {
  (** the file's globals, both initialised to [nullptr] *)
  camera_controller_ptr : option CameraController;
  movement_vector_ptr : option (list bool);
  (** the statics of [MouseCallback] *)
  last_x_position : Z;
  last_y_position : Z;
  first_call : bool;
  (** the windowing library: the window's close flag, the callbacks
      registered so far, and how many textures the device has named *)
  window_should_close : bool;
  error_callback : option Definition_site;
  key_callback : option Definition_site;
  textures_generated : nat;
}.

Definition initial_state : State :=
  {| camera_controller_ptr := None; movement_vector_ptr := None;
     last_x_position := 0; last_y_position := 0; first_call := true;
     window_should_close := false;
     error_callback := None; key_callback := None;
     textures_generated := 0 |}.

Definition set_movement_vector (v : list bool) (s : State) : State :=
  {| camera_controller_ptr := camera_controller_ptr s;
     movement_vector_ptr := Some v;
     last_x_position := last_x_position s; last_y_position := last_y_position s;
     first_call := first_call s; window_should_close := window_should_close s;
     error_callback := error_callback s; key_callback := key_callback s;
     textures_generated := textures_generated s |}.

Definition set_last_position (x y : Z) (s : State) : State :=
  {| camera_controller_ptr := camera_controller_ptr s;
     movement_vector_ptr := movement_vector_ptr s;
     last_x_position := x; last_y_position := y;
     first_call := first_call s; window_should_close := window_should_close s;
     error_callback := error_callback s; key_callback := key_callback s;
     textures_generated := textures_generated s |}.

Definition set_first_call (b : bool) (s : State) : State :=
  {| camera_controller_ptr := camera_controller_ptr s;
     movement_vector_ptr := movement_vector_ptr s;
     last_x_position := last_x_position s; last_y_position := last_y_position s;
     first_call := b; window_should_close := window_should_close s;
     error_callback := error_callback s; key_callback := key_callback s;
     textures_generated := textures_generated s |}.

Definition set_window_should_close (b : bool) (s : State) : State :=
  {| camera_controller_ptr := camera_controller_ptr s;
     movement_vector_ptr := movement_vector_ptr s;
     last_x_position := last_x_position s; last_y_position := last_y_position s;
     first_call := first_call s; window_should_close := b;
     error_callback := error_callback s; key_callback := key_callback s;
     textures_generated := textures_generated s |}.

Definition set_error_callback (f : Definition_site) (s : State) : State :=
  {| camera_controller_ptr := camera_controller_ptr s;
     movement_vector_ptr := movement_vector_ptr s;
     last_x_position := last_x_position s; last_y_position := last_y_position s;
     first_call := first_call s; window_should_close := window_should_close s;
     error_callback := Some f; key_callback := key_callback s;
     textures_generated := textures_generated s |}.

Definition set_key_callback (f : Definition_site) (s : State) : State :=
  {| camera_controller_ptr := camera_controller_ptr s;
     movement_vector_ptr := movement_vector_ptr s;
     last_x_position := last_x_position s; last_y_position := last_y_position s;
     first_call := first_call s; window_should_close := window_should_close s;
     error_callback := error_callback s; key_callback := Some f;
     textures_generated := textures_generated s |}.

Definition count_texture (s : State) : State :=
  {| camera_controller_ptr := camera_controller_ptr s;
     movement_vector_ptr := movement_vector_ptr s;
     last_x_position := last_x_position s; last_y_position := last_y_position s;
     first_call := first_call s; window_should_close := window_should_close s;
     error_callback := error_callback s; key_callback := key_callback s;
     textures_generated := S (textures_generated s) |}.

(** ** Computations *)

(** Why a run stops before the function returns. *)
Inductive Stop :=
| aborted                 (** [LOG(FATAL)]: the message is logged, the process aborts *)
| null_dereference        (** a member access through a null pointer *)
| out_of_range            (** [std::vector::at] threw [std::out_of_range] *)
| out_of_bounds           (** an array read past its end, an Eigen assertion *)
| undefined_conversion    (** a [double] that no [int] holds *)
| awaiting_events.        (** the events given to the model are used up *)

Inductive Result (A : Type) :=
| Done (a : A) (s : State)
| Stopped (why : Stop) (s : State).
Arguments Done {A} a s.
Arguments Stopped {A} why s.

(** A computation reads the state and gives the calls it made, in order,
    with its result. *)
Definition M (A : Type) : Type := State → list Call * Result A.

Definition ret {A} (a : A) : M A := λ s, ([], Done a s).

Definition bind {A B} (m : M A) (f : A → M B) : M B := λ s,
  match m s with
  | (t, Done a s') => let '(t', r) := f a s' in (t ++ t', r)
  | (t, Stopped why s') => (t, Stopped why s')
  end.

#[global] Instance M_ret : MRet M := @ret.
#[global] Instance M_bind : MBind M := λ A B f m, bind m f.

Definition call (c : Call) : M unit := λ s, ([c], Done () s).
Definition stop {A} (why : Stop) : M A := λ s, ([], Stopped why s).
Definition get {A} (f : State → A) : M A := λ s, ([], Done (f s) s).
Definition modify (f : State → State) : M unit := λ s, ([], Done () (f s)).
Definition when (b : bool) (m : M unit) : M unit := if b then m else ret ().

(** An Eigen or array operation that may be refused. *)
Definition checked {A} (o : option A) : M A :=
  match o with Some a => ret a | None => stop out_of_bounds end.

(** The calls of a run and how it ended. *)
Definition calls {A} (r : list Call * Result A) : list Call := r.1.
Definition result {A} (r : list Call * Result A) : Result A := r.2.

(** ** Access through the two global pointers *)

(** [movement_vector_ptr->at(key)]: the pointer is dereferenced, [at]
    checks the index. *)
Definition movement_vector_at (key : Z) : M bool := λ s,
  match movement_vector_ptr s with
  | None => stop null_dereference s
  | Some v =>
      match (if 0 <=? key then v !! Z.to_nat key else None) with
      | Some b => ret b s
      | None => stop out_of_range s
      end
  end.

(** [movement_vector_ptr->at(key) = b]. *)
Definition movement_vector_at_assign (key : Z) (b : bool) : M unit := λ s,
  match movement_vector_ptr s with
  | None => stop null_dereference s
  | Some v =>
      if (0 <=? key) && (key <? Z.of_nat (length v))
      then modify (set_movement_vector (<[Z.to_nat key := b]> v)) s
      else stop out_of_range s
  end.

(** [camera_controller_ptr->f(...)] for a mutator [f]. *)
Definition camera_controller_call (c : Call) : M unit := λ s,
  match camera_controller_ptr s with
  | None => stop null_dereference s
  | Some _ => call c s
  end.

(** [camera_controller_ptr->rotation_sensitivity()]. *)
Definition camera_controller_rotation_sensitivity : M float := λ s,
  match camera_controller_ptr s with
  | None => stop null_dereference s
  | Some c => ret (rotation_sensitivity c) s
  end.

(** [glfwSetWindowShouldClose(window, value)]. *)
Definition SetWindowShouldClose (window : GLFWwindow) (value : Z) : M unit :=
  call (glfwSetWindowShouldClose window value);;
  modify (set_window_should_close (negb (value =? 0))).

Definition endl : string := String (Ascii.ascii_of_nat 10) EmptyString.

(** ** User input callbacks (lines 73 to 148) *)

Module UserInputCallbacks.

Definition ErrorCallback (error : Z) (description : string) : M unit :=
  call (LOG_FATAL description);;
  stop aborted.

Definition UpdateCameraPose : M unit :=
  w ← movement_vector_at GLFW_KEY_W;
  when w (camera_controller_call CameraController_MoveFront);;
  s ← movement_vector_at GLFW_KEY_S;
  when s (camera_controller_call CameraController_MoveBack);;
  a ← movement_vector_at GLFW_KEY_A;
  when a (camera_controller_call CameraController_MoveLeft);;
  d ← movement_vector_at GLFW_KEY_D;
  when d (camera_controller_call CameraController_MoveRight).

Definition KeyCallback (window : GLFWwindow) (key scancode action mods : Z)
  : M unit :=
  when ((key =? GLFW_KEY_ESCAPE) && (action =? GLFW_PRESS))
    (SetWindowShouldClose window GL_TRUE);;
  when ((0 <=? key) && (key <? 1024))
    (if action =? GLFW_PRESS then movement_vector_at_assign key true
     else if action =? GLFW_RELEASE then movement_vector_at_assign key false
     else ret ()).

(** [last_x_position = x_position; last_y_position = y_position;] with the
    two statics of type [int]. *)
Definition store_last_position (x_position y_position : float) : M unit :=
  match int_of_double x_position, int_of_double y_position with
  | Some x, Some y => modify (set_last_position x y)
  | _, _ => stop undefined_conversion
  end.

Definition MouseCallback (window : GLFWwindow) (x_position y_position : float)
  : M unit :=
  first ← get first_call;
  when first
    (store_last_position x_position y_position;;
     modify (set_first_call false));;
  sensitivity ← camera_controller_rotation_sensitivity;
  last_x ← get last_x_position;
  camera_controller_call
    (CameraController_AddYawOffset
       (sensitivity * (x_position - float_of_int last_x))%float);;
  sensitivity ← camera_controller_rotation_sensitivity;
  last_y ← get last_y_position;
  camera_controller_call
    (CameraController_AddPitchOffset
       (sensitivity * (float_of_int last_y - y_position))%float);;
  store_last_position x_position y_position.

Definition ScrollCallback (window : GLFWwindow) (x_offset y_offset : float)
  : M unit :=
  camera_controller_call (CameraController_AdjustZoom y_offset).

End UserInputCallbacks.

(** ** The second definitions (lines 192 to 205) *)

Module SecondDefinitions.

Definition ErrorCallback (error : Z) (description : string) : M unit :=
  call (std_cerr ("ERROR: " +:+ description +:+ endl)).

Definition KeyCallback (window : GLFWwindow) (key scancode action mods : Z)
  : M unit :=
  when ((key =? GLFW_KEY_ESCAPE) && (action =? GLFW_PRESS))
    (SetWindowShouldClose window GL_TRUE).

End SecondDefinitions.

(** The name [ErrorCallback] (or [KeyCallback]) read as one of its two
    definitions. *)
Definition ErrorCallback_at (site : Definition_site) : Z → string → M unit :=
  match site with
  | first_definition => UserInputCallbacks.ErrorCallback
  | second_definition => SecondDefinitions.ErrorCallback
  end.

Definition KeyCallback_at (site : Definition_site)
  : GLFWwindow → Z → Z → Z → Z → M unit :=
  match site with
  | first_definition => UserInputCallbacks.KeyCallback
  | second_definition => SecondDefinitions.KeyCallback
  end.

(** ** GLSL shaders *)

(** Every literal of the two sources ends in a newline. *)
Definition lines (l : list string) : string :=
  foldr (λ line rest, line +:+ endl +:+ rest) EmptyString l.

Definition vertex_shader_src : string := lines [
  "#version 330 core";
  "layout (location = 0) in vec3 position;";
  "layout (location = 1) in vec3 passed_color;";
  "layout (location = 2) in vec2 passed_texel;";
  "uniform mat4 model;";
  "uniform mat4 view;";
  "uniform mat4 projection;";
  "out vec4 vertex_color;";
  "out vec2 texel;";
  "void main() {";
  "gl_Position = projection * view * model * vec4(position, 1.0f);";
  "vertex_color = vec4(passed_color, 1.0f);";
  "texel = passed_texel;";
  "}" ].

Definition fragment_shader_src : string := lines [
  "#version 330 core";
  "in vec4 vertex_color;";
  "out vec4 color;";
  "in vec2 texel;";
  "uniform sampler2D texture_sampler;";
  "void main() {";
  "color = texture(texture_sampler, texel);";
  "}" ].

(** ** The helpers and [main] *)

Section Program.

Variable w : World.

Definition LoadTexture (texture_filepath : string) : M Z :=
  call (CImg_load texture_filepath);;
  let image := image_at w texture_filepath in
  let width := image_width image in
  let height := image_height image in
  call (CImg_permute_axes "cxyz");;
  call (glGenTextures 1);;
  n ← get textures_generated;
  modify count_texture;;
  let texture_id := texture_name w n in
  call (glBindTexture GL_TEXTURE_2D texture_id);;
  call (glTexParameteri GL_TEXTURE_2D GL_TEXTURE_WRAP_S GL_REPEAT);;
  call (glTexParameteri GL_TEXTURE_2D GL_TEXTURE_WRAP_T GL_REPEAT);;
  call (glTexParameteri GL_TEXTURE_2D GL_TEXTURE_MIN_FILTER GL_LINEAR);;
  call (glTexParameteri GL_TEXTURE_2D GL_TEXTURE_MAG_FILTER GL_LINEAR);;
  call (glTexImage2D GL_TEXTURE_2D 0 GL_RGB width height
          0 GL_RGB GL_UNSIGNED_BYTE (image_data image));;
  call (glGenerateMipmap GL_TEXTURE_2D);;
  call (glBindTexture GL_TEXTURE_2D 0);;
  ret texture_id.

Definition SetWindowHints : M unit :=
  call (glfwWindowHint GLFW_CONTEXT_VERSION_MAJOR 3);;
  call (glfwWindowHint GLFW_CONTEXT_VERSION_MINOR 2);;
  call (glfwWindowHint GLFW_OPENGL_PROFILE GLFW_OPENGL_CORE_PROFILE);;
  call (glfwWindowHint GLFW_OPENGL_FORWARD_COMPAT GL_TRUE);;
  call (glfwWindowHint GLFW_RESIZABLE GL_FALSE).

Definition ConfigureViewPort (window : GLFWwindow) : M unit :=
  let '(width, height) := framebuffer_size w in
  call (glViewport 0 0 width height).

Definition ClearTheFrameBuffer : M unit :=
  call (glEnable GL_DEPTH_TEST);;
  call (glClearColor 0 0 0 1);;
  call (glClear (Z.lor GL_COLOR_BUFFER_BIT GL_DEPTH_BUFFER_BIT)).

(** Modelled from the spec: the three methods of [wvu::ShaderProgram]
    that [CreateShaderProgram] calls (shader_program.h is not part of the
    file). *)
Definition LoadVertexShaderFromString (source : string) (p : ShaderProgram)
  : M ShaderProgram :=
  call (ShaderProgram_LoadVertexShaderFromString source);;
  ret (mkShaderProgram (Some source) (fragment_source p) (shader_program_id p)).

Definition LoadFragmentShaderFromString (source : string) (p : ShaderProgram)
  : M ShaderProgram :=
  call (ShaderProgram_LoadFragmentShaderFromString source);;
  ret (mkShaderProgram (vertex_source p) (Some source) (shader_program_id p)).

Definition Create (p : ShaderProgram) : M (bool * string * ShaderProgram) :=
  call ShaderProgram_Create;;
  match link_result w with
  | inl diagnostic => ret (false, diagnostic, p)
  | inr program =>
      ret (true, EmptyString,
           mkShaderProgram (vertex_source p) (fragment_source p) (Z.pos program))
  end.

(** The pointer argument is [None] for [nullptr]; the program object is
    returned as the call leaves it. *)
Definition CreateShaderProgram (shader_program : option ShaderProgram)
  : M (bool * option ShaderProgram) :=
  match shader_program with
  | None => ret (false, None)
  | Some p =>
      p ← LoadVertexShaderFromString vertex_shader_src p;
      p ← LoadFragmentShaderFromString fragment_shader_src p;
      '(created, error_info_log, p) ← Create p;
      when (negb created)
        (call (std_cout ("ERROR: " +:+ error_info_log +:+ endl)));;
      if shader_program_id p =? 0 then
        call (std_cerr ("ERROR: Could not create a shader program." +:+ endl));;
        ret (false, Some p)
      else ret (true, Some p)
  end.

(** The loop of [RenderScene], from index [i] on: [texture_ids[i]] is read
    for every model. *)
Fixpoint draw_models (shader_program : ShaderProgram)
    (projection view : Matrix4f) (models : list Model) (texture_ids : list Z)
    (i : nat) : M unit :=
  match models with
  | [] => ret ()
  | model :: models' =>
      texture_id ← checked (texture_ids !! i);
      call (Model_Draw model (shader_program_id shader_program)
              projection view texture_id);;
      draw_models shader_program projection view models' texture_ids (S i)
  end.

Definition RenderScene (shader_program : ShaderProgram)
    (projection view : Matrix4f) (models_to_draw : list Model)
    (window : GLFWwindow) (texture_ids : list Z) : M unit :=
  ClearTheFrameBuffer;;
  call (ShaderProgram_Use (shader_program_id shader_program));;
  call (glPolygonMode GL_FRONT_AND_BACK GL_LINE);;
  draw_models shader_program projection view models_to_draw texture_ids 0;;
  call (glBindVertexArray 0).

End Program.

(** ** The two models *)

(** [m.block(i, j, p, q) = v;] as a statement. *)
Definition assign_block (m : MatrixXf) (i j p q : nat) (v : list float)
  : M MatrixXf :=
  checked (block_assign m i j p q v).

(** Square pyramid. *)
Definition indices : list Z :=
  [ 0; 3; 2;
    0; 2; 1;
    0; 4; 1;
    0; 3; 4;
    3; 2; 4;
    2; 1; 4 ].

Definition pyramid_vertices : M MatrixXf :=
  let vertices := MatrixXf_new 8 5 in
  (* Pyramid vertex 0. *)
  vertices ← assign_block vertices 0 0 3 1 (Vector3f 0 0 0);
  vertices ← assign_block vertices 3 0 3 1 (Vector3f 1 0 0);
  vertices ← assign_block vertices 6 0 2 1 (Vector2f 0 0);
  (* Pyramid vertex 1. *)
  vertices ← assign_block vertices 0 1 3 1 (Vector3f 2 0 0);
  vertices ← assign_block vertices 3 1 3 1 (Vector3f 0 1 0);
  vertices ← assign_block vertices 6 1 2 1 (Vector2f 0 1);
  (* Pyramid vertex 2. *)
  vertices ← assign_block vertices 0 2 3 1 (Vector3f 2 0 2);
  vertices ← assign_block vertices 3 2 3 1 (Vector3f 0 0 1);
  vertices ← assign_block vertices 6 2 2 1 (Vector2f 1 0);
  (* Pyramid vertex 3. *)
  vertices ← assign_block vertices 0 3 3 1 (Vector3f 0 0 2);
  vertices ← assign_block vertices 3 3 3 1 (Vector3f 1 0 0);
  vertices ← assign_block vertices 6 3 2 1 (Vector2f 1 1);
  (* Pyramid vertex 3 (the source's label; column 4). *)
  vertices ← assign_block vertices 0 4 3 1 (Vector3f 1 2 1);
  vertices ← assign_block vertices 3 4 3 1 (Vector3f 0 1 0);
  vertices ← assign_block vertices 6 4 2 1 (Vector2f 0 0);
  ret vertices.

(** Cube. *)
Definition indices2 : list Z :=
  [ 0; 3; 2;
    0; 2; 1;
    0; 4; 1;
    1; 5; 2;
    2; 6; 3;
    3; 7; 0;
    4; 5; 1;
    5; 6; 2;
    6; 7; 3;
    7; 4; 0;
    4; 7; 5;
    5; 7; 6 ].

Definition cube_vertices : M MatrixXf :=
  let vertices2 := MatrixXf_new 8 8 in
  (* Cube Vertex 0. *)
  vertices2 ← assign_block vertices2 0 0 3 1 (Vector3f 0 0 0);
  vertices2 ← assign_block vertices2 3 0 3 1 (Vector3f 1 0 0);
  vertices2 ← assign_block vertices2 6 0 2 1 (Vector2f 0 0);
  (* Cube Vertex 1. *)
  vertices2 ← assign_block vertices2 0 1 3 1 (Vector3f 2 0 0);
  vertices2 ← assign_block vertices2 3 1 3 1 (Vector3f 0 1 0);
  vertices2 ← assign_block vertices2 6 1 2 1 (Vector2f 0 1);
  (* Cube Vertex 2. *)
  vertices2 ← assign_block vertices2 0 2 3 1 (Vector3f 2 0 2);
  vertices2 ← assign_block vertices2 3 2 3 1 (Vector3f 0 0 1);
  vertices2 ← assign_block vertices2 6 2 2 1 (Vector2f 1 0);
  (* Cube Vertex 3. *)
  vertices2 ← assign_block vertices2 0 3 3 1 (Vector3f 0 0 2);
  vertices2 ← assign_block vertices2 3 3 3 1 (Vector3f 1 0 0);
  vertices2 ← assign_block vertices2 6 3 2 1 (Vector2f 1 1);
  (* Cube Vertex 4. *)
  vertices2 ← assign_block vertices2 0 0 3 1 (Vector3f 0 2 0);
  vertices2 ← assign_block vertices2 3 0 3 1 (Vector3f 1 0 0);
  vertices2 ← assign_block vertices2 6 0 2 1 (Vector2f 0 0);
  (* Cube Vertex 5. *)
  vertices2 ← assign_block vertices2 0 1 3 1 (Vector3f 2 2 0);
  vertices2 ← assign_block vertices2 3 1 3 1 (Vector3f 0 1 0);
  vertices2 ← assign_block vertices2 6 1 2 1 (Vector2f 0 1);
  (* Cube Vertex 6. *)
  vertices2 ← assign_block vertices2 0 2 3 1 (Vector3f 2 2 2);
  vertices2 ← assign_block vertices2 3 2 3 1 (Vector3f 0 0 1);
  vertices2 ← assign_block vertices2 6 2 2 1 (Vector2f 1 0);
  (* Cube Vertex 7. *)
  vertices2 ← assign_block vertices2 0 3 3 1 (Vector3f 0 2 2);
  vertices2 ← assign_block vertices2 3 3 3 1 (Vector3f 1 0 0);
  vertices2 ← assign_block vertices2 6 3 2 1 (Vector2f 1 1);
  ret vertices2.

(** [models_to_draw] is the vector the pointer refers to; the vector with
    the two models pushed is returned. *)
Definition ConstructModels (models_to_draw : list Model) : M (list Model) :=
  vertices ← pyramid_vertices;
  let pyramid :=
    mkModel (Vector3f 1 1 1) (Vector3f (-3) (-1) (-15)) vertices indices in
  call (Model_SetVerticesIntoGpu pyramid);;
  let models_to_draw := models_to_draw ++ [pyramid] in
  vertices2 ← cube_vertices;
  let cube :=
    mkModel (Vector3f 1 1 1) (Vector3f 1 (-1) (-15)) vertices2 indices2 in
  call (Model_SetVerticesIntoGpu cube);;
  let models_to_draw := models_to_draw ++ [cube] in
  ret models_to_draw.

Fixpoint DeleteModels (models_to_draw : list Model) : M unit :=
  match models_to_draw with
  | [] => ret ()
  | model :: models' => call (Model_delete model);; DeleteModels models'
  end.

(** ** Polling and the render loop *)

(** The windowing library delivers an event to the callback registered for
    it.  The file registers an error and a key callback only: it never
    calls [glfwSetCursorPosCallback] or [glfwSetScrollCallback], so cursor
    and scroll events reach no function of the file.  A close request (the
    window's close button) sets the window's flag. *)
Definition deliver (window : GLFWwindow) (e : Event) : M unit :=
  match e with
  | KeyEvent key scancode action mods =>
      f ← get key_callback;
      match f with
      | Some site => KeyCallback_at site window key scancode action mods
      | None => ret ()
      end
  | CursorPosEvent _ _ | ScrollEvent _ _ => ret ()
  | CloseRequest => modify (set_window_should_close true)
  | ErrorEvent error description =>
      f ← get error_callback;
      match f with
      | Some site => ErrorCallback_at site error description
      | None => ret ()
      end
  end.

Fixpoint deliver_all (window : GLFWwindow) (events : list Event) : M unit :=
  match events with
  | [] => ret ()
  | e :: events' => deliver window e;; deliver_all window events'
  end.

(** [glfwPollEvents()], given the events that are pending. *)
Definition PollEvents (window : GLFWwindow) (pending : list Event) : M unit :=
  call glfwPollEvents;;
  deliver_all window pending.

Section Main.

Variable w : World.
(** which definition the names [ErrorCallback] and [KeyCallback] in
    [main] stand for *)
Variables error_site key_site : Definition_site.

(** [while (!glfwWindowShouldClose(window)) { ... }]: [polls] holds, for
    every call of [glfwPollEvents] to come, the events pending then. *)
Fixpoint render_loop (shader_program : ShaderProgram)
    (projection view : Matrix4f) (models_to_draw : list Model)
    (window : GLFWwindow) (texture_ids : list Z)
    (polls : list (list Event)) : M unit :=
  should_close ← get window_should_close;
  if (should_close : bool) then ret () else
  match polls with
  | [] => stop awaiting_events
  | pending :: polls' =>
      RenderScene shader_program projection view models_to_draw
        window texture_ids;;
      call (glfwSwapBuffers window);;
      PollEvents window pending;;
      render_loop shader_program projection view models_to_draw
        window texture_ids polls'
  end.

Definition main (polls : list (list Event)) : M Z :=
  call gflags_ParseCommandLineFlags;;
  call google_InitGoogleLogging;;
  call glfwInit;;
  if negb (glfwInit_result w) then ret (-1) else
  call (glfwSetErrorCallback error_site);;
  modify (set_error_callback error_site);;
  SetWindowHints;;
  let window_name := "Assignment 4" in
  call (glfwCreateWindow kWindowWidth kWindowHeight window_name);;
  match glfwCreateWindow_result w with
  | None => call glfwTerminate;; ret (-1)
  | Some window =>
      call (glfwMakeContextCurrent window);;
      call (glfwSwapInterval 1);;
      call (glfwSetKeyCallback window key_site);;
      modify (set_key_callback key_site);;
      call glewInit;;
      if negb (glewInit_ok w) then
        call (std_cerr ("Glew did not initialize properly!" +:+ endl));;
        call glfwTerminate;;
        ret (-1)
      else
      ConfigureViewPort w window;;
      '(created, shader_program) ← CreateShaderProgram w (Some ShaderProgram_new);
      if negb created then ret (-1) else
      let shader_program := default ShaderProgram_new shader_program in
      models_to_draw ← ConstructModels [];
      texture_id_0 ← LoadTexture w (FLAGS_brick_filepath w);
      texture_id_1 ← LoadTexture w (FLAGS_stone_filepath w);
      let texture_ids := [texture_id_0; texture_id_1] in
      call (wvu_ConvertDegreesToRadians 45);;
      let field_of_view := ConvertDegreesToRadians w 45 in
      let aspect_ratio := float_of_int (int_div kWindowWidth kWindowHeight) in
      let near_plane := 0x1.99999ap-4%float in
      let far_plane := 20%float in
      call (wvu_ComputePerspectiveProjectionMatrix
              field_of_view aspect_ratio near_plane far_plane);;
      let projection :=
        ComputePerspectiveProjectionMatrix w
          field_of_view aspect_ratio near_plane far_plane in
      let view := Matrix4f_Identity in
      render_loop shader_program projection view models_to_draw
        window texture_ids polls;;
      DeleteModels models_to_draw;;
      call (glfwDestroyWindow window);;
      call glfwTerminate;;
      ret 0
  end.

End Main.

(** A run of [main] from the initial state. *)
Definition run_main (w : World) (error_site key_site : Definition_site)
    (polls : list (list Event)) : list Call * Result Z :=
  main w error_site key_site polls initial_state.

(** * Vocabulary of the properties *)

(** Every call a computation makes satisfies [P], whatever the state. *)
Definition emits (P : Call → Prop) {A} (m : M A) : Prop :=
  ∀ s, Forall P (calls (m s)).

(** The state a result carries, however the run ended. *)
Definition final_state {A} (r : Result A) : State :=
  match r with Done _ s | Stopped _ s => s end.

(** A held-key vector as the spec's data model has it: one entry per key
    code 0 to 1023, all released. *)
Definition no_key_held : list bool := replicate 1024 false.

(** A state in which both globals point to objects. *)
Definition wired_state (c : CameraController) (v : list bool) : State :=
  {| camera_controller_ptr := Some c; movement_vector_ptr := Some v;
     last_x_position := 0; last_y_position := 0; first_call := true;
     window_should_close := false;
     error_callback := None; key_callback := None;
     textures_generated := 0 |}.

(** The held-key vector with the entries of W and A set and every other
    entry clear. *)
Definition W_and_A_held : list bool :=
  <[Z.to_nat GLFW_KEY_W := true]> (<[Z.to_nat GLFW_KEY_A := true]> no_key_held).

(** Column [j] of a matrix, top to bottom. *)
Definition MatrixXf_col (m : MatrixXf) (j : nat) : list (option float) :=
  (λ row, default None (row !! j)) <$> m.

(** The eight rows of a vertex: position, colour, texture coordinate. *)
Definition vertex_column (position color texel : list float) : list (option float) :=
  Some <$> (position ++ color ++ texel).

(** What [ConstructModels] builds; neither matrix depends on the state. *)
Definition constructed (m : M MatrixXf) : MatrixXf :=
  match result (m initial_state) with
  | Done vertices _ => vertices
  | Stopped _ _ => []
  end.

Definition pyramid : Model :=
  mkModel (Vector3f 1 1 1) (Vector3f (-3) (-1) (-15))
    (constructed pyramid_vertices) indices.

Definition cube : Model :=
  mkModel (Vector3f 1 1 1) (Vector3f 1 (-1) (-15))
    (constructed cube_vertices) indices2.

(** The calls of the camera controller's methods. *)
Definition camera_controller_method (c : Call) : bool :=
  match c with
  | CameraController_MoveFront | CameraController_MoveBack
  | CameraController_MoveLeft | CameraController_MoveRight
  | CameraController_AddYawOffset _ | CameraController_AddPitchOffset _
  | CameraController_AdjustZoom _ => true
  | _ => false
  end.

(** The calls the body of the render loop makes itself: those of a frame. *)
Definition frame_call (c : Call) : bool :=
  match c with
  | glEnable _ | glClearColor _ _ _ _ | glClear _ | ShaderProgram_Use _
  | glPolygonMode _ _ | Model_Draw _ _ _ _ _ | glBindVertexArray _
  | glfwSwapBuffers _ | glfwPollEvents => true
  | _ => false
  end.

(** The calls the two registered callbacks can make while events are
    polled. *)
Definition callback_call (c : Call) : bool :=
  match c with
  | glfwSetWindowShouldClose _ _ | LOG_FATAL _ | std_cerr _ => true
  | _ => false
  end.

(** One frame, step by step: clear the buffers, activate the shader program,
    set wireframe polygon mode, draw every model with its own texture, reset
    the vertex-array binding, present the frame, poll the input events. *)
Definition frame_calls (program : Z) (projection view : Matrix4f)
    (models : list Model) (texture_ids : list Z) (window : GLFWwindow)
  : list Call :=
  [ glEnable GL_DEPTH_TEST; glClearColor 0 0 0 1;
    glClear (Z.lor GL_COLOR_BUFFER_BIT GL_DEPTH_BUFFER_BIT);
    ShaderProgram_Use program;
    glPolygonMode GL_FRONT_AND_BACK GL_LINE ]
  ++ zip_with (λ model texture_id,
                 Model_Draw model program projection view texture_id)
       models texture_ids
  ++ [ glBindVertexArray 0; glfwSwapBuffers window; glfwPollEvents ].


(** The calls of one [LoadTexture], for the texture name the device gives. *)
Definition texture_calls (w : World) (filepath : string) (texture_id : Z)
  : list Call :=
  [ CImg_load filepath; CImg_permute_axes "cxyz"; glGenTextures 1;
    glBindTexture GL_TEXTURE_2D texture_id;
    glTexParameteri GL_TEXTURE_2D GL_TEXTURE_WRAP_S GL_REPEAT;
    glTexParameteri GL_TEXTURE_2D GL_TEXTURE_WRAP_T GL_REPEAT;
    glTexParameteri GL_TEXTURE_2D GL_TEXTURE_MIN_FILTER GL_LINEAR;
    glTexParameteri GL_TEXTURE_2D GL_TEXTURE_MAG_FILTER GL_LINEAR;
    glTexImage2D GL_TEXTURE_2D 0 GL_RGB
      (image_width (image_at w filepath)) (image_height (image_at w filepath))
      0 GL_RGB GL_UNSIGNED_BYTE (image_data (image_at w filepath));
    glGenerateMipmap GL_TEXTURE_2D; glBindTexture GL_TEXTURE_2D 0 ].

(** The arguments [main] computes for the projection. *)
Definition field_of_view (w : World) : float := ConvertDegreesToRadians w 45.
Definition aspect_ratio : float :=
  float_of_int (int_div kWindowWidth kWindowHeight).
Definition near_plane : float := 0x1.99999ap-4.
Definition far_plane : float := 20.

Definition projection (w : World) : Matrix4f :=
  ComputePerspectiveProjectionMatrix w
    (field_of_view w) aspect_ratio near_plane far_plane.

(** Everything [main] calls before the first frame, once the window, the
    device extensions and the shader program are there. *)
Definition startup_calls (w : World) (error_site key_site : Definition_site)
    (window : GLFWwindow) : list Call :=
  [ gflags_ParseCommandLineFlags; google_InitGoogleLogging; glfwInit;
    glfwSetErrorCallback error_site;
    glfwWindowHint GLFW_CONTEXT_VERSION_MAJOR 3;
    glfwWindowHint GLFW_CONTEXT_VERSION_MINOR 2;
    glfwWindowHint GLFW_OPENGL_PROFILE GLFW_OPENGL_CORE_PROFILE;
    glfwWindowHint GLFW_OPENGL_FORWARD_COMPAT GL_TRUE;
    glfwWindowHint GLFW_RESIZABLE GL_FALSE;
    glfwCreateWindow kWindowWidth kWindowHeight "Assignment 4";
    glfwMakeContextCurrent window; glfwSwapInterval 1;
    glfwSetKeyCallback window key_site; glewInit;
    glViewport 0 0 (framebuffer_size w).1 (framebuffer_size w).2;
    ShaderProgram_LoadVertexShaderFromString vertex_shader_src;
    ShaderProgram_LoadFragmentShaderFromString fragment_shader_src;
    ShaderProgram_Create;
    Model_SetVerticesIntoGpu pyramid; Model_SetVerticesIntoGpu cube ]
  ++ texture_calls w (FLAGS_brick_filepath w) (texture_name w 0)
  ++ texture_calls w (FLAGS_stone_filepath w) (texture_name w 1)
  ++ [ wvu_ConvertDegreesToRadians 45;
       wvu_ComputePerspectiveProjectionMatrix
         (field_of_view w) aspect_ratio near_plane far_plane ].

(** What [main] calls after the loop. *)
Definition teardown_calls (window : GLFWwindow) : list Call :=
  [ Model_delete pyramid; Model_delete cube;
    glfwDestroyWindow window; glfwTerminate ].

(** The state in which [main] enters the loop. *)
Definition loop_entry_state (error_site key_site : Definition_site) : State :=
  {| camera_controller_ptr := None; movement_vector_ptr := None;
     last_x_position := 0; last_y_position := 0; first_call := true;
     window_should_close := false;
     error_callback := Some error_site; key_callback := Some key_site;
     textures_generated := 2 |}.

(** The program object after a successful [Create]. *)
Definition linked_program (program : positive) : ShaderProgram :=
  mkShaderProgram (Some vertex_shader_src) (Some fragment_shader_src)
    (Z.pos program).

(** Cursor and scroll events: no callback of the file is registered for
    them. *)
Definition pointer_event (e : Event) : bool :=
  match e with
  | CursorPosEvent _ _ | ScrollEvent _ _ => true
  | _ => false
  end.

(** A world in which every initialisation step succeeds. *)
Definition example_world : World :=
  {| command_line := ∅;
     FLAGS_brick_filepath := "brick.bmp";
     FLAGS_stone_filepath := "stone.bmp";
     glfwInit_result := true;
     glfwCreateWindow_result := Some 1;
     glewInit_ok := true;
     framebuffer_size := (640, 480);
     link_result := inr 3%positive;
     image_at := λ _, mkImage 2 2 "pixels";
     texture_name := λ n, Z.of_nat (S n);
     ConvertDegreesToRadians := λ d, (d * 0x1.921fb54442d18p+1 / 180)%float;
     (* the OpenGL perspective matrix, with the cotangent of pi/8 for the
        field of view [main] asks for *)
     ComputePerspectiveProjectionMatrix := λ _ aspect near far,
       let f := 0x1.3504f333f9de6p+1%float in
       [ [f / aspect; 0; 0; 0];
         [0; f; 0; 0];
         [0; 0; (far + near) / (near - far); 2 * far * near / (near - far)];
         [0; 0; -1; 0] ]%float |}.

(** Whether the four initialisation steps of [main] succeed: the windowing
    library, the window, the device extensions, the shader program. *)
Definition initialises (w : World) : bool :=
  glfwInit_result w
  && match glfwCreateWindow_result w with Some _ => true | None => false end
  && glewInit_ok w
  && match link_result w with inr _ => true | inl _ => false end.

(** A draw call is given the identity as its view matrix. *)
Definition drawn_with_identity_view (c : Call) : Prop :=
  match c with
  | Model_Draw _ _ _ view _ => view = Matrix4f_Identity
  | _ => True
  end.

Definition is_projection_call (c : Call) : bool :=
  match c with
  | wvu_ComputePerspectiveProjectionMatrix _ _ _ _ => true
  | _ => false
  end.

Definition is_image_load (c : Call) : bool :=
  match c with
  | CImg_load _ => true
  | _ => false
  end.

(** The same world with another command line. *)
Definition with_command_line (flags : gmap string string) (w : World) : World :=
  {| command_line := flags;
     FLAGS_brick_filepath := FLAGS_brick_filepath w;
     FLAGS_stone_filepath := FLAGS_stone_filepath w;
     glfwInit_result := glfwInit_result w;
     glfwCreateWindow_result := glfwCreateWindow_result w;
     glewInit_ok := glewInit_ok w;
     framebuffer_size := framebuffer_size w;
     link_result := link_result w;
     image_at := image_at w;
     texture_name := texture_name w;
     ConvertDegreesToRadians := ConvertDegreesToRadians w;
     ComputePerspectiveProjectionMatrix := ComputePerspectiveProjectionMatrix w |}.

(** A world in which the device refuses to link the shader program. *)
Definition world_without_shader_program : World :=
  {| command_line := command_line example_world;
     FLAGS_brick_filepath := FLAGS_brick_filepath example_world;
     FLAGS_stone_filepath := FLAGS_stone_filepath example_world;
     glfwInit_result := true;
     glfwCreateWindow_result := Some 1;
     glewInit_ok := true;
     framebuffer_size := (640, 480);
     link_result := inl "0:1(1): error: syntax error";
     image_at := image_at example_world;
     texture_name := texture_name example_world;
     ConvertDegreesToRadians := ConvertDegreesToRadians example_world;
     ComputePerspectiveProjectionMatrix :=
       ComputePerspectiveProjectionMatrix example_world |}.

Definition is_close_request (e : Event) : bool :=
  match e with CloseRequest => true | _ => false end.

(** ** Vocabulary of the further properties *)

(** Whether the held-key vector has the entry of [key] set. *)
Definition held (v : list bool) (key : Z) : bool :=
  default false (v !! Z.to_nat key).

(** The controller calls [UpdateCameraPose] owes to a held-key vector: one
    per movement key held, in the order the function tests them. *)
Definition movement_calls (v : list bool) : list Call :=
  (if held v GLFW_KEY_W then [CameraController_MoveFront] else [])
  ++ (if held v GLFW_KEY_S then [CameraController_MoveBack] else [])
  ++ (if held v GLFW_KEY_A then [CameraController_MoveLeft] else [])
  ++ (if held v GLFW_KEY_D then [CameraController_MoveRight] else []).

(** The movement a key stands for in [UpdateCameraPose]. *)
Definition move_call (key : Z) : option Call :=
  if key =? GLFW_KEY_W then Some CameraController_MoveFront
  else if key =? GLFW_KEY_S then Some CameraController_MoveBack
  else if key =? GLFW_KEY_A then Some CameraController_MoveLeft
  else if key =? GLFW_KEY_D then Some CameraController_MoveRight
  else None.

(** The test [key == GLFW_KEY_ESCAPE && action == GLFW_PRESS]. *)
Definition escape_pressed (key action : Z) : bool :=
  (key =? GLFW_KEY_ESCAPE) && (action =? GLFW_PRESS).

(** An event that reaches no code of the file, or none that acts on it:
    a cursor or scroll event; a key event that is not Escape pressed and
    that the registered [KeyCallback] does not record (the second
    definition records none; the first records presses and releases of the
    keys 0 to 1023). *)
Definition inert_event (key_site : Definition_site) (e : Event) : bool :=
  match e with
  | CursorPosEvent _ _ | ScrollEvent _ _ => true
  | KeyEvent key _ action _ =>
      negb (escape_pressed key action)
      && match key_site with
         | second_definition => true
         | first_definition =>
             negb ((0 <=? key) && (key <? 1024)
                   && ((action =? GLFW_PRESS) || (action =? GLFW_RELEASE)))
         end
  | CloseRequest | ErrorEvent _ _ => false
  end.

(** The polls with the inert events left out. *)
Definition without_inert_events (key_site : Definition_site)
    (polls : list (list Event)) : list (list Event) :=
  List.filter (λ e, negb (inert_event key_site e)) <$> polls.

(** The model a call uploads to the device, or deletes. *)
Definition uploaded_model (c : Call) : option Model :=
  match c with Model_SetVerticesIntoGpu model => Some model | _ => None end.

Definition deleted_model (c : Call) : option Model :=
  match c with Model_delete model => Some model | _ => None end.

Definition is_draw (c : Call) : bool :=
  match c with Model_Draw _ _ _ _ _ => true | _ => false end.

(** The part of the state that only the camera wiring would change: the two
    global pointers and the statics of [MouseCallback]. *)
Definition camera_wiring (s : State)
  : option CameraController * option (list bool) * Z * Z * bool :=
  (camera_controller_ptr s, movement_vector_ptr s,
   last_x_position s, last_y_position s, first_call s).

(** The two calls that give the window and the windowing library back. *)
Definition is_cleanup (c : Call) : bool :=
  match c with
  | glfwTerminate | glfwDestroyWindow _ => true
  | _ => false
  end.

(** The callbacks registered with the windowing library. *)
Definition registered (s : State) : option Definition_site * option Definition_site :=
  (error_callback s, key_callback s).

(** No camera wiring: both pointers null, the statics of [MouseCallback]
    as they are initialised. *)
Definition unwired : option CameraController * option (list bool) * Z * Z * bool :=
  (None, None, 0, 0, true).


(** The OpenGL functions this file calls itself. *)
Definition is_gl_call (c : Call) : bool :=
  match c with
  | glViewport _ _ _ _ | glEnable _ | glClearColor _ _ _ _ | glClear _
  | glPolygonMode _ _ | glBindVertexArray _ | glGenTextures _
  | glBindTexture _ _ | glTexParameteri _ _ _
  | glTexImage2D _ _ _ _ _ _ _ _ _ | glGenerateMipmap _ => true
  | _ => false
  end.

(** The calls of [main] up to and with [glewInit], when the window exists. *)
Definition context_calls (error_site key_site : Definition_site)
    (window : GLFWwindow) : list Call :=
  [ gflags_ParseCommandLineFlags; google_InitGoogleLogging; glfwInit;
    glfwSetErrorCallback error_site;
    glfwWindowHint GLFW_CONTEXT_VERSION_MAJOR 3;
    glfwWindowHint GLFW_CONTEXT_VERSION_MINOR 2;
    glfwWindowHint GLFW_OPENGL_PROFILE GLFW_OPENGL_CORE_PROFILE;
    glfwWindowHint GLFW_OPENGL_FORWARD_COMPAT GL_TRUE;
    glfwWindowHint GLFW_RESIZABLE GL_FALSE;
    glfwCreateWindow kWindowWidth kWindowHeight "Assignment 4";
    glfwMakeContextCurrent window; glfwSwapInterval 1;
    glfwSetKeyCallback window key_site; glewInit ].
(** * Properties *)

(** ** Running computations *)

Lemma bind_unfold {A B} (m : M A) (f : A → M B) (s : State) :
  (m ≫= f) s =
  match m s with
  | (t, Done a s') => let '(t', r) := f a s' in (t ++ t', r)
  | (t, Stopped why s') => (t, Stopped why s')
  end.
Proof. reflexivity. Qed.

Lemma bind_done {A B} (m : M A) (f : A → M B) s t a s' :
  m s = (t, Done a s') →
  (m ≫= f) s = (t ++ calls (f a s'), result (f a s')).
Proof. intros Hm. rewrite bind_unfold, Hm. by destruct (f a s'). Qed.

Lemma bind_stopped {A B} (m : M A) (f : A → M B) s t why s' :
  m s = (t, Stopped why s') →
  (m ≫= f) s = (t, Stopped why s').
Proof. intros Hm. by rewrite bind_unfold, Hm. Qed.

Lemma bind_run {A B} (m : M A) (f : A → M B) s t a s' t' r :
  m s = (t, Done a s') →
  f a s' = (t', r) →
  (m ≫= f) s = (t ++ t', r).
Proof. intros Hm Hf. by rewrite bind_unfold, Hm, Hf. Qed.

(** One step of a run: the first computation of a sequence is run by [tac],
    the rest is left as the goal. *)
Ltac run_bind tac := eapply bind_run; [ tac | cbn beta iota delta [when] ].

Section Emits.

Context (P : Call → Prop).

Lemma emits_ret {A} (a : A) : emits P (mret a).
Proof. intros s. constructor. Qed.

Lemma emits_stop {A} why : emits P (@stop A why).
Proof. intros s. constructor. Qed.

Lemma emits_get {A} (f : State → A) : emits P (get f).
Proof. intros s. constructor. Qed.

Lemma emits_modify f : emits P (modify f).
Proof. intros s. constructor. Qed.

Lemma emits_call c : P c → emits P (call c).
Proof. intros Hc s. by repeat constructor. Qed.

Lemma emits_checked {A} (o : option A) : emits P (checked o).
Proof. destruct o; intros s; constructor. Qed.

Lemma emits_bind {A B} (m : M A) (f : A → M B) :
  emits P m → (∀ a, emits P (f a)) → emits P (m ≫= f).
Proof.
  intros Hm Hf s. rewrite bind_unfold.
  specialize (Hm s). destruct (m s) as [t [a s'|why s']]; [|done].
  specialize (Hf a s'). destruct (f a s') as [t' r].
  apply Forall_app; split; assumption.
Qed.

Lemma emits_when b (m : M unit) : emits P m → emits P (when b m).
Proof. destruct b; [done|]. intros _. apply emits_ret. Qed.

End Emits.


(** ** The key callback *)

Lemma movement_vector_at_assign_in_range s v key b :
  movement_vector_ptr s = Some v →
  0 ≤ key < Z.of_nat (length v) →
  movement_vector_at_assign key b s =
    ([], Done () (set_movement_vector (<[Z.to_nat key := b]> v) s)).
Proof.
  intros Hv Hkey. unfold movement_vector_at_assign. rewrite Hv.
  destruct (0 <=? key) eqn:H0; [|lia].
  destruct (key <? Z.of_nat (length v)) eqn:H1; [done|lia].
Qed.

Lemma movement_vector_at_assign_length s v key b :
  movement_vector_ptr s = Some v →
  ∃ v', movement_vector_ptr (final_state (result (movement_vector_at_assign key b s)))
        = Some v' ∧ length v' = length v.
Proof.
  intros Hv. unfold movement_vector_at_assign. rewrite Hv.
  destruct ((0 <=? key) && (key <? Z.of_nat (length v))); simpl.
  - eexists; split; [done|]. apply length_insert.
  - by exists v.
Qed.

Lemma SetWindowShouldClose_run window value s :
  SetWindowShouldClose window value s =
    ([glfwSetWindowShouldClose window value],
     Done () (set_window_should_close (negb (value =? 0)) s)).
Proof. reflexivity. Qed.

(** The escape test of [KeyCallback] leaves the held-key vector alone. *)
Lemma KeyCallback_escape_step window key action s :
  ∃ t s',
    when ((key =? GLFW_KEY_ESCAPE) && (action =? GLFW_PRESS))
      (SetWindowShouldClose window GL_TRUE) s = (t, Done () s') ∧
    movement_vector_ptr s' = movement_vector_ptr s.
Proof.
  destruct ((key =? GLFW_KEY_ESCAPE) && (action =? GLFW_PRESS)); simpl.
  - rewrite SetWindowShouldClose_run. by eexists _, _.
  - by eexists _, _.
Qed.

(** C6.  [KeyCallback] (the definition with the held-key vector, lines 99 to
    115), called with the global pointing to a vector [v].  Whatever the
    key, the action and the size of [v], the vector the callback leaves has
    the length of [v], and a key outside [0, 1024) leaves it as it was: no
    entry outside the vector is written.  When [v] has the 1024 entries of
    the data model the callback returns, and for a key in [0, 1024) a press
    sets the entry of the key to [true], a release sets it to [false]. *)
Theorem KeyCallback_records_held_keys
    (s : State) (v : list bool) (window key scancode action mods : Z) :
  movement_vector_ptr s = Some v →
  let r := result (UserInputCallbacks.KeyCallback window key scancode action mods s) in
  (∃ v', movement_vector_ptr (final_state r) = Some v' ∧
         length v' = length v ∧
         (¬ (0 ≤ key < 1024) → v' = v)) ∧
  (length v = 1024%nat →
   ∃ s', r = Done () s' ∧
     (0 ≤ key < 1024 → action = GLFW_PRESS →
      movement_vector_ptr s' = Some (<[Z.to_nat key := true]> v)) ∧
     (0 ≤ key < 1024 → action = GLFW_RELEASE →
      movement_vector_ptr s' = Some (<[Z.to_nat key := false]> v))).
Proof.
  intros Hv r. subst r. unfold UserInputCallbacks.KeyCallback.
  destruct (KeyCallback_escape_step window key action s) as (t & s1 & Hesc & Hs1).
  rewrite (bind_done _ _ _ _ _ _ Hesc). rewrite <- Hs1 in Hv.
  unfold result; simpl.
  destruct ((0 <=? key) && (key <? 1024)) eqn:Hrange; simpl.
  - apply andb_true_iff in Hrange as [H0 H1].
    apply Z.leb_le in H0. apply Z.ltb_lt in H1.
    split.
    + destruct (action =? GLFW_PRESS);
        [|destruct (action =? GLFW_RELEASE)];
        try (destruct (movement_vector_at_assign_length s1 v key true Hv)
               as (v' & Hv' & Hlen); exists v'; split; [done|split; [done|lia]]);
        try (destruct (movement_vector_at_assign_length s1 v key false Hv)
               as (v' & Hv' & Hlen); exists v'; split; [done|split; [done|lia]]).
      exists v. simpl. split; [done|split; [done|lia]].
    + intros Hlen.
      assert (0 ≤ key < Z.of_nat (length v)) as Hin by (rewrite Hlen; lia).
      destruct (action =? GLFW_PRESS) eqn:Hp.
      * rewrite (movement_vector_at_assign_in_range _ _ _ _ Hv Hin).
        eexists; split; [done|]. split; [done|].
        intros _ Hr. apply Z.eqb_eq in Hp. rewrite Hr in Hp. discriminate.
      * destruct (action =? GLFW_RELEASE) eqn:Hr.
        -- rewrite (movement_vector_at_assign_in_range _ _ _ _ Hv Hin).
           eexists; split; [done|]. split; [|done].
           intros _ Hp'. rewrite Hp' in Hp. discriminate.
        -- eexists; split; [done|].
           split; intros _ Ha; rewrite Ha in *; discriminate.
  - assert (¬ (0 ≤ key < 1024)) as Hout.
    { intros [H0 H1]. apply andb_false_iff in Hrange as [H|H];
        [apply Z.leb_gt in H | apply Z.ltb_ge in H]; lia. }
    split.
    + by exists v.
    + intros _. eexists; split; [done|]. split; intros Hin; by destruct Hout.
Qed.

(** An instance: W is pressed while no key is held. *)
Lemma KeyCallback_records_held_keys_witness :
  let s := wired_state (mkCameraController 1) no_key_held in
  let r := result (UserInputCallbacks.KeyCallback 1 GLFW_KEY_W 17 GLFW_PRESS 0 s) in
  (∃ v', movement_vector_ptr (final_state r) = Some v' ∧
         length v' = length no_key_held ∧
         (¬ (0 ≤ GLFW_KEY_W < 1024) → v' = no_key_held)) ∧
  (length no_key_held = 1024%nat →
   ∃ s', r = Done () s' ∧
     (0 ≤ GLFW_KEY_W < 1024 → GLFW_PRESS = GLFW_PRESS →
      movement_vector_ptr s' = Some (<[Z.to_nat GLFW_KEY_W := true]> no_key_held)) ∧
     (0 ≤ GLFW_KEY_W < 1024 → GLFW_PRESS = GLFW_RELEASE →
      movement_vector_ptr s' = Some (<[Z.to_nat GLFW_KEY_W := false]> no_key_held))).
Proof.
  apply (KeyCallback_records_held_keys
           (wired_state (mkCameraController 1) no_key_held) no_key_held).
  reflexivity.
Defined.

(** The spec's boundary test: key codes 1024 and -1 are ignored. *)
Example KeyCallback_key_1024 :
  UserInputCallbacks.KeyCallback 1 1024 0 GLFW_PRESS 0
    (wired_state (mkCameraController 1) no_key_held)
  = ([], Done () (wired_state (mkCameraController 1) no_key_held)).
Proof. reflexivity. Qed.

Example KeyCallback_key_minus_1 :
  UserInputCallbacks.KeyCallback 1 (-1) 0 GLFW_RELEASE 0
    (wired_state (mkCameraController 1) W_and_A_held)
  = ([], Done () (wired_state (mkCameraController 1) W_and_A_held)).
Proof. reflexivity. Qed.

(** The key callback's second definition never touches the vector. *)
Lemma second_KeyCallback_leaves_held_keys window key scancode action mods s :
  movement_vector_ptr
    (final_state (result (SecondDefinitions.KeyCallback window key scancode action mods s)))
  = movement_vector_ptr s.
Proof.
  unfold SecondDefinitions.KeyCallback.
  destruct (KeyCallback_escape_step window key action s) as (t & s' & -> & Hs').
  done.
Qed.

(** ** The per-frame camera update *)

Lemma movement_vector_at_lookup s v key b :
  movement_vector_ptr s = Some v →
  0 ≤ key →
  v !! Z.to_nat key = Some b →
  movement_vector_at key s = ([], Done b s).
Proof.
  intros Hv Hkey Hb. unfold movement_vector_at. rewrite Hv.
  destruct (0 <=? key) eqn:H0; [|lia]. by rewrite Hb.
Qed.

Lemma camera_controller_call_run s c call_made :
  camera_controller_ptr s = Some c →
  camera_controller_call call_made s = ([call_made], Done () s).
Proof. intros Hc. unfold camera_controller_call. by rewrite Hc. Qed.

Lemma W_and_A_held_lookup (k : nat) (b : bool) :
  W_and_A_held !! k = Some b →
  b = bool_decide (k = Z.to_nat GLFW_KEY_W ∨ k = Z.to_nat GLFW_KEY_A).
Proof.
  unfold W_and_A_held, no_key_held. intros Hk.
  destruct (decide (k = Z.to_nat GLFW_KEY_W)) as [->|HW].
  { vm_compute in Hk. by inversion Hk. }
  rewrite list_lookup_insert_ne in Hk by done.
  destruct (decide (k = Z.to_nat GLFW_KEY_A)) as [->|HA].
  { vm_compute in Hk. by inversion Hk. }
  rewrite list_lookup_insert_ne in Hk by done.
  apply lookup_replicate in Hk as [-> _].
  symmetry. apply bool_decide_eq_false. tauto.
Qed.

(** C8.  With the entries of W and A set in the held-key vector and every
    other entry clear, one call of [UpdateCameraPose] calls [MoveFront] once,
    then [MoveLeft] once, and no other method of the controller: the two
    displacements are both applied, one after the other, with no step that
    rescales their sum.  It changes nothing of the file's own state. *)
Theorem UpdateCameraPose_W_and_A
    (s : State) (c : CameraController) (v : list bool) :
  camera_controller_ptr s = Some c →
  movement_vector_ptr s = Some v →
  v !! Z.to_nat GLFW_KEY_W = Some true →
  v !! Z.to_nat GLFW_KEY_A = Some true →
  (∀ (k : nat) (b : bool), v !! k = Some b →
     b = bool_decide (k = Z.to_nat GLFW_KEY_W ∨ k = Z.to_nat GLFW_KEY_A)) →
  UserInputCallbacks.UpdateCameraPose s
  = ([CameraController_MoveFront; CameraController_MoveLeft], Done () s).
Proof.
  intros Hc Hv HW HA Hother.
  assert (Z.to_nat GLFW_KEY_W < length v)%nat as Hlen
    by (by eapply lookup_lt_Some).
  assert (v !! Z.to_nat GLFW_KEY_S = Some false) as HS.
  { destruct (lookup_lt_is_Some_2 v (Z.to_nat GLFW_KEY_S)) as [b Hb].
    - vm_compute in Hlen |- *. lia.
    - rewrite Hb. f_equal. by rewrite (Hother _ _ Hb). }
  assert (v !! Z.to_nat GLFW_KEY_D = Some false) as HD.
  { destruct (lookup_lt_is_Some_2 v (Z.to_nat GLFW_KEY_D)) as [b Hb].
    - vm_compute in Hlen |- *. lia.
    - rewrite Hb. f_equal. by rewrite (Hother _ _ Hb). }
  unfold UserInputCallbacks.UpdateCameraPose.
  etrans.
  { run_bind ltac:(by apply (movement_vector_at_lookup s v GLFW_KEY_W true)).
    run_bind ltac:(by apply (camera_controller_call_run s c)).
    run_bind ltac:(by apply (movement_vector_at_lookup s v GLFW_KEY_S false)).
    run_bind ltac:(reflexivity).
    run_bind ltac:(by apply (movement_vector_at_lookup s v GLFW_KEY_A true)).
    run_bind ltac:(by apply (camera_controller_call_run s c)).
    run_bind ltac:(by apply (movement_vector_at_lookup s v GLFW_KEY_D false)).
    reflexivity. }
  reflexivity.
Qed.

(** An instance: the vector of 1024 entries with exactly W and A set. *)
Lemma UpdateCameraPose_W_and_A_witness :
  UserInputCallbacks.UpdateCameraPose (wired_state (mkCameraController 1) W_and_A_held)
  = ([CameraController_MoveFront; CameraController_MoveLeft],
     Done () (wired_state (mkCameraController 1) W_and_A_held)).
Proof.
  apply (UpdateCameraPose_W_and_A _ (mkCameraController 1) W_and_A_held);
    [reflexivity | reflexivity | reflexivity | reflexivity
    | apply W_and_A_held_lookup].
Defined.

(** ** The cursor-position callback *)

Lemma store_last_position_run x_position y_position x y s :
  int_of_double x_position = Some x →
  int_of_double y_position = Some y →
  UserInputCallbacks.store_last_position x_position y_position s
  = ([], Done () (set_last_position x y s)).
Proof.
  intros Hx Hy. unfold UserInputCallbacks.store_last_position.
  by rewrite Hx, Hy.
Qed.

Lemma camera_controller_rotation_sensitivity_run s c :
  camera_controller_ptr s = Some c →
  camera_controller_rotation_sensitivity s = ([], Done (rotation_sensitivity c) s).
Proof. intros Hc. unfold camera_controller_rotation_sensitivity. by rewrite Hc. Qed.

(** C7.  [MouseCallback], called with the controller pointer set, at a
    cursor position whose coordinates an [int] can hold ([x] and [y] are the
    coordinates with their fraction dropped, as the two [int] statics store
    them).  On the first call only, the stored last position is seeded from
    the current one before the offsets are computed; on every call the
    callback passes sensitivity * (current x - last x) to [AddYawOffset],
    then sensitivity * (last y - current y) to [AddPitchOffset], and then
    stores the current position as the last one; after the call the
    first-call flag is clear. *)
Theorem MouseCallback_offsets
    (s : State) (c : CameraController) (window : GLFWwindow)
    (x_position y_position : float) (x y : Z) :
  camera_controller_ptr s = Some c →
  int_of_double x_position = Some x →
  int_of_double y_position = Some y →
  let last_x := if first_call s then x else last_x_position s in
  let last_y := if first_call s then y else last_y_position s in
  ∃ s',
    UserInputCallbacks.MouseCallback window x_position y_position s
    = ([CameraController_AddYawOffset
          (rotation_sensitivity c * (x_position - float_of_int last_x))%float;
        CameraController_AddPitchOffset
          (rotation_sensitivity c * (float_of_int last_y - y_position))%float],
       Done () s') ∧
    last_x_position s' = x ∧ last_y_position s' = y ∧ first_call s' = false ∧
    camera_controller_ptr s' = camera_controller_ptr s ∧
    movement_vector_ptr s' = movement_vector_ptr s ∧
    window_should_close s' = window_should_close s.
Proof.
  intros Hc Hx Hy last_x last_y.
  unfold UserInputCallbacks.MouseCallback.
  destruct (first_call s) eqn:Hfirst; subst last_x last_y.
  - eexists; split.
    + etrans.
      { run_bind ltac:(reflexivity). rewrite Hfirst.
        run_bind ltac:(
          run_bind ltac:(by apply (store_last_position_run _ _ x y));
          reflexivity).
        run_bind ltac:(by apply (camera_controller_rotation_sensitivity_run _ c)).
        run_bind ltac:(reflexivity).
        run_bind ltac:(by apply (camera_controller_call_run _ c)).
        run_bind ltac:(by apply (camera_controller_rotation_sensitivity_run _ c)).
        run_bind ltac:(reflexivity).
        run_bind ltac:(by apply (camera_controller_call_run _ c)).
        by apply (store_last_position_run _ _ x y). }
      reflexivity.
    + done.
  - eexists; split.
    + etrans.
      { run_bind ltac:(reflexivity). rewrite Hfirst.
        run_bind ltac:(reflexivity).
        run_bind ltac:(by apply (camera_controller_rotation_sensitivity_run _ c)).
        run_bind ltac:(reflexivity).
        run_bind ltac:(by apply (camera_controller_call_run _ c)).
        run_bind ltac:(by apply (camera_controller_rotation_sensitivity_run _ c)).
        run_bind ltac:(reflexivity).
        run_bind ltac:(by apply (camera_controller_call_run _ c)).
        by apply (store_last_position_run _ _ x y). }
      reflexivity.
    + done.
Qed.

(** An instance: the first call, at (100.5, 200.25), with sensitivity 0.5. *)
Lemma MouseCallback_offsets_witness :
  ∃ s',
    UserInputCallbacks.MouseCallback 1 100.5 200.25
      (wired_state (mkCameraController 0.5) no_key_held)
    = ([CameraController_AddYawOffset (0.5 * (100.5 - float_of_int 100))%float;
        CameraController_AddPitchOffset (0.5 * (float_of_int 200 - 200.25))%float],
       Done () s') ∧
    last_x_position s' = 100 ∧ last_y_position s' = 200 ∧ first_call s' = false ∧
    camera_controller_ptr s' = Some (mkCameraController 0.5) ∧
    movement_vector_ptr s' = Some no_key_held ∧
    window_should_close s' = false.
Proof.
  apply (MouseCallback_offsets
           (wired_state (mkCameraController 0.5) no_key_held)
           (mkCameraController 0.5) 1 100.5 200.25 100 200);
    reflexivity.
Defined.

(** The first call, at (100.5, 200.25) with sensitivity 0.5: the statics
    are seeded with (100, 200), so the offsets are half the fractions, not
    half the distance from the origin. *)
Example MouseCallback_first_call :
  calls (UserInputCallbacks.MouseCallback 1 100.5 200.25
           (wired_state (mkCameraController 0.5) no_key_held))
  = [CameraController_AddYawOffset 0.25; CameraController_AddPitchOffset (-0.125)].
Proof. reflexivity. Qed.

(** A later call, from (100, 200) to (103, 198.25): a move right and up. *)
Example MouseCallback_later_call :
  calls (UserInputCallbacks.MouseCallback 1 103 198.25
           (set_first_call false
              (set_last_position 100 200
                 (wired_state (mkCameraController 0.5) no_key_held))))
  = [CameraController_AddYawOffset 1.5; CameraController_AddPitchOffset 0.875].
Proof. reflexivity. Qed.

(** [MouseCallback] is never registered, and in [main] the controller
    pointer is null: called then, it stops at the first dereference. *)
Example MouseCallback_null_controller :
  UserInputCallbacks.MouseCallback 1 100.5 200.25 initial_state
  = ([], Stopped null_dereference
           (set_first_call false (set_last_position 100 200 initial_state))).
Proof. reflexivity. Qed.

(** ** The error callback *)

(** C9.  [ErrorCallback] (the definition of line 77, [LOG(FATAL)]): every
    call logs the description it is given at severity FATAL, which aborts
    the process; the callback does not return and nothing is retried.  The
    same holds when the windowing library reports an error to it as the
    registered callback. *)
Theorem ErrorCallback_reports_and_terminates
    (error : Z) (description : string) (s : State) :
  UserInputCallbacks.ErrorCallback error description s
  = ([LOG_FATAL description], Stopped aborted s) ∧
  ∀ window : GLFWwindow,
    error_callback s = Some first_definition →
    deliver window (ErrorEvent error description) s
    = ([LOG_FATAL description], Stopped aborted s).
Proof.
  split; [reflexivity|].
  intros window Hcb. unfold deliver.
  etrans.
  { run_bind ltac:(reflexivity). rewrite Hcb. reflexivity. }
  reflexivity.
Qed.

(** The second definition of [ErrorCallback] (line 195) writes the
    description to the error stream and returns. *)
Lemma second_ErrorCallback_returns (error : Z) (description : string) (s : State) :
  SecondDefinitions.ErrorCallback error description s
  = ([std_cerr ("ERROR: " +:+ description +:+ endl)], Done () s).
Proof. reflexivity. Qed.

(** ** The models *)

Lemma ConstructModels_run models_to_draw s :
  ConstructModels models_to_draw s
  = ([Model_SetVerticesIntoGpu pyramid; Model_SetVerticesIntoGpu cube],
     Done (models_to_draw ++ [pyramid] ++ [cube]) s).
Proof.
  assert (pyramid_vertices s = ([], Done (constructed pyramid_vertices) s)) as Hp
    by (vm_compute; reflexivity).
  assert (cube_vertices s = ([], Done (constructed cube_vertices) s)) as Hc
    by (vm_compute; reflexivity).
  unfold ConstructModels. etrans.
  { run_bind ltac:(exact Hp).
    run_bind ltac:(reflexivity).
    run_bind ltac:(exact Hc).
    run_bind ltac:(reflexivity).
    reflexivity. }
  simpl. by rewrite <- app_assoc.
Qed.

(** C10.  [ConstructModels] builds the cube's vertex matrix with 8 rows and
    8 columns.  When the cube is constructed and uploaded, columns 0 to 3
    hold the vertices written under the labels "Cube Vertex 4" to "Cube
    Vertex 7" (the vertices 0 to 3 written first are overwritten), and no
    coefficient of columns 4 to 7 was ever assigned; the cube's index list
    refers to each of the columns 4 to 7, and to none beyond 7. *)
Theorem ConstructModels_cube_columns (models_to_draw : list Model) (s : State) :
  ConstructModels models_to_draw s
  = ([Model_SetVerticesIntoGpu pyramid; Model_SetVerticesIntoGpu cube],
     Done (models_to_draw ++ [pyramid] ++ [cube]) s) ∧
  MatrixXf_rows (model_vertices cube) = 8%nat ∧
  Forall (λ row, length row = 8%nat) (model_vertices cube) ∧
  MatrixXf_col (model_vertices cube) 0
    = vertex_column (Vector3f 0 2 0) (Vector3f 1 0 0) (Vector2f 0 0) ∧
  MatrixXf_col (model_vertices cube) 1
    = vertex_column (Vector3f 2 2 0) (Vector3f 0 1 0) (Vector2f 0 1) ∧
  MatrixXf_col (model_vertices cube) 2
    = vertex_column (Vector3f 2 2 2) (Vector3f 0 0 1) (Vector2f 1 0) ∧
  MatrixXf_col (model_vertices cube) 3
    = vertex_column (Vector3f 0 2 2) (Vector3f 1 0 0) (Vector2f 1 1) ∧
  (∀ j : nat, (4 ≤ j < 8)%nat →
     MatrixXf_col (model_vertices cube) j = replicate 8 None) ∧
  model_indices cube = indices2 ∧
  (∀ j : Z, 4 ≤ j ≤ 7 → j ∈ indices2) ∧
  Forall (λ index, 0 ≤ index ≤ 7) indices2.
Proof.
  split; [apply ConstructModels_run|].
  split; [reflexivity|]. split; [by repeat constructor|].
  do 4 (split; [reflexivity|]).
  split.
  { intros j [Hlo Hhi].
    do 4 (destruct j as [|j]; [lia|]).
    do 4 (destruct j as [|j]; [reflexivity|]). lia. }
  split; [reflexivity|]. split.
  - intros j Hj.
    assert (j = 4 ∨ j = 5 ∨ j = 6 ∨ j = 7) as [-> | [-> | [-> | ->]]] by lia;
      unfold indices2; apply list_elem_of_In; simpl; tauto.
  - unfold indices2. repeat constructor; lia.
Qed.

(** The pyramid has no such gap: its five columns are all assigned. *)
Example pyramid_columns_assigned :
  Forall (Forall is_Some) (model_vertices pyramid) ∧
  Forall (λ row, length row = 5%nat) (model_vertices pyramid).
Proof. split; repeat constructor; by eexists. Qed.

(** ** One frame *)

Lemma draw_models_run shader_program projection view models texture_ids i s :
  (length models ≤ length (drop i texture_ids))%nat →
  draw_models shader_program projection view models texture_ids i s
  = (zip_with (λ model texture_id,
                 Model_Draw model (shader_program_id shader_program)
                   projection view texture_id)
       models (drop i texture_ids),
     Done () s).
Proof.
  revert i. induction models as [|model models IH]; intros i Hlen; [done|].
  simpl in Hlen. destruct (drop i texture_ids) as [|t rest] eqn:Hdrop;
    [simpl in Hlen; lia|].
  assert (texture_ids !! i = Some t) as Hi.
  { pose proof (lookup_drop texture_ids i 0) as H.
    rewrite Hdrop, Nat.add_0_r in H. done. }
  assert (drop (S i) texture_ids = rest) as Hrest.
  { pose proof (drop_drop texture_ids 1 i) as H.
    rewrite Hdrop, Nat.add_1_r in H. done. }
  cbn [draw_models]. etrans.
  { run_bind ltac:(rewrite Hi; reflexivity).
    run_bind ltac:(reflexivity).
    apply IH. rewrite Hrest. simpl in Hlen. lia. }
  by rewrite Hrest.
Qed.

Lemma RenderScene_run shader_program projection view models window texture_ids s :
  (length models ≤ length texture_ids)%nat →
  RenderScene shader_program projection view models window texture_ids s
  = ([ glEnable GL_DEPTH_TEST; glClearColor 0 0 0 1;
       glClear (Z.lor GL_COLOR_BUFFER_BIT GL_DEPTH_BUFFER_BIT);
       ShaderProgram_Use (shader_program_id shader_program);
       glPolygonMode GL_FRONT_AND_BACK GL_LINE ]
     ++ zip_with (λ model texture_id,
                    Model_Draw model (shader_program_id shader_program)
                      projection view texture_id)
          models texture_ids
     ++ [ glBindVertexArray 0 ],
     Done () s).
Proof.
  intros Hlen. unfold RenderScene. etrans.
  { run_bind ltac:(reflexivity).
    run_bind ltac:(reflexivity).
    run_bind ltac:(reflexivity).
    run_bind ltac:(by apply draw_models_run).
    reflexivity. }
  reflexivity.
Qed.

(** ** Polling *)

Lemma movement_vector_at_assign_emits P key b :
  emits P (movement_vector_at_assign key b).
Proof.
  intros s. unfold movement_vector_at_assign.
  destruct (movement_vector_ptr s) as [v|]; [|apply Forall_nil_2].
  destruct ((0 <=? key) && (key <? Z.of_nat (length v))); apply Forall_nil_2.
Qed.

Lemma deliver_emits window e :
  emits (λ c, callback_call c = true) (deliver window e).
Proof.
  destruct e as [key scancode action mods| | | |error description]; simpl.
  - apply emits_bind; [apply emits_get|]. intros [[|]|]; [| |apply emits_ret].
    + unfold KeyCallback_at, UserInputCallbacks.KeyCallback.
      apply emits_bind; [|intros _].
      * apply emits_when. unfold SetWindowShouldClose.
        apply emits_bind; [by apply emits_call|intros _; apply emits_modify].
      * apply emits_when.
        destruct (action =? GLFW_PRESS); [|destruct (action =? GLFW_RELEASE)];
          try apply emits_ret; apply movement_vector_at_assign_emits.
    + unfold KeyCallback_at, SecondDefinitions.KeyCallback.
      apply emits_when. unfold SetWindowShouldClose.
      apply emits_bind; [by apply emits_call|intros _; apply emits_modify].
  - apply emits_ret.
  - apply emits_ret.
  - apply emits_modify.
  - apply emits_bind; [apply emits_get|]. intros [[|]|]; [| |apply emits_ret].
    + apply emits_bind; [by apply emits_call|intros _; apply emits_stop].
    + by apply emits_call.
Qed.

Lemma deliver_all_emits window events :
  emits (λ c, callback_call c = true) (deliver_all window events).
Proof.
  induction events as [|e events IH]; simpl; [apply emits_ret|].
  apply emits_bind; [apply deliver_emits|intros _; apply IH].
Qed.

(** One poll: the call, then what the callbacks do. *)
Lemma PollEvents_run window pending s :
  ∃ reaction r,
    PollEvents window pending s = (glfwPollEvents :: reaction, r) ∧
    Forall (λ c, callback_call c = true) reaction.
Proof.
  unfold PollEvents. rewrite bind_unfold. simpl.
  pose proof (deliver_all_emits window pending s) as Hemits.
  destruct (deliver_all window pending s) as [t r]. by exists t, r.
Qed.

(** ** The render loop *)

Lemma render_loop_closed shader_program projection view models window
    texture_ids polls s :
  window_should_close s = true →
  render_loop shader_program projection view models window texture_ids polls s
  = ([], Done () s).
Proof.
  intros Hclose. destruct polls; cbn [render_loop]; rewrite bind_unfold; simpl;
    by rewrite Hclose.
Qed.

Lemma render_loop_no_events shader_program projection view models window
    texture_ids s :
  window_should_close s = false →
  render_loop shader_program projection view models window texture_ids [] s
  = ([], Stopped awaiting_events s).
Proof.
  intros Hopen. cbn [render_loop]. rewrite bind_unfold. simpl. by rewrite Hopen.
Qed.

(** One iteration: a frame, the callbacks' reaction to the events polled,
    and the loop again unless a callback stopped the process. *)
Lemma render_loop_iteration shader_program projection view models window
    texture_ids pending polls s reaction r :
  (length models ≤ length texture_ids)%nat →
  window_should_close s = false →
  PollEvents window pending s = (glfwPollEvents :: reaction, r) →
  render_loop shader_program projection view models window texture_ids
    (pending :: polls) s
  = match r with
    | Done _ s' =>
        (frame_calls (shader_program_id shader_program) projection view
           models texture_ids window
         ++ reaction
         ++ calls (render_loop shader_program projection view models window
                     texture_ids polls s'),
         result (render_loop shader_program projection view models window
                   texture_ids polls s'))
    | Stopped why s' =>
        (frame_calls (shader_program_id shader_program) projection view
           models texture_ids window ++ reaction,
         Stopped why s')
    end.
Proof.
  intros Hlen Hopen Hpoll. cbn [render_loop]. unfold frame_calls.
  destruct r as [[] s'|why s'].
  - etrans.
    { run_bind ltac:(reflexivity). rewrite Hopen.
      run_bind ltac:(by apply RenderScene_run).
      run_bind ltac:(reflexivity).
      run_bind ltac:(exact Hpoll).
      apply surjective_pairing. }
    unfold calls, result. f_equal. simpl. rewrite <- !app_assoc. reflexivity.
  - etrans.
    { run_bind ltac:(reflexivity). rewrite Hopen.
      run_bind ltac:(by apply RenderScene_run).
      run_bind ltac:(reflexivity).
      by apply bind_stopped. }
    f_equal. simpl. rewrite <- !app_assoc. reflexivity.
Qed.

(** The calls of the loop are whole iterations, one per poll at most, and
    the loop is left only with the window's close flag set. *)
Lemma render_loop_calls shader_program projection view models window
    texture_ids polls s :
  (length models ≤ length texture_ids)%nat →
  ∃ reactions : list (list Call),
    calls (render_loop shader_program projection view models window
             texture_ids polls s)
    = concat ((λ reaction,
                 frame_calls (shader_program_id shader_program) projection view
                   models texture_ids window ++ reaction) <$> reactions) ∧
    Forall (Forall (λ c, callback_call c = true)) reactions ∧
    (length reactions ≤ length polls)%nat.
Proof.
  intros Hlen. revert s. induction polls as [|pending polls IH]; intros s.
  - exists []. destruct (window_should_close s) eqn:Hclose.
    + rewrite render_loop_closed by done. by repeat split.
    + rewrite render_loop_no_events by done. by repeat split.
  - destruct (window_should_close s) eqn:Hclose.
    + exists []. rewrite render_loop_closed by done.
      repeat split; [constructor | simpl; lia].
    + destruct (PollEvents_run window pending s) as (reaction & r & Hpoll & Hreaction).
      rewrite (render_loop_iteration _ _ _ _ _ _ _ _ _ _ _ Hlen Hclose Hpoll).
      destruct r as [[] s'|why s'].
      * destruct (IH s') as (reactions & Hcalls & Hall & Hcount).
        exists (reaction :: reactions).
        split; [|split; [by constructor | simpl; lia]].
        rewrite fmap_cons, concat_cons, <- Hcalls, <- app_assoc. reflexivity.
      * exists [reaction].
        split; [|split; [by repeat constructor | simpl; lia]].
        rewrite fmap_cons, concat_cons, fmap_nil, concat_nil, app_nil_r.
        reflexivity.
Qed.

Lemma render_loop_left shader_program projection view models window
    texture_ids polls s a s' :
  (length models ≤ length texture_ids)%nat →
  result (render_loop shader_program projection view models window
            texture_ids polls s) = Done a s' →
  window_should_close s' = true.
Proof.
  intros Hlen. revert s. induction polls as [|pending polls IH]; intros s.
  - destruct (window_should_close s) eqn:Hclose.
    + rewrite render_loop_closed by done. unfold result; simpl. congruence.
    + by rewrite render_loop_no_events.
  - destruct (window_should_close s) eqn:Hclose.
    + rewrite render_loop_closed by done. unfold result; simpl. congruence.
    + destruct (PollEvents_run window pending s) as (reaction & r & Hpoll & _).
      rewrite (render_loop_iteration _ _ _ _ _ _ _ _ _ _ _ Hlen Hclose Hpoll).
      destruct r as [[] s1|why s1]; [apply IH | done].
Qed.

(** ** Start-up *)

Lemma ConfigureViewPort_run w window s :
  ConfigureViewPort w window s
  = ([glViewport 0 0 (framebuffer_size w).1 (framebuffer_size w).2], Done () s).
Proof. unfold ConfigureViewPort. by destruct (framebuffer_size w). Qed.

Lemma CreateShaderProgram_linked w program s :
  link_result w = inr program →
  CreateShaderProgram w (Some ShaderProgram_new) s
  = ([ ShaderProgram_LoadVertexShaderFromString vertex_shader_src;
       ShaderProgram_LoadFragmentShaderFromString fragment_shader_src;
       ShaderProgram_Create ],
     Done (true, Some (linked_program program)) s).
Proof.
  intros Hlink. unfold CreateShaderProgram. etrans.
  { run_bind ltac:(reflexivity).
    run_bind ltac:(reflexivity).
    run_bind ltac:(unfold Create; rewrite Hlink; reflexivity).
    reflexivity. }
  reflexivity.
Qed.

Lemma CreateShaderProgram_not_linked w diagnostic s :
  link_result w = inl diagnostic →
  CreateShaderProgram w (Some ShaderProgram_new) s
  = ([ ShaderProgram_LoadVertexShaderFromString vertex_shader_src;
       ShaderProgram_LoadFragmentShaderFromString fragment_shader_src;
       ShaderProgram_Create;
       std_cout ("ERROR: " +:+ diagnostic +:+ endl);
       std_cerr ("ERROR: Could not create a shader program." +:+ endl) ],
     Done (false,
           Some (mkShaderProgram (Some vertex_shader_src)
                   (Some fragment_shader_src) 0)) s).
Proof.
  intros Hlink. unfold CreateShaderProgram. etrans.
  { run_bind ltac:(reflexivity).
    run_bind ltac:(reflexivity).
    run_bind ltac:(unfold Create; rewrite Hlink; reflexivity).
    reflexivity. }
  reflexivity.
Qed.

Lemma LoadTexture_run w filepath s :
  LoadTexture w filepath s
  = (texture_calls w filepath (texture_name w (textures_generated s)),
     Done (texture_name w (textures_generated s)) (count_texture s)).
Proof. reflexivity. Qed.

Lemma DeleteModels_run models s :
  DeleteModels models s = (Model_delete <$> models, Done () s).
Proof.
  induction models as [|model models IH]; [done|].
  cbn [DeleteModels]. etrans.
  { run_bind ltac:(reflexivity). apply IH. }
  reflexivity.
Qed.

(** A run of [main] in which the window, the device extensions and the
    shader program are obtained: the start-up calls, the loop, and the
    clean-up calls if the loop is left. *)
Lemma main_initialized w error_site key_site polls window program :
  glfwInit_result w = true →
  glfwCreateWindow_result w = Some window →
  glewInit_ok w = true →
  link_result w = inr program →
  run_main w error_site key_site polls
  = let loop :=
      render_loop (linked_program program) (projection w) Matrix4f_Identity
        [pyramid; cube] window [texture_name w 0; texture_name w 1] polls
        (loop_entry_state error_site key_site) in
    match result loop with
    | Done _ s' =>
        (startup_calls w error_site key_site window ++ calls loop
           ++ teardown_calls window,
         Done 0 s')
    | Stopped why s' =>
        (startup_calls w error_site key_site window ++ calls loop,
         Stopped why s')
    end.
Proof.
  intros Hinit Hwindow Hglew Hlink. unfold run_main, main. cbv zeta.
  destruct (render_loop (linked_program program) (projection w)
              Matrix4f_Identity [pyramid; cube] window
              [texture_name w 0; texture_name w 1] polls
              (loop_entry_state error_site key_site)) as [tl [[] sl|why sl]] eqn:Hloop;
    unfold result, calls; cbn [fst snd].
  - etrans.
    { do 3 run_bind ltac:(reflexivity). rewrite Hinit. cbn [negb].
      do 4 run_bind ltac:(reflexivity). rewrite Hwindow.
      do 5 run_bind ltac:(reflexivity). rewrite Hglew. cbn [negb].
      run_bind ltac:(apply ConfigureViewPort_run).
      run_bind ltac:(by apply (CreateShaderProgram_linked w program)).
      cbn [negb default].
      run_bind ltac:(apply ConstructModels_run).
      run_bind ltac:(apply LoadTexture_run).
      run_bind ltac:(apply LoadTexture_run).
      do 2 run_bind ltac:(reflexivity).
      run_bind ltac:(exact Hloop).
      run_bind ltac:(apply DeleteModels_run).
      do 2 run_bind ltac:(reflexivity).
      reflexivity. }
    reflexivity.
  - etrans.
    { do 3 run_bind ltac:(reflexivity). rewrite Hinit. cbn [negb].
      do 4 run_bind ltac:(reflexivity). rewrite Hwindow.
      do 5 run_bind ltac:(reflexivity). rewrite Hglew. cbn [negb].
      run_bind ltac:(apply ConfigureViewPort_run).
      run_bind ltac:(by apply (CreateShaderProgram_linked w program)).
      cbn [negb default].
      run_bind ltac:(apply ConstructModels_run).
      run_bind ltac:(apply LoadTexture_run).
      run_bind ltac:(apply LoadTexture_run).
      do 2 run_bind ltac:(reflexivity).
      apply bind_stopped. exact Hloop. }
    reflexivity.
Qed.

(** ** Initialisation failures *)

Lemma main_no_windowing_library w error_site key_site polls :
  glfwInit_result w = false →
  run_main w error_site key_site polls
  = ([gflags_ParseCommandLineFlags; google_InitGoogleLogging; glfwInit],
     Done (-1) initial_state).
Proof.
  intros Hinit. unfold run_main, main. etrans.
  { do 3 run_bind ltac:(reflexivity). rewrite Hinit. reflexivity. }
  reflexivity.
Qed.

Lemma main_no_window w error_site key_site polls :
  glfwInit_result w = true →
  glfwCreateWindow_result w = None →
  run_main w error_site key_site polls
  = ([ gflags_ParseCommandLineFlags; google_InitGoogleLogging; glfwInit;
       glfwSetErrorCallback error_site;
       glfwWindowHint GLFW_CONTEXT_VERSION_MAJOR 3;
       glfwWindowHint GLFW_CONTEXT_VERSION_MINOR 2;
       glfwWindowHint GLFW_OPENGL_PROFILE GLFW_OPENGL_CORE_PROFILE;
       glfwWindowHint GLFW_OPENGL_FORWARD_COMPAT GL_TRUE;
       glfwWindowHint GLFW_RESIZABLE GL_FALSE;
       glfwCreateWindow kWindowWidth kWindowHeight "Assignment 4";
       glfwTerminate ],
     Done (-1) (set_error_callback error_site initial_state)).
Proof.
  intros Hinit Hwindow. unfold run_main, main. cbv zeta. etrans.
  { do 3 run_bind ltac:(reflexivity). rewrite Hinit. cbn [negb].
    do 4 run_bind ltac:(reflexivity). rewrite Hwindow. reflexivity. }
  reflexivity.
Qed.

Lemma main_no_device_extensions w error_site key_site polls window :
  glfwInit_result w = true →
  glfwCreateWindow_result w = Some window →
  glewInit_ok w = false →
  run_main w error_site key_site polls
  = ([ gflags_ParseCommandLineFlags; google_InitGoogleLogging; glfwInit;
       glfwSetErrorCallback error_site;
       glfwWindowHint GLFW_CONTEXT_VERSION_MAJOR 3;
       glfwWindowHint GLFW_CONTEXT_VERSION_MINOR 2;
       glfwWindowHint GLFW_OPENGL_PROFILE GLFW_OPENGL_CORE_PROFILE;
       glfwWindowHint GLFW_OPENGL_FORWARD_COMPAT GL_TRUE;
       glfwWindowHint GLFW_RESIZABLE GL_FALSE;
       glfwCreateWindow kWindowWidth kWindowHeight "Assignment 4";
       glfwMakeContextCurrent window; glfwSwapInterval 1;
       glfwSetKeyCallback window key_site; glewInit;
       std_cerr ("Glew did not initialize properly!" +:+ endl);
       glfwTerminate ],
     Done (-1) (set_key_callback key_site
                  (set_error_callback error_site initial_state))).
Proof.
  intros Hinit Hwindow Hglew. unfold run_main, main. cbv zeta. etrans.
  { do 3 run_bind ltac:(reflexivity). rewrite Hinit. cbn [negb].
    do 4 run_bind ltac:(reflexivity). rewrite Hwindow.
    do 5 run_bind ltac:(reflexivity). rewrite Hglew. reflexivity. }
  reflexivity.
Qed.

Lemma main_no_shader_program w error_site key_site polls window diagnostic :
  glfwInit_result w = true →
  glfwCreateWindow_result w = Some window →
  glewInit_ok w = true →
  link_result w = inl diagnostic →
  run_main w error_site key_site polls
  = ([ gflags_ParseCommandLineFlags; google_InitGoogleLogging; glfwInit;
       glfwSetErrorCallback error_site;
       glfwWindowHint GLFW_CONTEXT_VERSION_MAJOR 3;
       glfwWindowHint GLFW_CONTEXT_VERSION_MINOR 2;
       glfwWindowHint GLFW_OPENGL_PROFILE GLFW_OPENGL_CORE_PROFILE;
       glfwWindowHint GLFW_OPENGL_FORWARD_COMPAT GL_TRUE;
       glfwWindowHint GLFW_RESIZABLE GL_FALSE;
       glfwCreateWindow kWindowWidth kWindowHeight "Assignment 4";
       glfwMakeContextCurrent window; glfwSwapInterval 1;
       glfwSetKeyCallback window key_site; glewInit;
       glViewport 0 0 (framebuffer_size w).1 (framebuffer_size w).2;
       ShaderProgram_LoadVertexShaderFromString vertex_shader_src;
       ShaderProgram_LoadFragmentShaderFromString fragment_shader_src;
       ShaderProgram_Create;
       std_cout ("ERROR: " +:+ diagnostic +:+ endl);
       std_cerr ("ERROR: Could not create a shader program." +:+ endl) ],
     Done (-1) (set_key_callback key_site
                  (set_error_callback error_site initial_state))).
Proof.
  intros Hinit Hwindow Hglew Hlink. unfold run_main, main. cbv zeta. etrans.
  { do 3 run_bind ltac:(reflexivity). rewrite Hinit. cbn [negb].
    do 4 run_bind ltac:(reflexivity). rewrite Hwindow.
    do 5 run_bind ltac:(reflexivity). rewrite Hglew. cbn [negb].
    run_bind ltac:(apply ConfigureViewPort_run).
    run_bind ltac:(by apply (CreateShaderProgram_not_linked w diagnostic)).
    reflexivity. }
  reflexivity.
Qed.

(** The five ways a run of [main] can go. *)
Lemma main_cases w :
  glfwInit_result w = false
  ∨ (glfwInit_result w = true ∧ glfwCreateWindow_result w = None)
  ∨ (∃ window, glfwInit_result w = true ∧
               glfwCreateWindow_result w = Some window ∧ glewInit_ok w = false)
  ∨ (∃ window diagnostic,
       glfwInit_result w = true ∧ glfwCreateWindow_result w = Some window ∧
       glewInit_ok w = true ∧ link_result w = inl diagnostic)
  ∨ (∃ window program,
       glfwInit_result w = true ∧ glfwCreateWindow_result w = Some window ∧
       glewInit_ok w = true ∧ link_result w = inr program).
Proof.
  destruct (glfwInit_result w); [|by left].
  destruct (glfwCreateWindow_result w) as [window|]; [|by right; left].
  destruct (glewInit_ok w); [|by right; right; left; exists window].
  destruct (link_result w) as [diagnostic|program].
  - right; right; right; left. by exists window, diagnostic.
  - right; right; right; right. by exists window, program.
Qed.

Lemma initialises_true w :
  initialises w = true ↔
  ∃ window program,
    glfwInit_result w = true ∧ glfwCreateWindow_result w = Some window ∧
    glewInit_ok w = true ∧ link_result w = inr program.
Proof.
  unfold initialises. split.
  - destruct (glfwInit_result w), (glfwCreateWindow_result w) as [window|],
      (glewInit_ok w), (link_result w) as [|program]; try discriminate.
    intros _. by exists window, program.
  - intros (window & program & -> & -> & -> & ->). done.
Qed.

(** ** The calls of a run *)

Lemma callback_call_not_frame_call c :
  callback_call c = true →
  frame_call c = false ∧ camera_controller_method c = false
  ∧ is_projection_call c = false ∧ is_image_load c = false
  ∧ drawn_with_identity_view c.
Proof. by destruct c. Qed.

(** An initialised run: the start-up calls, then whole iterations (a frame
    and the callbacks' reaction to the events polled), then the clean-up
    calls if [main] returns. *)
Lemma main_calls_initialized w error_site key_site polls window program :
  glfwInit_result w = true →
  glfwCreateWindow_result w = Some window →
  glewInit_ok w = true →
  link_result w = inr program →
  ∃ (reactions : list (list Call)) (teardown : list Call),
    calls (run_main w error_site key_site polls)
    = startup_calls w error_site key_site window
      ++ concat ((λ reaction,
                    frame_calls (Z.pos program) (projection w) Matrix4f_Identity
                      [pyramid; cube] [texture_name w 0; texture_name w 1] window
                    ++ reaction) <$> reactions)
      ++ teardown ∧
    Forall (Forall (λ c, callback_call c = true)) reactions ∧
    (length reactions ≤ length polls)%nat ∧
    (teardown = [] ∨ teardown = teardown_calls window).
Proof.
  intros Hinit Hwindow Hglew Hlink.
  rewrite (main_initialized _ _ _ _ _ _ Hinit Hwindow Hglew Hlink). cbv zeta.
  destruct (render_loop_calls (linked_program program) (projection w)
              Matrix4f_Identity [pyramid; cube] window
              [texture_name w 0; texture_name w 1] polls
              (loop_entry_state error_site key_site))
    as (reactions & Hcalls & Hall & Hcount); [done|].
  destruct (result _) as [[] s'|why s']; unfold calls at 1; cbn [fst].
  - exists reactions, (teardown_calls window). rewrite Hcalls. by eauto.
  - exists reactions, []. rewrite Hcalls, app_nil_r. by eauto.
Qed.

(** ** The order of a frame (C1) *)



(** That run in full: two frames, then the clean-up, status 0. *)
Example main_two_frames :
  run_main example_world first_definition first_definition [[]; [CloseRequest]]
  = (startup_calls example_world first_definition first_definition 1
     ++ frame_calls 3 (projection example_world) Matrix4f_Identity
          [pyramid; cube] [1; 2] 1
     ++ frame_calls 3 (projection example_world) Matrix4f_Identity
          [pyramid; cube] [1; 2] 1
     ++ teardown_calls 1,
     Done 0 (set_window_should_close true
               (loop_entry_state first_definition first_definition))).
Proof. vm_compute. reflexivity. Qed.


(** ** The view matrix (C2) *)

Lemma frame_calls_identity_view program projection models texture_ids window :
  Forall (λ c, drawn_with_identity_view c ∧ camera_controller_method c = false)
    (frame_calls program projection Matrix4f_Identity models texture_ids window).
Proof.
  unfold frame_calls. rewrite !Forall_app. repeat split.
  - by repeat constructor.
  - revert texture_ids. induction models as [|model models IH];
      intros [|texture_id texture_ids]; simpl; try apply Forall_nil_2.
    apply Forall_cons. split; [done|apply IH].
  - by repeat constructor.
Qed.

(** C2.  In every run of [main], whatever the world answers and whatever
    events arrive, every [Draw] call is given the identity matrix as its
    view, and no method of the camera controller is called at all: no view
    derived from the controller's pose can reach a draw call. *)
Theorem main_view_is_identity
    (w : World) (error_site key_site : Definition_site)
    (polls : list (list Event)) :
  Forall (λ c, drawn_with_identity_view c ∧ camera_controller_method c = false)
    (calls (run_main w error_site key_site polls)).
Proof.
  destruct (main_cases w)
    as [Hinit
       |[[Hinit Hwindow]
       |[(window & Hinit & Hwindow & Hglew)
       |[(window & diagnostic & Hinit & Hwindow & Hglew & Hlink)
        |(window & program & Hinit & Hwindow & Hglew & Hlink)]]]].
  - rewrite main_no_windowing_library by done. by repeat constructor.
  - rewrite main_no_window by done. by repeat constructor.
  - rewrite (main_no_device_extensions _ _ _ _ window) by done.
    by repeat constructor.
  - rewrite (main_no_shader_program _ _ _ _ window diagnostic) by done.
    by repeat constructor.
  - destruct (main_calls_initialized w error_site key_site polls window program)
      as (reactions & teardown & -> & Hall & _ & Hteardown); try done.
    rewrite !Forall_app. repeat split.
    + unfold startup_calls, texture_calls. by repeat constructor.
    + apply Forall_concat, Forall_fmap.
      eapply Forall_impl; [exact Hall|]. intros reaction Hreaction.
      unfold compose.
      apply Forall_app. split; [apply frame_calls_identity_view|].
      eapply Forall_impl; [exact Hreaction|]. intros c Hc.
      destruct (callback_call_not_frame_call c Hc) as (_ & ? & _ & _ & ?). done.
    + destruct Hteardown as [-> | ->]; unfold teardown_calls; by repeat constructor.
Qed.

(** The theorem is not empty: the run of two frames draws four times. *)
Example main_two_frames_draws :
  length (List.filter
            (λ c, match c with Model_Draw _ _ _ _ _ => true | _ => false end)
            (calls (run_main example_world first_definition first_definition
                      [[]; [CloseRequest]]))) = 4%nat.
Proof. vm_compute. reflexivity. Qed.

(** ** What start-up alone calls *)

Lemma filter_none (f : Call → bool) (l : list Call) :
  Forall (λ c, f c = false) l → List.filter f l = [].
Proof.
  induction 1 as [|c l Hc _ IH]; [done|]. simpl. by rewrite Hc.
Qed.

Lemma frame_calls_frame_call program projection view models texture_ids window :
  Forall (λ c, frame_call c = true)
    (frame_calls program projection view models texture_ids window).
Proof.
  unfold frame_calls. rewrite !Forall_app. repeat split.
  - by repeat constructor.
  - revert texture_ids. induction models as [|model models IH];
      intros [|texture_id texture_ids]; simpl; try apply Forall_nil_2.
    apply Forall_cons. split; [done|apply IH].
  - by repeat constructor.
Qed.

(** A kind of call that neither a frame, nor a callback, nor the clean-up
    makes is made by the start-up only. *)
Lemma filter_calls_initialized (f : Call → bool)
    w error_site key_site polls window program :
  glfwInit_result w = true →
  glfwCreateWindow_result w = Some window →
  glewInit_ok w = true →
  link_result w = inr program →
  (∀ c, frame_call c = true → f c = false) →
  (∀ c, callback_call c = true → f c = false) →
  Forall (λ c, f c = false) (teardown_calls window) →
  List.filter f (calls (run_main w error_site key_site polls))
  = List.filter f (startup_calls w error_site key_site window).
Proof.
  intros Hinit Hwindow Hglew Hlink Hframe Hcallback Hteardown.
  destruct (main_calls_initialized w error_site key_site polls window program)
    as (reactions & teardown & -> & Hall & _ & Hcases); try done.
  rewrite !List.filter_app.
  rewrite (filter_none f (concat _)), (filter_none f teardown), !app_nil_r; [done| |].
  - by destruct Hcases as [-> | ->].
  - apply Forall_concat, Forall_fmap.
    eapply Forall_impl; [exact Hall|]. intros reaction Hreaction. unfold compose.
    apply Forall_app. split.
    + eapply Forall_impl; [apply frame_calls_frame_call|]. exact Hframe.
    + eapply Forall_impl; [exact Hreaction|]. exact Hcallback.
Qed.

(** ** The projection (C3) *)

(** C3, as the code has it.  [main] calls
    [ComputePerspectiveProjectionMatrix] once in a run that gets past
    initialisation (and not at all otherwise), and every [Draw] call is given
    the matrix of that one call.  The arguments are the radians of 45
    degrees, the float nearest 0.1 and 20.0; the aspect ratio is
    [static_cast<float>(kWindowWidth / kWindowHeight)], where the division
    is the integer division of 640 by 480, so the aspect ratio passed is
    1.0, not 640/480. *)
Theorem main_projection_arguments
    (w : World) (error_site key_site : Definition_site)
    (polls : list (list Event)) :
  int_div kWindowWidth kWindowHeight = 1 ∧
  aspect_ratio = 1%float ∧
  List.filter is_projection_call (calls (run_main w error_site key_site polls))
  = (if initialises w
     then [wvu_ComputePerspectiveProjectionMatrix
             (ConvertDegreesToRadians w 45) 1 0x1.99999ap-4 20]
     else []) ∧
  Forall (λ c, match c with
               | Model_Draw _ _ used _ _ =>
                   used = ComputePerspectiveProjectionMatrix w
                            (ConvertDegreesToRadians w 45) 1 0x1.99999ap-4 20
               | _ => True
               end)
    (calls (run_main w error_site key_site polls)).
Proof.
  split; [reflexivity|]. split; [reflexivity|].
  destruct (main_cases w)
    as [Hinit
       |[[Hinit Hwindow]
       |[(window & Hinit & Hwindow & Hglew)
       |[(window & diagnostic & Hinit & Hwindow & Hglew & Hlink)
        |(window & program & Hinit & Hwindow & Hglew & Hlink)]]]];
    unfold initialises.
  - rewrite main_no_windowing_library, Hinit by done. split; [done|].
    by repeat constructor.
  - rewrite main_no_window, Hinit, Hwindow by done. split; [done|].
    by repeat constructor.
  - rewrite (main_no_device_extensions _ _ _ _ window), Hinit, Hwindow, Hglew
      by done. split; [done|]. by repeat constructor.
  - rewrite (main_no_shader_program _ _ _ _ window diagnostic),
      Hinit, Hwindow, Hglew, Hlink by done.
    split; [done|]. by repeat constructor.
  - rewrite Hinit, Hwindow, Hglew, Hlink. split.
    + rewrite (filter_calls_initialized _ w _ _ _ window program); try done.
      * intros c Hc. by destruct c.
      * intros c Hc. by destruct c.
      * by repeat constructor.
    + destruct (main_calls_initialized w error_site key_site polls window program)
        as (reactions & teardown & -> & Hall & _ & Hteardown); try done.
      rewrite !Forall_app. repeat split.
      * unfold startup_calls, texture_calls. by repeat constructor.
      * apply Forall_concat, Forall_fmap.
        eapply Forall_impl; [exact Hall|]. intros reaction Hreaction.
        unfold compose. apply Forall_app. split.
        -- unfold frame_calls. by repeat constructor.
        -- eapply Forall_impl; [exact Hreaction|]. intros c Hc. by destruct c.
      * destruct Hteardown as [-> | ->]; unfold teardown_calls;
          by repeat constructor.
Qed.

(** 640/480 is 4/3: the value the integer division loses. *)
Example aspect_ratio_not_four_thirds :
  aspect_ratio = 1%float ∧
  (float_of_int kWindowWidth / float_of_int kWindowHeight)%float
  = 0x1.5555555555555p+0%float ∧
  PrimFloat.eqb aspect_ratio
    (float_of_int kWindowWidth / float_of_int kWindowHeight) = false.
Proof. repeat split. Qed.

(** ** The texture files (C4) *)

(** C4, as the code has it.  The images [main] loads are the ones at
    [FLAGS_brick_filepath] and [FLAGS_stone_filepath], in that order, in a
    run that gets past initialisation, and none otherwise.  The two flags
    the file defines, texture1_filepath and texture2_filepath, are never
    read: a run is the same whatever the command line sets. *)
Theorem main_texture_paths
    (w : World) (error_site key_site : Definition_site)
    (polls : list (list Event)) :
  List.filter is_image_load (calls (run_main w error_site key_site polls))
  = (if initialises w
     then [CImg_load (FLAGS_brick_filepath w); CImg_load (FLAGS_stone_filepath w)]
     else []) ∧
  ∀ flags : gmap string string,
    run_main (with_command_line flags w) error_site key_site polls
    = run_main w error_site key_site polls.
Proof.
  destruct (main_cases w)
    as [Hinit
       |[[Hinit Hwindow]
       |[(window & Hinit & Hwindow & Hglew)
       |[(window & diagnostic & Hinit & Hwindow & Hglew & Hlink)
        |(window & program & Hinit & Hwindow & Hglew & Hlink)]]]];
    unfold initialises.
  - split.
    + by rewrite main_no_windowing_library, Hinit.
    + intros flags. by rewrite !main_no_windowing_library.
  - split.
    + by rewrite main_no_window, Hinit, Hwindow.
    + intros flags. by rewrite !main_no_window.
  - split.
    + by rewrite (main_no_device_extensions _ _ _ _ window), Hinit, Hwindow, Hglew.
    + intros flags. by rewrite !(main_no_device_extensions _ _ _ _ window).
  - split.
    + by rewrite (main_no_shader_program _ _ _ _ window diagnostic),
        Hinit, Hwindow, Hglew, Hlink.
    + intros flags.
      by rewrite !(main_no_shader_program _ _ _ _ window diagnostic).
  - split.
    + rewrite Hinit, Hwindow, Hglew, Hlink.
      rewrite (filter_calls_initialized _ w _ _ _ window program); try done.
      * intros c Hc. by destruct c.
      * intros c Hc. by destruct c.
      * by repeat constructor.
    + intros flags.
      by rewrite !(main_initialized _ _ _ _ window program).
Qed.

(** With [--texture1_filepath=wall.bmp] on the command line the first flag
    is wall.bmp, and the run still loads the brick and stone files. *)
Example main_ignores_texture1_filepath :
  let w := with_command_line {[ "texture1_filepath" := "wall.bmp" ]} example_world in
  FLAGS_texture1_filepath w = "wall.bmp" ∧
  FLAGS_texture2_filepath w = "texture2.bmp" ∧
  List.filter is_image_load
    (calls (run_main w first_definition first_definition [[CloseRequest]]))
  = [CImg_load "brick.bmp"; CImg_load "stone.bmp"].
Proof. cbv zeta. repeat split; vm_compute; reflexivity. Qed.

(** ** The exit status (C5) *)

Lemma deliver_all_pointer_events window events s :
  Forall (λ e, pointer_event e = true) events →
  deliver_all window events s = ([], Done () s).
Proof.
  induction 1 as [|e events He _ IH]; [done|].
  cbn [deliver_all]. etrans.
  { run_bind ltac:(destruct e; try discriminate; reflexivity). apply IH. }
  reflexivity.
Qed.

Lemma deliver_all_close_request window events s :
  Forall (λ e, e = CloseRequest ∨ pointer_event e = true) events →
  ∃ s', deliver_all window events s = ([], Done () s') ∧
        window_should_close s'
        = (window_should_close s || existsb is_close_request events).
Proof.
  intros Hevents. revert s.
  induction Hevents as [|e events He _ IH]; intros s.
  - exists s. split; [done|]. simpl. by rewrite orb_false_r.
  - destruct He as [-> | He].
    + destruct (IH (set_window_should_close true s)) as (s' & Hrun & Hflag).
      exists s'. split.
      * cbn [deliver_all]. etrans.
        { run_bind ltac:(reflexivity). exact Hrun. }
        reflexivity.
      * rewrite Hflag. simpl. by rewrite orb_true_r.
    + destruct (IH s) as (s' & Hrun & Hflag).
      exists s'. split.
      * cbn [deliver_all]. etrans.
        { run_bind ltac:(destruct e; try discriminate; reflexivity). exact Hrun. }
        reflexivity.
      * rewrite Hflag. by destruct e.
Qed.

Lemma existsb_close_request events :
  CloseRequest ∈ events → existsb is_close_request events = true.
Proof.
  intros Hin. apply existsb_exists. exists CloseRequest.
  split; [by apply list_elem_of_In|done].
Qed.

(** The loop is left once a poll brings a close request, if the polls before
    brought cursor and scroll events only. *)
Lemma render_loop_close_request shader_program projection view models window
    texture_ids quiet closing rest s :
  (length models ≤ length texture_ids)%nat →
  Forall (Forall (λ e, pointer_event e = true)) quiet →
  Forall (λ e, e = CloseRequest ∨ pointer_event e = true) closing →
  CloseRequest ∈ closing →
  ∃ s', result (render_loop shader_program projection view models window
                  texture_ids (quiet ++ closing :: rest) s) = Done () s'.
Proof.
  intros Hlen Hquiet Hclosing Hin. revert s.
  induction Hquiet as [|pending quiet Hpending _ IH]; intros s;
    (destruct (window_should_close s) eqn:Hclose;
       [rewrite render_loop_closed by done; by eexists|]).
  - destruct (deliver_all_close_request window closing s Hclosing)
      as (s' & Hrun & Hflag).
    assert (PollEvents window closing s = ([glfwPollEvents], Done () s')) as Hpoll.
    { unfold PollEvents. etrans.
      { run_bind ltac:(reflexivity). exact Hrun. }
      reflexivity. }
    rewrite app_nil_l.
    rewrite (render_loop_iteration _ _ _ _ _ _ _ _ _ _ _ Hlen Hclose Hpoll).
    rewrite render_loop_closed; [by eexists|].
    rewrite Hflag, existsb_close_request by done. apply orb_true_r.
  - assert (PollEvents window pending s = ([glfwPollEvents], Done () s)) as Hpoll.
    { unfold PollEvents. etrans.
      { run_bind ltac:(reflexivity). by apply deliver_all_pointer_events. }
      reflexivity. }
    rewrite <- app_comm_cons.
    rewrite (render_loop_iteration _ _ _ _ _ _ _ _ _ _ _ Hlen Hclose Hpoll).
    apply IH.
Qed.

(** C5.  When an initialisation step fails (the windowing library, the
    window, the device extensions, or compiling and linking the shader
    program), [main] returns -1 and no call of a frame has been made: the
    render loop was not entered.  When all four succeed, a status [main]
    returns is 0 and the window's close flag is set; and [main] does return
    (with 0) once a poll brings a request to close the window, if the polls
    before it brought cursor and scroll events only. *)
Theorem main_exit_status
    (w : World) (error_site key_site : Definition_site)
    (polls : list (list Event)) :
  (glfwInit_result w = false ∨ glfwCreateWindow_result w = None
   ∨ glewInit_ok w = false ∨ (∃ diagnostic, link_result w = inl diagnostic) →
   (∃ s, result (run_main w error_site key_site polls) = Done (-1) s) ∧
   Forall (λ c, frame_call c = false)
     (calls (run_main w error_site key_site polls))) ∧
  (initialises w = true →
   (∀ status s,
      result (run_main w error_site key_site polls) = Done status s →
      status = 0 ∧ window_should_close s = true) ∧
   (∀ quiet closing rest,
      polls = quiet ++ closing :: rest →
      Forall (Forall (λ e, pointer_event e = true)) quiet →
      Forall (λ e, e = CloseRequest ∨ pointer_event e = true) closing →
      CloseRequest ∈ closing →
      ∃ s, result (run_main w error_site key_site polls) = Done 0 s)).
Proof.
  split.
  - intros Hfails.
    destruct (main_cases w)
      as [Hinit
         |[[Hinit Hwindow]
         |[(window & Hinit & Hwindow & Hglew)
         |[(window & diagnostic & Hinit & Hwindow & Hglew & Hlink)
          |(window & program & Hinit & Hwindow & Hglew & Hlink)]]]].
    + rewrite main_no_windowing_library by done.
      split; [by eexists | by repeat constructor].
    + rewrite main_no_window by done.
      split; [by eexists | by repeat constructor].
    + rewrite (main_no_device_extensions _ _ _ _ window) by done.
      split; [by eexists | by repeat constructor].
    + rewrite (main_no_shader_program _ _ _ _ window diagnostic) by done.
      split; [by eexists | by repeat constructor].
    + destruct Hfails as [?|[?|[?|[? ?]]]]; congruence.
  - intros (window & program & Hinit & Hwindow & Hglew & Hlink)%initialises_true.
    rewrite (main_initialized _ _ _ _ window program) by done. cbv zeta.
    split.
    + intros status s.
      destruct (result (render_loop _ _ _ _ _ _ _ _)) as [[] s'|why s'] eqn:Hloop;
        [|done].
      unfold result at 1; cbn [snd]. intros [= <- <-]. split; [done|].
      by eapply render_loop_left, Hloop.
    + intros quiet closing rest -> Hquiet Hclosing Hin.
      destruct (render_loop_close_request (linked_program program) (projection w)
                  Matrix4f_Identity [pyramid; cube] window
                  [texture_name w 0; texture_name w 1] quiet closing rest
                  (loop_entry_state error_site key_site))
        as (s' & ->); try done.
      by eexists.
Qed.

(** Two instances: the device refuses the shader program; and a cursor
    event followed, at the next poll, by a request to close the window. *)
Lemma main_exit_status_witness :
  ((∃ s, result (run_main world_without_shader_program
                   first_definition first_definition [[CloseRequest]])
         = Done (-1) s) ∧
   Forall (λ c, frame_call c = false)
     (calls (run_main world_without_shader_program
               first_definition first_definition [[CloseRequest]]))) ∧
  (∃ s, result (run_main example_world first_definition first_definition
                  [[CursorPosEvent 10 20]; [CloseRequest]])
        = Done 0 s).
Proof.
  split.
  - apply (proj1 (main_exit_status world_without_shader_program
                    first_definition first_definition [[CloseRequest]])).
    right; right; right. by eexists.
  - apply (proj2 (proj2 (main_exit_status example_world
                           first_definition first_definition
                           [[CursorPosEvent 10 20]; [CloseRequest]])
                    eq_refl)
             [[CursorPosEvent 10 20]] [CloseRequest] []).
    + reflexivity.
    + by repeat constructor.
    + by repeat constructor.
    + by left.
Defined.

(** Escape pressed with the second [KeyCallback] registered: status 0. *)
Example main_escape :
  result (run_main example_world second_definition second_definition
            [[]; [KeyEvent GLFW_KEY_ESCAPE 9 GLFW_PRESS 0]])
  = Done 0 (set_window_should_close true
              (loop_entry_state second_definition second_definition)).
Proof. vm_compute. reflexivity. Qed.

(** The same with the first [KeyCallback] registered: the flag is set, and
    the callback then goes through the null held-key pointer. *)
Example main_escape_null_vector :
  result (run_main example_world first_definition first_definition
            [[]; [KeyEvent GLFW_KEY_ESCAPE 9 GLFW_PRESS 0]])
  = Stopped null_dereference
      (set_window_should_close true
         (loop_entry_state first_definition first_definition)).
Proof. vm_compute. reflexivity. Qed.

(** An error reported while events are polled: with the first
    [ErrorCallback] registered the process aborts, with the second the
    message is written and the loop goes on. *)
Example main_error_event_aborts :
  result (run_main example_world first_definition second_definition
            [[ErrorEvent 65537 "not initialized"]; [CloseRequest]])
  = Stopped aborted (loop_entry_state first_definition second_definition).
Proof. vm_compute. reflexivity. Qed.

Example main_error_event_goes_on :
  result (run_main example_world second_definition second_definition
            [[ErrorEvent 65537 "not initialized"]; [CloseRequest]])
  = Done 0 (set_window_should_close true
              (loop_entry_state second_definition second_definition)).
Proof. vm_compute. reflexivity. Qed.

(** * Further properties *)

(** ** [UpdateCameraPose] for any held keys *)

Lemma held_lookup (v : list bool) (key : Z) :
  (Z.to_nat key < length v)%nat →
  v !! Z.to_nat key = Some (held v key).
Proof.
  intros Hlen. unfold held.
  destruct (lookup_lt_is_Some_2 v (Z.to_nat key) Hlen) as [b ->]. done.
Qed.

(** [UpdateCameraPose] given the four entries it reads.  The controller is
    needed only if one of them is set. *)
Lemma UpdateCameraPose_run (s : State) (v : list bool) (w_ s_ a_ d_ : bool) :
  movement_vector_ptr s = Some v →
  v !! Z.to_nat GLFW_KEY_W = Some w_ →
  v !! Z.to_nat GLFW_KEY_S = Some s_ →
  v !! Z.to_nat GLFW_KEY_A = Some a_ →
  v !! Z.to_nat GLFW_KEY_D = Some d_ →
  (w_ || s_ || a_ || d_ = true → is_Some (camera_controller_ptr s)) →
  UserInputCallbacks.UpdateCameraPose s
  = ((if w_ then [CameraController_MoveFront] else [])
     ++ (if s_ then [CameraController_MoveBack] else [])
     ++ (if a_ then [CameraController_MoveLeft] else [])
     ++ (if d_ then [CameraController_MoveRight] else []),
     Done () s).
Proof.
  intros Hv HW HS HA HD Hc.
  assert (w_ || s_ || a_ || d_ = false ∨ ∃ c, camera_controller_ptr s = Some c)
    as [Hnone | [c Hcam]].
  { destruct (w_ || s_ || a_ || d_); [right|by left].
    destruct Hc as [c Hcam]; [done|]. by exists c. }
  - destruct w_, s_, a_, d_; try discriminate.
    unfold UserInputCallbacks.UpdateCameraPose. etrans.
    { run_bind ltac:(by apply (movement_vector_at_lookup s v GLFW_KEY_W false)).
      run_bind ltac:(reflexivity).
      run_bind ltac:(by apply (movement_vector_at_lookup s v GLFW_KEY_S false)).
      run_bind ltac:(reflexivity).
      run_bind ltac:(by apply (movement_vector_at_lookup s v GLFW_KEY_A false)).
      run_bind ltac:(reflexivity).
      run_bind ltac:(by apply (movement_vector_at_lookup s v GLFW_KEY_D false)).
      reflexivity. }
    reflexivity.
  - destruct w_, s_, a_, d_;
      unfold UserInputCallbacks.UpdateCameraPose;
      (etrans;
       [ run_bind ltac:(by apply (movement_vector_at_lookup s v GLFW_KEY_W));
         run_bind ltac:(first [by apply (camera_controller_call_run s c) | reflexivity]);
         run_bind ltac:(by apply (movement_vector_at_lookup s v GLFW_KEY_S));
         run_bind ltac:(first [by apply (camera_controller_call_run s c) | reflexivity]);
         run_bind ltac:(by apply (movement_vector_at_lookup s v GLFW_KEY_A));
         run_bind ltac:(first [by apply (camera_controller_call_run s c) | reflexivity]);
         run_bind ltac:(by apply (movement_vector_at_lookup s v GLFW_KEY_D));
         first [by apply (camera_controller_call_run s c) | reflexivity]
       | reflexivity ]).
Qed.

Lemma movement_keys_lookup (v : list bool) :
  (Z.to_nat GLFW_KEY_W < length v)%nat →
  v !! Z.to_nat GLFW_KEY_W = Some (held v GLFW_KEY_W) ∧
  v !! Z.to_nat GLFW_KEY_S = Some (held v GLFW_KEY_S) ∧
  v !! Z.to_nat GLFW_KEY_A = Some (held v GLFW_KEY_A) ∧
  v !! Z.to_nat GLFW_KEY_D = Some (held v GLFW_KEY_D).
Proof.
  intros Hlen. repeat split; apply held_lookup; vm_compute in Hlen |- *; lia.
Qed.

(** X1.  With both pointers set and a held-key vector that has an entry for
    W (so for S, A and D too), [UpdateCameraPose] calls, in this order,
    [MoveFront] if W is held, [MoveBack] if S is, [MoveLeft] if A is and
    [MoveRight] if D is, and nothing else; opposite keys held together give
    both calls.  It returns and leaves the state as it was. *)
Theorem UpdateCameraPose_calls
    (s : State) (c : CameraController) (v : list bool) :
  camera_controller_ptr s = Some c →
  movement_vector_ptr s = Some v →
  (Z.to_nat GLFW_KEY_W < length v)%nat →
  UserInputCallbacks.UpdateCameraPose s = (movement_calls v, Done () s).
Proof.
  intros Hc Hv Hlen.
  destruct (movement_keys_lookup v Hlen) as (HW & HS & HA & HD).
  unfold movement_calls.
  apply (UpdateCameraPose_run s v _ _ _ _ Hv HW HS HA HD).
  intros _. rewrite Hc. by eexists.
Qed.

(** An instance: W and S held together, the controller is told to move
    front and back. *)
Lemma UpdateCameraPose_calls_witness :
  UserInputCallbacks.UpdateCameraPose
    (wired_state (mkCameraController 1)
       (<[Z.to_nat GLFW_KEY_S := true]> (<[Z.to_nat GLFW_KEY_W := true]> no_key_held)))
  = ([CameraController_MoveFront; CameraController_MoveBack],
     Done () (wired_state (mkCameraController 1)
                (<[Z.to_nat GLFW_KEY_S := true]>
                   (<[Z.to_nat GLFW_KEY_W := true]> no_key_held)))).
Proof.
  refine (UpdateCameraPose_calls _ (mkCameraController 1)
            (<[Z.to_nat GLFW_KEY_S := true]>
               (<[Z.to_nat GLFW_KEY_W := true]> no_key_held)) _ _ _);
    [reflexivity | reflexivity | vm_compute; lia].
Defined.

(** X2.  When none of W, S, A and D is held, [UpdateCameraPose] makes no
    call and returns with the state unchanged, and it does so without going
    through the controller pointer: the pointer may be null. *)
Theorem UpdateCameraPose_nothing_held (s : State) (v : list bool) :
  movement_vector_ptr s = Some v →
  (Z.to_nat GLFW_KEY_W < length v)%nat →
  held v GLFW_KEY_W = false → held v GLFW_KEY_S = false →
  held v GLFW_KEY_A = false → held v GLFW_KEY_D = false →
  UserInputCallbacks.UpdateCameraPose s = ([], Done () s).
Proof.
  intros Hv Hlen HW HS HA HD.
  destruct (movement_keys_lookup v Hlen) as (HW' & HS' & HA' & HD').
  rewrite HW in HW'. rewrite HS in HS'. rewrite HA in HA'. rewrite HD in HD'.
  by rewrite (UpdateCameraPose_run s v _ _ _ _ Hv HW' HS' HA' HD').
Qed.

(** An instance: no key held, and no controller behind the pointer. *)
Lemma UpdateCameraPose_nothing_held_witness :
  UserInputCallbacks.UpdateCameraPose (set_movement_vector no_key_held initial_state)
  = ([], Done () (set_movement_vector no_key_held initial_state)).
Proof.
  refine (UpdateCameraPose_nothing_held _ no_key_held _ _ _ _ _ _);
    try reflexivity. vm_compute; lia.
Defined.

(** X3.  When the held-key vector has no entry for W (87 entries or fewer),
    the first [at] throws [std::out_of_range]: [UpdateCameraPose] makes no
    call to the controller and changes nothing. *)
Theorem UpdateCameraPose_short_vector (s : State) (v : list bool) :
  movement_vector_ptr s = Some v →
  (length v ≤ Z.to_nat GLFW_KEY_W)%nat →
  UserInputCallbacks.UpdateCameraPose s = ([], Stopped out_of_range s).
Proof.
  intros Hv Hlen. unfold UserInputCallbacks.UpdateCameraPose.
  apply bind_stopped. unfold movement_vector_at. rewrite Hv.
  change (0 <=? GLFW_KEY_W) with true. cbv iota.
  by rewrite (lookup_ge_None_2 v _ Hlen).
Qed.

(** An instance: a vector of 87 entries, all set. *)
Lemma UpdateCameraPose_short_vector_witness :
  UserInputCallbacks.UpdateCameraPose
    (wired_state (mkCameraController 1) (replicate 87 true))
  = ([], Stopped out_of_range
           (wired_state (mkCameraController 1) (replicate 87 true))).
Proof.
  refine (UpdateCameraPose_short_vector _ (replicate 87 true) _ _);
    [reflexivity | vm_compute; lia].
Defined.

(** ** The key callback and the close flag *)

Lemma movement_vector_at_assign_other_fields key b s :
  calls (movement_vector_at_assign key b s) = [] ∧
  let s' := final_state (result (movement_vector_at_assign key b s)) in
  window_should_close s' = window_should_close s ∧
  key_callback s' = key_callback s ∧ error_callback s' = error_callback s ∧
  camera_controller_ptr s' = camera_controller_ptr s ∧
  last_x_position s' = last_x_position s ∧
  last_y_position s' = last_y_position s ∧ first_call s' = first_call s ∧
  (movement_vector_ptr s = None → movement_vector_ptr s' = None).
Proof.
  unfold movement_vector_at_assign.
  destruct (movement_vector_ptr s) as [v|] eqn:Hv; [|by rewrite <- Hv at 2].
  destruct ((0 <=? key) && (key <? Z.of_nat (length v))); by simpl.
Qed.

(** The recording part of the first [KeyCallback]. *)
Lemma record_key_other_fields key action s :
  ∃ r,
    when ((0 <=? key) && (key <? 1024))
      (if action =? GLFW_PRESS then movement_vector_at_assign key true
       else if action =? GLFW_RELEASE then movement_vector_at_assign key false
       else ret ()) s = ([], r) ∧
    let s' := final_state r in
    window_should_close s' = window_should_close s ∧
    key_callback s' = key_callback s ∧ error_callback s' = error_callback s ∧
    camera_controller_ptr s' = camera_controller_ptr s ∧
    last_x_position s' = last_x_position s ∧
    last_y_position s' = last_y_position s ∧ first_call s' = first_call s ∧
    (movement_vector_ptr s = None → movement_vector_ptr s' = None).
Proof.
  assert (∀ b, ∃ r, movement_vector_at_assign key b s = ([], r) ∧
            let s' := final_state r in
            window_should_close s' = window_should_close s ∧
            key_callback s' = key_callback s ∧ error_callback s' = error_callback s ∧
            camera_controller_ptr s' = camera_controller_ptr s ∧
            last_x_position s' = last_x_position s ∧
            last_y_position s' = last_y_position s ∧ first_call s' = first_call s ∧
            (movement_vector_ptr s = None → movement_vector_ptr s' = None)) as Hassign.
  { intros b.
    destruct (movement_vector_at_assign_other_fields key b s) as [Hcalls Hfields].
    destruct (movement_vector_at_assign key b s) as [t r].
    unfold calls in Hcalls. simpl in Hcalls. subst t. by exists r. }
  destruct ((0 <=? key) && (key <? 1024)); [|by eexists].
  cbn [when].
  destruct (action =? GLFW_PRESS); [apply Hassign|].
  destruct (action =? GLFW_RELEASE); [apply Hassign|].
  by eexists.
Qed.

(** X4.  Either definition of [KeyCallback], in any state: the callback
    calls [glfwSetWindowShouldClose(window, GL_TRUE)] when the event is
    Escape pressed and makes no call otherwise; the close flag is set by
    Escape pressed and is never cleared, whatever else the callback does. *)
Theorem KeyCallback_close_flag
    (site : Definition_site) (window : GLFWwindow)
    (key scancode action mods : Z) (s : State) :
  calls (KeyCallback_at site window key scancode action mods s)
  = (if escape_pressed key action
     then [glfwSetWindowShouldClose window GL_TRUE] else []) ∧
  window_should_close
    (final_state (result (KeyCallback_at site window key scancode action mods s)))
  = window_should_close s || escape_pressed key action.
Proof.
  unfold escape_pressed.
  destruct site; unfold KeyCallback_at, UserInputCallbacks.KeyCallback,
    SecondDefinitions.KeyCallback.
  - destruct ((key =? GLFW_KEY_ESCAPE) && (action =? GLFW_PRESS)); cbn [when].
    + destruct (record_key_other_fields key action
                  (set_window_should_close true s)) as (r & Hrun & Hflag & _).
      rewrite (bind_run _ _ _ _ _ _ _ _
                 (SetWindowShouldClose_run window GL_TRUE s) Hrun).
      unfold calls, result. cbn [fst snd]. rewrite Hflag.
      by rewrite orb_true_r.
    + destruct (record_key_other_fields key action s) as (r & Hrun & Hflag & _).
      rewrite (bind_run _ _ s [] () s [] r eq_refl Hrun).
      unfold calls, result. cbn [fst snd]. rewrite Hflag.
      by rewrite orb_false_r.
  - destruct ((key =? GLFW_KEY_ESCAPE) && (action =? GLFW_PRESS)); cbn [when].
    + rewrite SetWindowShouldClose_run. simpl. by rewrite orb_true_r.
    + simpl. by rewrite orb_false_r.
Qed.

(** ** Pressing and releasing a key *)

(** A press or release the first [KeyCallback] records: the entry of the
    key is written, the pointers stay. *)
Lemma KeyCallback_recorded window key scancode action mods s v (b : bool) :
  movement_vector_ptr s = Some v →
  0 ≤ key < 1024 →
  (Z.to_nat key < length v)%nat →
  (action = GLFW_PRESS ∧ b = true) ∨ (action = GLFW_RELEASE ∧ b = false) →
  ∃ t s',
    UserInputCallbacks.KeyCallback window key scancode action mods s
    = (t, Done () s') ∧
    movement_vector_ptr s' = Some (<[Z.to_nat key := b]> v) ∧
    camera_controller_ptr s' = camera_controller_ptr s ∧
    Forall (λ c, callback_call c = true) t.
Proof.
  intros Hv Hkey Hlen Haction.
  assert (0 ≤ key < Z.of_nat (length v)) as Hin by lia.
  assert ((0 <=? key) && (key <? 1024) = true) as Hrange
    by (apply andb_true_iff; split; [apply Z.leb_le | apply Z.ltb_lt]; lia).
  assert ((if action =? GLFW_PRESS then movement_vector_at_assign key true
           else if action =? GLFW_RELEASE then movement_vector_at_assign key false
           else ret ()) = movement_vector_at_assign key b) as Hassign
    by (destruct Haction as [[-> ->] | [-> ->]]; reflexivity).
  unfold UserInputCallbacks.KeyCallback. rewrite Hrange, Hassign. cbn [when].
  destruct ((key =? GLFW_KEY_ESCAPE) && (action =? GLFW_PRESS)); cbn [when].
  - eexists _, _. split; [|split; [|split]].
    + eapply bind_run; [apply SetWindowShouldClose_run|].
      by apply (movement_vector_at_assign_in_range _ v).
    + reflexivity.
    + reflexivity.
    + by repeat constructor.
  - eexists _, _. split; [|split; [|split]].
    + eapply bind_run; [reflexivity|].
      by apply (movement_vector_at_assign_in_range _ v).
    + reflexivity.
    + reflexivity.
    + by repeat constructor.
Qed.

(** X5.  With a held-key vector of 1024 entries behind the pointer, a press
    of a key in [0, 1024) followed by its release leaves the entry of the
    key clear and every other entry as it was; if the key was not held
    before, the vector is the one the two events found. *)
Theorem KeyCallback_press_then_release
    (s : State) (v : list bool) (window : GLFWwindow)
    (key scancode mods scancode' mods' : Z) :
  movement_vector_ptr s = Some v →
  length v = 1024%nat →
  0 ≤ key < 1024 →
  ∃ t s',
    (UserInputCallbacks.KeyCallback window key scancode GLFW_PRESS mods ≫= λ _,
     UserInputCallbacks.KeyCallback window key scancode' GLFW_RELEASE mods') s
    = (t, Done () s') ∧
    movement_vector_ptr s' = Some (<[Z.to_nat key := false]> v) ∧
    (v !! Z.to_nat key = Some false → movement_vector_ptr s' = Some v).
Proof.
  intros Hv Hlen Hkey.
  assert (Z.to_nat key < length v)%nat as Hin by lia.
  destruct (KeyCallback_recorded window key scancode GLFW_PRESS mods s v true)
    as (t1 & s1 & Hrun1 & Hv1 & _ & _); [done|done|done|by left|].
  destruct (KeyCallback_recorded window key scancode' GLFW_RELEASE mods' s1
              (<[Z.to_nat key := true]> v) false)
    as (t2 & s2 & Hrun2 & Hv2 & _ & _);
    [done|done|by rewrite length_insert|by right|].
  exists (t1 ++ t2), s2. split; [by eapply bind_run|].
  rewrite list_insert_insert_eq in Hv2. split; [done|].
  intros Hclear. by rewrite Hv2, list_insert_id.
Qed.

(** An instance: S pressed and released while W and A are held. *)
Lemma KeyCallback_press_then_release_witness :
  ∃ t s',
    (UserInputCallbacks.KeyCallback 1 GLFW_KEY_S 39 GLFW_PRESS 0 ≫= λ _,
     UserInputCallbacks.KeyCallback 1 GLFW_KEY_S 39 GLFW_RELEASE 0)
      (wired_state (mkCameraController 1) W_and_A_held)
    = (t, Done () s') ∧
    movement_vector_ptr s' = Some (<[Z.to_nat GLFW_KEY_S := false]> W_and_A_held) ∧
    (W_and_A_held !! Z.to_nat GLFW_KEY_S = Some false →
     movement_vector_ptr s' = Some W_and_A_held).
Proof.
  apply (KeyCallback_press_then_release
           (wired_state (mkCameraController 1) W_and_A_held) W_and_A_held);
    [reflexivity | reflexivity | unfold GLFW_KEY_S; lia].
Defined.

(** ** From key events to camera moves *)

Lemma held_insert_eq (v : list bool) (key : Z) (b : bool) :
  (Z.to_nat key < length v)%nat →
  held (<[Z.to_nat key := b]> v) key = b.
Proof. intros Hlen. unfold held. by rewrite list_lookup_insert_eq. Qed.

Lemma move_call_in_movement_calls (v : list bool) (key : Z) (move : Call) :
  move_call key = Some move →
  (move ∈ movement_calls v ↔ held v key = true).
Proof.
  unfold move_call, movement_calls. intros Hmove.
  destruct (key =? GLFW_KEY_W) eqn:HW;
    [apply Z.eqb_eq in HW; subst key; injection Hmove as <-|].
  { destruct (held v GLFW_KEY_W), (held v GLFW_KEY_S),
      (held v GLFW_KEY_A), (held v GLFW_KEY_D); simpl;
      rewrite ?elem_of_cons, ?elem_of_nil; split; (discriminate || tauto || idtac);
      intros H; repeat destruct H as [H|H]; discriminate || done. }
  destruct (key =? GLFW_KEY_S) eqn:HS;
    [apply Z.eqb_eq in HS; subst key; injection Hmove as <-|].
  { destruct (held v GLFW_KEY_W), (held v GLFW_KEY_S),
      (held v GLFW_KEY_A), (held v GLFW_KEY_D); simpl;
      rewrite ?elem_of_cons, ?elem_of_nil; split; (discriminate || tauto || idtac);
      intros H; repeat destruct H as [H|H]; discriminate || done. }
  destruct (key =? GLFW_KEY_A) eqn:HA;
    [apply Z.eqb_eq in HA; subst key; injection Hmove as <-|].
  { destruct (held v GLFW_KEY_W), (held v GLFW_KEY_S),
      (held v GLFW_KEY_A), (held v GLFW_KEY_D); simpl;
      rewrite ?elem_of_cons, ?elem_of_nil; split; (discriminate || tauto || idtac);
      intros H; repeat destruct H as [H|H]; discriminate || done. }
  destruct (key =? GLFW_KEY_D) eqn:HD;
    [apply Z.eqb_eq in HD; subst key; injection Hmove as <-|discriminate].
  destruct (held v GLFW_KEY_W), (held v GLFW_KEY_S),
    (held v GLFW_KEY_A), (held v GLFW_KEY_D); simpl;
    rewrite ?elem_of_cons, ?elem_of_nil; split; (discriminate || tauto || idtac);
    intros H; repeat destruct H as [H|H]; discriminate || done.
Qed.

Lemma move_call_key_range (key : Z) (move : Call) :
  move_call key = Some move → 0 ≤ key < 1024.
Proof.
  unfold move_call. intros Hmove.
  destruct (key =? GLFW_KEY_W) eqn:HW; [apply Z.eqb_eq in HW; by subst|].
  destruct (key =? GLFW_KEY_S) eqn:HS; [apply Z.eqb_eq in HS; by subst|].
  destruct (key =? GLFW_KEY_A) eqn:HA; [apply Z.eqb_eq in HA; by subst|].
  destruct (key =? GLFW_KEY_D) eqn:HD; [apply Z.eqb_eq in HD; by subst|].
  discriminate.
Qed.

Lemma move_call_not_callback_call (key : Z) (move : Call) :
  move_call key = Some move → callback_call move = false.
Proof.
  unfold move_call. intros Hmove.
  destruct (key =? GLFW_KEY_W); [by injection Hmove as <-|].
  destruct (key =? GLFW_KEY_S); [by injection Hmove as <-|].
  destruct (key =? GLFW_KEY_A); [by injection Hmove as <-|].
  destruct (key =? GLFW_KEY_D); [by injection Hmove as <-|discriminate].
Qed.

(** X6.  With both pointers set and a held-key vector of 1024 entries: once
    [KeyCallback] has seen one of W, S, A, D pressed, the next
    [UpdateCameraPose] calls the movement of that key; once it has seen the
    key released again, the next [UpdateCameraPose] does not. *)
Theorem key_events_drive_UpdateCameraPose
    (s : State) (c : CameraController) (v : list bool) (window : GLFWwindow)
    (key scancode mods scancode' mods' : Z) (move : Call) :
  camera_controller_ptr s = Some c →
  movement_vector_ptr s = Some v →
  length v = 1024%nat →
  move_call key = Some move →
  (∃ t s',
     (UserInputCallbacks.KeyCallback window key scancode GLFW_PRESS mods ≫= λ _,
      UserInputCallbacks.UpdateCameraPose) s = (t, Done () s') ∧
     move ∈ t) ∧
  (∃ t s',
     (UserInputCallbacks.KeyCallback window key scancode GLFW_PRESS mods ≫= λ _,
      UserInputCallbacks.KeyCallback window key scancode' GLFW_RELEASE mods' ≫= λ _,
      UserInputCallbacks.UpdateCameraPose) s = (t, Done () s') ∧
     move ∉ t).
Proof.
  intros Hc Hv Hlen Hmove.
  pose proof (move_call_key_range key move Hmove) as Hkey.
  assert (Z.to_nat key < length v)%nat as Hin by lia.
  destruct (KeyCallback_recorded window key scancode GLFW_PRESS mods s v true)
    as (t1 & s1 & Hrun1 & Hv1 & Hc1 & Ht1); [done|done|done|by left|].
  destruct (KeyCallback_recorded window key scancode' GLFW_RELEASE mods' s1
              (<[Z.to_nat key := true]> v) false)
    as (t2 & s2 & Hrun2 & Hv2 & Hc2 & Ht2);
    [done|done|by rewrite length_insert|by right|].
  rewrite list_insert_insert_eq in Hv2.
  assert (∀ s' v', camera_controller_ptr s' = Some c →
            movement_vector_ptr s' = Some v' → length v' = 1024%nat →
            UserInputCallbacks.UpdateCameraPose s' = (movement_calls v', Done () s'))
    as Hupdate.
  { intros s' v' Hc' Hv' Hlen'.
    assert (Z.to_nat GLFW_KEY_W < length v')%nat as HlenW
      by (rewrite Hlen'; vm_compute; lia).
    destruct (movement_keys_lookup v' HlenW) as (HW & HS & HA & HD).
    apply (UpdateCameraPose_run s' v' _ _ _ _ Hv' HW HS HA HD).
    intros _. rewrite Hc'. by eexists. }
  assert (∀ t, Forall (λ c, callback_call c = true) t → move ∉ t) as Hnot.
  { intros t Ht Hin'. rewrite Forall_forall in Ht. specialize (Ht move Hin').
    by rewrite (move_call_not_callback_call key move Hmove) in Ht. }
  split.
  - exists (t1 ++ movement_calls (<[Z.to_nat key := true]> v)), s1. split.
    + eapply bind_run; [exact Hrun1|].
      apply Hupdate; [congruence | done | by rewrite length_insert].
    + apply elem_of_app. right.
      apply (move_call_in_movement_calls _ key); [done|].
      by apply held_insert_eq.
  - exists (t1 ++ t2 ++ movement_calls (<[Z.to_nat key := false]> v)), s2. split.
    + eapply bind_run; [exact Hrun1|]. eapply bind_run; [exact Hrun2|].
      apply Hupdate; [congruence | done | by rewrite length_insert].
    + rewrite !elem_of_app. intros [Hin' | [Hin' | Hin']].
      * by apply (Hnot t1).
      * by apply (Hnot t2).
      * apply (move_call_in_movement_calls _ key) in Hin'; [|done].
        rewrite held_insert_eq in Hin' by done. discriminate.
Qed.

(** An instance: D, with no key held before. *)
Lemma key_events_drive_UpdateCameraPose_witness :
  (∃ t s',
     (UserInputCallbacks.KeyCallback 1 GLFW_KEY_D 40 GLFW_PRESS 0 ≫= λ _,
      UserInputCallbacks.UpdateCameraPose)
       (wired_state (mkCameraController 1) no_key_held) = (t, Done () s') ∧
     CameraController_MoveRight ∈ t) ∧
  (∃ t s',
     (UserInputCallbacks.KeyCallback 1 GLFW_KEY_D 40 GLFW_PRESS 0 ≫= λ _,
      UserInputCallbacks.KeyCallback 1 GLFW_KEY_D 40 GLFW_RELEASE 0 ≫= λ _,
      UserInputCallbacks.UpdateCameraPose)
       (wired_state (mkCameraController 1) no_key_held) = (t, Done () s') ∧
     CameraController_MoveRight ∉ t).
Proof.
  apply (key_events_drive_UpdateCameraPose
           (wired_state (mkCameraController 1) no_key_held)
           (mkCameraController 1) no_key_held);
    reflexivity.
Defined.

(** ** Successive cursor positions *)

Lemma MouseCallback_run (s : State) (c : CameraController) (window : GLFWwindow)
    (x_position y_position : float) (x y : Z) (first : bool) :
  camera_controller_ptr s = Some c →
  first_call s = first →
  int_of_double x_position = Some x →
  int_of_double y_position = Some y →
  ∃ s',
    UserInputCallbacks.MouseCallback window x_position y_position s
    = ([CameraController_AddYawOffset
          (rotation_sensitivity c
           * (x_position - float_of_int (if first then x else last_x_position s)))%float;
        CameraController_AddPitchOffset
          (rotation_sensitivity c
           * (float_of_int (if first then y else last_y_position s) - y_position))%float],
       Done () s') ∧
    camera_controller_ptr s' = Some c ∧ first_call s' = false ∧
    last_x_position s' = x ∧ last_y_position s' = y.
Proof.
  intros Hc Hfirst Hx Hy. unfold UserInputCallbacks.MouseCallback.
  destruct first.
  - eexists. split.
    + etrans.
      { run_bind ltac:(reflexivity). rewrite Hfirst.
        run_bind ltac:(
          run_bind ltac:(by apply (store_last_position_run _ _ x y));
          reflexivity).
        run_bind ltac:(by apply (camera_controller_rotation_sensitivity_run _ c)).
        run_bind ltac:(reflexivity).
        run_bind ltac:(by apply (camera_controller_call_run _ c)).
        run_bind ltac:(by apply (camera_controller_rotation_sensitivity_run _ c)).
        run_bind ltac:(reflexivity).
        run_bind ltac:(by apply (camera_controller_call_run _ c)).
        by apply (store_last_position_run _ _ x y). }
      reflexivity.
    + done.
  - eexists. split.
    + etrans.
      { run_bind ltac:(reflexivity). rewrite Hfirst.
        run_bind ltac:(reflexivity).
        run_bind ltac:(by apply (camera_controller_rotation_sensitivity_run _ c)).
        run_bind ltac:(reflexivity).
        run_bind ltac:(by apply (camera_controller_call_run _ c)).
        run_bind ltac:(by apply (camera_controller_rotation_sensitivity_run _ c)).
        run_bind ltac:(reflexivity).
        run_bind ltac:(by apply (camera_controller_call_run _ c)).
        by apply (store_last_position_run _ _ x y). }
      reflexivity.
    + done.
Qed.

(** X7.  Two cursor events in a row, the controller pointer set, the
    coordinates such that an [int] holds them.  Whatever the state before
    (first call or not), the offsets of the second event are the
    sensitivity times the move from the first position as stored, that is
    with its fraction dropped, to the second: yaw for x, pitch for y with
    the sign turned.  The second event never seeds the statics again, and
    after it they hold the second position, fraction dropped. *)
Theorem MouseCallback_twice
    (s : State) (c : CameraController) (window : GLFWwindow)
    (x1 y1 x2 y2 : float) (i1 j1 i2 j2 : Z) :
  camera_controller_ptr s = Some c →
  int_of_double x1 = Some i1 → int_of_double y1 = Some j1 →
  int_of_double x2 = Some i2 → int_of_double y2 = Some j2 →
  ∃ yaw1 pitch1 s',
    (UserInputCallbacks.MouseCallback window x1 y1 ≫= λ _,
     UserInputCallbacks.MouseCallback window x2 y2) s
    = ([CameraController_AddYawOffset yaw1;
        CameraController_AddPitchOffset pitch1;
        CameraController_AddYawOffset
          (rotation_sensitivity c * (x2 - float_of_int i1))%float;
        CameraController_AddPitchOffset
          (rotation_sensitivity c * (float_of_int j1 - y2))%float],
       Done () s') ∧
    last_x_position s' = i2 ∧ last_y_position s' = j2 ∧ first_call s' = false.
Proof.
  intros Hc Hx1 Hy1 Hx2 Hy2.
  destruct (MouseCallback_run s c window x1 y1 i1 j1 (first_call s))
    as (s1 & Hrun1 & Hc1 & Hfirst1 & Hlx1 & Hly1); try done.
  destruct (MouseCallback_run s1 c window x2 y2 i2 j2 false)
    as (s2 & Hrun2 & Hc2 & Hfirst2 & Hlx2 & Hly2); try done.
  rewrite Hlx1, Hly1 in Hrun2.
  eexists _, _, s2. split; [|done].
  etrans; [eapply bind_run; [exact Hrun1 | exact Hrun2]|]. reflexivity.
Qed.

(** An instance: from (100.5, 200.25) to (103, 198.25), sensitivity 0.5;
    the second pair of offsets is 0.5 * (103 - 100) and 0.5 * (200 - 198.25). *)
Lemma MouseCallback_twice_witness :
  ∃ yaw1 pitch1 s',
    (UserInputCallbacks.MouseCallback 1 100.5 200.25 ≫= λ _,
     UserInputCallbacks.MouseCallback 1 103 198.25)
      (wired_state (mkCameraController 0.5) no_key_held)
    = ([CameraController_AddYawOffset yaw1;
        CameraController_AddPitchOffset pitch1;
        CameraController_AddYawOffset (0.5 * (103 - float_of_int 100))%float;
        CameraController_AddPitchOffset (0.5 * (float_of_int 200 - 198.25))%float],
       Done () s') ∧
    last_x_position s' = 103 ∧ last_y_position s' = 198 ∧ first_call s' = false.
Proof.
  apply (MouseCallback_twice
           (wired_state (mkCameraController 0.5) no_key_held)
           (mkCameraController 0.5) 1 100.5 200.25 103 198.25 100 200 103 198);
    reflexivity.
Defined.

(** ** [RenderScene] for any list of models *)

(** X8.  Given at least as many texture names as models, [RenderScene]
    clears the buffers, activates the program and sets the polygon mode,
    then draws every model exactly once, in the order of the list, model
    [i] with [texture_ids[i]], the projection and the view it was given,
    and ends by resetting the vertex-array binding; texture names beyond
    the models are not used, and with no model it draws nothing.  The
    file's state is not touched. *)
Theorem RenderScene_draws_each_model
    (shader_program : ShaderProgram) (projection view : Matrix4f)
    (models : list Model) (window : GLFWwindow) (texture_ids : list Z)
    (s : State) :
  (length models ≤ length texture_ids)%nat →
  ∃ draws : list Call,
    RenderScene shader_program projection view models window texture_ids s
    = ([ glEnable GL_DEPTH_TEST; glClearColor 0 0 0 1;
         glClear (Z.lor GL_COLOR_BUFFER_BIT GL_DEPTH_BUFFER_BIT);
         ShaderProgram_Use (shader_program_id shader_program);
         glPolygonMode GL_FRONT_AND_BACK GL_LINE ]
       ++ draws ++ [ glBindVertexArray 0 ],
       Done () s) ∧
    length draws = length models ∧
    ∀ (i : nat) (model : Model),
      models !! i = Some model →
      ∃ texture_id,
        texture_ids !! i = Some texture_id ∧
        draws !! i
        = Some (Model_Draw model (shader_program_id shader_program)
                  projection view texture_id).
Proof.
  intros Hlen. eexists. split; [by apply RenderScene_run|]. split.
  - rewrite length_zip_with. lia.
  - intros i model Hmodel.
    destruct (lookup_lt_is_Some_2 texture_ids i) as [texture_id Htexture].
    { apply lookup_lt_Some in Hmodel. lia. }
    exists texture_id. split; [done|].
    by rewrite lookup_zip_with, Hmodel, Htexture.
Qed.

(** An instance: three models, four texture names. *)
Lemma RenderScene_draws_each_model_witness :
  ∃ draws : list Call,
    RenderScene (linked_program 3) (projection example_world) Matrix4f_Identity
      [pyramid; cube; pyramid] 1 [7; 8; 9; 10] initial_state
    = ([ glEnable GL_DEPTH_TEST; glClearColor 0 0 0 1;
         glClear (Z.lor GL_COLOR_BUFFER_BIT GL_DEPTH_BUFFER_BIT);
         ShaderProgram_Use 3;
         glPolygonMode GL_FRONT_AND_BACK GL_LINE ]
       ++ draws ++ [ glBindVertexArray 0 ],
       Done () initial_state) ∧
    length draws = 3%nat ∧
    ∀ (i : nat) (model : Model),
      [pyramid; cube; pyramid] !! i = Some model →
      ∃ texture_id,
        [7; 8; 9; 10] !! i = Some texture_id ∧
        draws !! i
        = Some (Model_Draw model 3 (projection example_world)
                  Matrix4f_Identity texture_id).
Proof.
  apply (RenderScene_draws_each_model (linked_program 3)
           (projection example_world) Matrix4f_Identity
           [pyramid; cube; pyramid] 1 [7; 8; 9; 10] initial_state).
  simpl. lia.
Defined.

(** ** [CreateShaderProgram] *)

(** X9.  [CreateShaderProgram] given a null pointer returns false at once,
    with no call.  Given a program object it loads the vertex source, then
    the fragment source, then calls [Create]; what it returns is decided by
    the program identifier alone: true exactly when the identifier is not
    zero after [Create].  The line "Could not create a shader program" is
    written exactly when it returns false. *)
Theorem CreateShaderProgram_result
    (w : World) (p : ShaderProgram) (s : State) :
  CreateShaderProgram w None s = ([], Done (false, None) s) ∧
  ∃ (messages : list Call) (p' : ShaderProgram),
    CreateShaderProgram w (Some p) s
    = ([ ShaderProgram_LoadVertexShaderFromString vertex_shader_src;
         ShaderProgram_LoadFragmentShaderFromString fragment_shader_src;
         ShaderProgram_Create ] ++ messages,
       Done (negb (shader_program_id p' =? 0), Some p') s) ∧
    vertex_source p' = Some vertex_shader_src ∧
    fragment_source p' = Some fragment_shader_src ∧
    (std_cerr ("ERROR: Could not create a shader program." +:+ endl) ∈ messages
     ↔ shader_program_id p' = 0).
Proof.
  split; [reflexivity|].
  unfold CreateShaderProgram.
  destruct (link_result w) as [diagnostic|program] eqn:Hlink.
  - set (p' := mkShaderProgram (Some vertex_shader_src)
                 (Some fragment_shader_src) (shader_program_id p)).
    destruct (shader_program_id p =? 0) eqn:Hid.
    + exists [std_cout ("ERROR: " +:+ diagnostic +:+ endl);
              std_cerr ("ERROR: Could not create a shader program." +:+ endl)], p'.
      split; [|split; [|split]]; try reflexivity.
      * subst p'. cbn [shader_program_id]. rewrite Hid. etrans.
        { run_bind ltac:(reflexivity). run_bind ltac:(reflexivity).
          run_bind ltac:(unfold Create; rewrite Hlink; reflexivity).
          run_bind ltac:(reflexivity).
          cbn [shader_program_id]. rewrite Hid. reflexivity. }
        reflexivity.
      * subst p'. cbn [shader_program_id]. apply Z.eqb_eq in Hid.
        split; [done|]. intros _. apply elem_of_cons. right.
        apply elem_of_cons. by left.
    + exists [std_cout ("ERROR: " +:+ diagnostic +:+ endl)], p'.
      split; [|split; [|split]]; try reflexivity.
      * subst p'. cbn [shader_program_id]. rewrite Hid. etrans.
        { run_bind ltac:(reflexivity). run_bind ltac:(reflexivity).
          run_bind ltac:(unfold Create; rewrite Hlink; reflexivity).
          run_bind ltac:(reflexivity).
          cbn [shader_program_id]. rewrite Hid. reflexivity. }
        reflexivity.
      * subst p'. cbn [shader_program_id]. apply Z.eqb_neq in Hid.
        split; [|done]. intros Hin.
        apply elem_of_cons in Hin as [Heq|Hin]; [discriminate|].
        by apply elem_of_nil in Hin.
  - exists [], (mkShaderProgram (Some vertex_shader_src)
                  (Some fragment_shader_src) (Z.pos program)).
    split; [|split; [|split]]; try reflexivity.
    + etrans.
      { run_bind ltac:(reflexivity). run_bind ltac:(reflexivity).
        run_bind ltac:(unfold Create; rewrite Hlink; reflexivity).
        run_bind ltac:(reflexivity).
        reflexivity. }
      reflexivity.
    + cbn [shader_program_id]. split; [|done].
      intros Hin. by apply elem_of_nil in Hin.
Qed.

(** ** What the callbacks of [main] leave alone *)

Lemma KeyCallback_at_keeps site window key scancode action mods s :
  let s' := final_state
              (result (KeyCallback_at site window key scancode action mods s)) in
  registered s' = registered s ∧
  (movement_vector_ptr s = None → camera_wiring s' = camera_wiring s).
Proof.
  cbv zeta. unfold registered, camera_wiring.
  destruct site; unfold KeyCallback_at, UserInputCallbacks.KeyCallback,
    SecondDefinitions.KeyCallback;
    destruct ((key =? GLFW_KEY_ESCAPE) && (action =? GLFW_PRESS)); cbn [when].
  - destruct (record_key_other_fields key action (set_window_should_close true s))
      as (r & Hrun & _ & Hk & He & Hc & Hx & Hy & Hf & Hv).
    rewrite (bind_run _ _ _ _ _ _ _ _
               (SetWindowShouldClose_run window GL_TRUE s) Hrun).
    unfold result. cbn [snd]. rewrite Hk, He, Hc, Hx, Hy, Hf. split; [done|].
    intros Hnull. by rewrite (Hv Hnull), Hnull.
  - destruct (record_key_other_fields key action s)
      as (r & Hrun & _ & Hk & He & Hc & Hx & Hy & Hf & Hv).
    rewrite (bind_run _ _ s [] () s [] r eq_refl Hrun).
    unfold result. cbn [snd]. rewrite Hk, He, Hc, Hx, Hy, Hf. split; [done|].
    intros Hnull. by rewrite (Hv Hnull), Hnull.
  - rewrite SetWindowShouldClose_run. done.
  - done.
Qed.

Lemma deliver_keeps window e s :
  let s' := final_state (result (deliver window e s)) in
  registered s' = registered s ∧
  (movement_vector_ptr s = None → camera_wiring s' = camera_wiring s).
Proof.
  destruct e as [key scancode action mods| | | |error description];
    cbn [deliver]; try done.
  - rewrite (bind_unfold (get key_callback)). cbn [get].
    destruct (key_callback s) as [site|] eqn:Hsite.
    + pose proof (KeyCallback_at_keeps site window key scancode action mods s) as H.
      cbv zeta in H.
      destruct (KeyCallback_at site window key scancode action mods s) as [t r].
      exact H.
    + done.
  - rewrite (bind_unfold (get error_callback)). cbn [get].
    destruct (error_callback s) as [[|]|]; done.
Qed.

Lemma deliver_all_keeps window events s :
  let s' := final_state (result (deliver_all window events s)) in
  registered s' = registered s ∧
  (movement_vector_ptr s = None →
   camera_wiring s' = camera_wiring s ∧ movement_vector_ptr s' = None).
Proof.
  revert s. induction events as [|e events IH]; intros s; [done|].
  cbn [deliver_all]. rewrite bind_unfold.
  pose proof (deliver_keeps window e s) as He. cbv zeta in He.
  destruct (deliver window e s) as [t [[] s1|why s1]]; unfold result in He;
    cbn [snd final_state] in He; destruct He as [Hreg Hwire].
  - specialize (IH s1). cbv zeta in IH.
    destruct (deliver_all window events s1) as [t' r']. unfold result in *.
    cbn [snd] in *. destruct IH as [Hreg' Hwire']. split; [congruence|].
    intros Hnull. specialize (Hwire Hnull).
    assert (movement_vector_ptr s1 = None) as Hnull1.
    { unfold camera_wiring in Hwire. injection Hwire as _ Hv _ _ _. congruence. }
    destruct (Hwire' Hnull1) as [Hw Hn]. split; [congruence|done].
  - unfold result. cbn [snd final_state]. split; [done|].
    intros Hnull. specialize (Hwire Hnull). split; [done|].
    unfold camera_wiring in Hwire. injection Hwire as _ Hv _ _ _. congruence.
Qed.

Lemma PollEvents_keeps window pending s :
  let s' := final_state (result (PollEvents window pending s)) in
  registered s' = registered s ∧
  (movement_vector_ptr s = None →
   camera_wiring s' = camera_wiring s ∧ movement_vector_ptr s' = None).
Proof.
  unfold PollEvents. rewrite bind_unfold. cbn [call].
  pose proof (deliver_all_keeps window pending s) as H. cbv zeta in H.
  destruct (deliver_all window pending s) as [t r]. exact H.
Qed.

(** The loop of [main] keeps the registered callbacks and, the held-key
    pointer being null, the camera wiring. *)
Lemma render_loop_keeps shader_program projection view models window
    texture_ids polls s :
  (length models ≤ length texture_ids)%nat →
  movement_vector_ptr s = None →
  camera_wiring
    (final_state (result (render_loop shader_program projection view models
                            window texture_ids polls s)))
  = camera_wiring s.
Proof.
  intros Hlen. revert s. induction polls as [|pending polls IH]; intros s Hnull;
    (destruct (window_should_close s) eqn:Hclose;
       [by rewrite render_loop_closed|]).
  - by rewrite render_loop_no_events.
  - destruct (PollEvents_run window pending s) as (reaction & r & Hpoll & _).
    pose proof (PollEvents_keeps window pending s) as Hkeeps. cbv zeta in Hkeeps.
    rewrite Hpoll in Hkeeps. unfold result in Hkeeps. cbn [snd] in Hkeeps.
    destruct Hkeeps as [_ Hwire]. destruct (Hwire Hnull) as [Hw Hn].
    rewrite (render_loop_iteration _ _ _ _ _ _ _ _ _ _ _ Hlen Hclose Hpoll).
    destruct r as [[] s'|why s']; cbn [final_state] in *.
    + unfold result at 1. cbn [snd]. rewrite IH by done. exact Hw.
    + exact Hw.
Qed.

(** X12.  Whatever the world answers and whatever events arrive, and with
    either definition of the callbacks registered, a run of [main] never
    assigns the two global pointers and never runs the seeding of
    [MouseCallback]: however the run ends, [camera_controller_ptr] and
    [movement_vector_ptr] are null, the stored cursor position is (0, 0)
    and the first-call flag is still set. *)
Theorem main_never_wires_the_camera
    (w : World) (error_site key_site : Definition_site)
    (polls : list (list Event)) :
  camera_wiring (final_state (result (run_main w error_site key_site polls)))
  = unwired.
Proof.
  destruct (main_cases w)
    as [Hinit
       |[[Hinit Hwindow]
       |[(window & Hinit & Hwindow & Hglew)
       |[(window & diagnostic & Hinit & Hwindow & Hglew & Hlink)
        |(window & program & Hinit & Hwindow & Hglew & Hlink)]]]].
  - by rewrite main_no_windowing_library.
  - by rewrite main_no_window.
  - by rewrite (main_no_device_extensions _ _ _ _ window).
  - by rewrite (main_no_shader_program _ _ _ _ window diagnostic).
  - rewrite (main_initialized _ _ _ _ window program) by done. cbv zeta.
    pose proof (render_loop_keeps (linked_program program) (projection w)
                  Matrix4f_Identity [pyramid; cube] window
                  [texture_name w 0; texture_name w 1] polls
                  (loop_entry_state error_site key_site)) as Hkeeps.
    destruct (result (render_loop _ _ _ _ _ _ _ _)) as [[] s'|why s'];
      unfold result; cbn [snd final_state] in *; by rewrite Hkeeps.
Qed.

(** ** Events that change nothing *)

Lemma deliver_inert window key_site e s :
  key_callback s = Some key_site →
  inert_event key_site e = true →
  deliver window e s = ([], Done () s).
Proof.
  intros Hsite Hinert.
  destruct e as [key scancode action mods| | | |error description];
    try discriminate; try reflexivity.
  cbn [deliver inert_event] in *. unfold escape_pressed in Hinert.
  apply andb_true_iff in Hinert as [Hesc Hrest]. apply negb_true_iff in Hesc.
  etrans; [eapply bind_run; [reflexivity|]|reflexivity].
  cbn beta. rewrite Hsite.
  destruct key_site; unfold KeyCallback_at, UserInputCallbacks.KeyCallback,
    SecondDefinitions.KeyCallback; rewrite Hesc; cbn [when]; [|reflexivity].
  apply negb_true_iff in Hrest.
  destruct ((0 <=? key) && (key <? 1024)); [|reflexivity].
  destruct (action =? GLFW_PRESS); [discriminate|].
  destruct (action =? GLFW_RELEASE); [discriminate|]. reflexivity.
Qed.

Lemma bind_silent {A B} (m : M A) (f : A → M B) s a s' :
  m s = ([], Done a s') → (m ≫= f) s = f a s'.
Proof. intros Hm. rewrite bind_unfold, Hm. by destruct (f a s'). Qed.

Lemma deliver_all_without_inert window key_site events s :
  key_callback s = Some key_site →
  deliver_all window (List.filter (λ e, negb (inert_event key_site e)) events) s
  = deliver_all window events s.
Proof.
  revert s. induction events as [|e events IH]; intros s Hsite; [done|].
  cbn [List.filter]. destruct (inert_event key_site e) eqn:Hinert; cbn [negb].
  - rewrite IH by done. cbn [deliver_all].
    by rewrite (bind_silent _ _ _ _ _
                  (deliver_inert window key_site e s Hsite Hinert)).
  - cbn [deliver_all]. rewrite !bind_unfold.
    pose proof (deliver_keeps window e s) as Hkeeps. cbv zeta in Hkeeps.
    destruct (deliver window e s) as [t [[] s1|why s1]]; [|done].
    rewrite IH; [done|].
    destruct Hkeeps as [Hreg _]. unfold registered, result in Hreg.
    cbn [snd final_state] in Hreg. congruence.
Qed.

Lemma render_loop_without_inert shader_program projection view models window
    texture_ids key_site polls s :
  (length models ≤ length texture_ids)%nat →
  key_callback s = Some key_site →
  render_loop shader_program projection view models window texture_ids
    (without_inert_events key_site polls) s
  = render_loop shader_program projection view models window texture_ids polls s.
Proof.
  intros Hlen. revert s. induction polls as [|pending polls IH]; intros s Hsite;
    [done|].
  unfold without_inert_events. rewrite fmap_cons.
  fold (without_inert_events key_site polls).
  destruct (window_should_close s) eqn:Hclose;
    [by rewrite !render_loop_closed|].
  destruct (PollEvents_run window pending s) as (reaction & r & Hpoll & _).
  assert (PollEvents window
            (List.filter (λ e, negb (inert_event key_site e)) pending) s
          = (glfwPollEvents :: reaction, r)) as Hpoll'.
  { rewrite <- Hpoll. unfold PollEvents. rewrite !bind_unfold. cbn [call].
    by rewrite deliver_all_without_inert. }
  rewrite (render_loop_iteration _ _ _ _ _ _ _ _ _ _ _ Hlen Hclose Hpoll).
  rewrite (render_loop_iteration _ _ _ _ _ _ _ _ _ _ _ Hlen Hclose Hpoll').
  destruct r as [[] s'|why s']; [|done].
  rewrite IH; [done|].
  pose proof (PollEvents_keeps window pending s) as Hkeeps. cbv zeta in Hkeeps.
  rewrite Hpoll in Hkeeps. destruct Hkeeps as [Hreg _].
  unfold registered, result in Hreg. cbn [snd final_state] in Hreg. congruence.
Qed.

(** X11.  A run of [main] does not depend on the events that reach no code
    of the file or none that acts on them: cursor and scroll events (no
    callback is registered for them), and key events that are not Escape
    pressed and that the registered [KeyCallback] does not record.  With
    these events left out of every poll, the calls and the result of the run
    are the same. *)
Theorem main_ignores_inert_events
    (w : World) (error_site key_site : Definition_site)
    (polls : list (list Event)) :
  run_main w error_site key_site (without_inert_events key_site polls)
  = run_main w error_site key_site polls.
Proof.
  destruct (main_cases w)
    as [Hinit
       |[[Hinit Hwindow]
       |[(window & Hinit & Hwindow & Hglew)
       |[(window & diagnostic & Hinit & Hwindow & Hglew & Hlink)
        |(window & program & Hinit & Hwindow & Hglew & Hlink)]]]].
  - by rewrite !main_no_windowing_library.
  - by rewrite !main_no_window.
  - by rewrite !(main_no_device_extensions _ _ _ _ window).
  - by rewrite !(main_no_shader_program _ _ _ _ window diagnostic).
  - rewrite !(main_initialized _ _ _ _ window program) by done. cbv zeta.
    by rewrite render_loop_without_inert.
Qed.

(** A run with cursor, scroll and unrecorded key events mixed in, and the
    same run without them. *)
Example main_ignores_inert_events_run :
  without_inert_events second_definition
    [[CursorPosEvent 10 20; KeyEvent GLFW_KEY_W 25 GLFW_PRESS 0];
     [ScrollEvent 0 1; CloseRequest; KeyEvent GLFW_KEY_ESCAPE 9 GLFW_RELEASE 0]]
  = [[]; [CloseRequest]] ∧
  run_main example_world second_definition second_definition
    [[CursorPosEvent 10 20; KeyEvent GLFW_KEY_W 25 GLFW_PRESS 0];
     [ScrollEvent 0 1; CloseRequest; KeyEvent GLFW_KEY_ESCAPE 9 GLFW_RELEASE 0]]
  = run_main example_world second_definition second_definition [[]; [CloseRequest]].
Proof. split; vm_compute; reflexivity. Qed.

(** ** Frames until the window closes *)

Lemma PollEvents_pointer_events window pending s :
  Forall (λ e, pointer_event e = true) pending →
  PollEvents window pending s = ([glfwPollEvents], Done () s).
Proof.
  intros Hpending. unfold PollEvents. etrans.
  { run_bind ltac:(reflexivity). by apply deliver_all_pointer_events. }
  reflexivity.
Qed.

(** Polls that bring cursor and scroll events only: one frame each, and the
    loop goes on in the same state. *)
Lemma render_loop_quiet shader_program projection view models window
    texture_ids quiet polls s :
  (length models ≤ length texture_ids)%nat →
  window_should_close s = false →
  Forall (Forall (λ e, pointer_event e = true)) quiet →
  render_loop shader_program projection view models window texture_ids
    (quiet ++ polls) s
  = (concat (replicate (length quiet)
               (frame_calls (shader_program_id shader_program) projection view
                  models texture_ids window))
     ++ calls (render_loop shader_program projection view models window
                 texture_ids polls s),
     result (render_loop shader_program projection view models window
               texture_ids polls s)).
Proof.
  intros Hlen Hopen Hquiet.
  induction Hquiet as [|pending quiet Hpending _ IH].
  - simpl. apply surjective_pairing.
  - rewrite <- app_comm_cons.
    rewrite (render_loop_iteration _ _ _ _ _ _ _ _ _ _ _ Hlen Hopen
               (PollEvents_pointer_events window pending s Hpending)).
    rewrite IH. unfold calls at 1. unfold result at 1. cbn [fst snd].
    cbn [length replicate concat]. by rewrite app_nil_l, <- app_assoc.
Qed.

(** X10.  In a run of [main] that gets past initialisation, let the polls
    bring cursor and scroll events only until one brings a request to close
    the window.  Then [main] draws one frame per poll up to and including
    that one, not one more, cleans up and returns 0; the events of later
    polls are never asked for. *)
Theorem main_frames_until_close_request
    (w : World) (error_site key_site : Definition_site)
    (window : GLFWwindow) (program : positive)
    (quiet : list (list Event)) (closing : list Event) (rest : list (list Event)) :
  glfwInit_result w = true →
  glfwCreateWindow_result w = Some window →
  glewInit_ok w = true →
  link_result w = inr program →
  Forall (Forall (λ e, pointer_event e = true)) quiet →
  Forall (λ e, e = CloseRequest ∨ pointer_event e = true) closing →
  CloseRequest ∈ closing →
  ∃ s',
    run_main w error_site key_site (quiet ++ closing :: rest)
    = (startup_calls w error_site key_site window
       ++ concat (replicate (S (length quiet))
                    (frame_calls (Z.pos program) (projection w) Matrix4f_Identity
                       [pyramid; cube] [texture_name w 0; texture_name w 1] window))
       ++ teardown_calls window,
       Done 0 s') ∧
    window_should_close s' = true.
Proof.
  intros Hinit Hwindow Hglew Hlink Hquiet Hclosing Hin.
  set (entry := loop_entry_state error_site key_site).
  destruct (deliver_all_close_request window closing entry Hclosing)
    as (s' & Hrun & Hflag).
  rewrite existsb_close_request in Hflag by done.
  assert (PollEvents window closing entry = ([glfwPollEvents], Done () s')) as Hpoll.
  { unfold PollEvents. etrans.
    { run_bind ltac:(reflexivity). exact Hrun. }
    reflexivity. }
  exists s'. split; [|by rewrite Hflag, orb_true_r].
  rewrite (main_initialized _ _ _ _ window program) by done. cbv zeta.
  fold entry.
  assert (length [pyramid; cube] ≤ length [texture_name w 0; texture_name w 1])%nat
    as Hlen by (simpl; lia).
  rewrite render_loop_quiet by done.
  assert (window_should_close entry = false) as Hopen by reflexivity.
  rewrite (render_loop_iteration _ _ _ _ _ _ _ _ _ _ _ Hlen Hopen Hpoll).
  rewrite render_loop_closed by (by rewrite Hflag, orb_true_r).
  unfold calls, result. cbn [fst snd shader_program_id linked_program].
  f_equal. f_equal. f_equal.
  change ([] ++ []) with (@nil Call). rewrite app_nil_r.
  change (S (length quiet)) with (1 + length quiet)%nat.
  rewrite Nat.add_comm, replicate_add, concat_app.
  cbn [replicate concat]. by rewrite app_nil_r.
Qed.

(** An instance: two polls with cursor and scroll events, then the close
    request; a fourth poll is never reached. *)
Lemma main_frames_until_close_request_witness :
  ∃ s',
    run_main example_world first_definition first_definition
      ([[CursorPosEvent 10 20]; [ScrollEvent 0 1]]
       ++ [CloseRequest] :: [[ErrorEvent 65537 "unused"]])
    = (startup_calls example_world first_definition first_definition 1
       ++ concat (replicate 3
                    (frame_calls 3 (projection example_world) Matrix4f_Identity
                       [pyramid; cube] [1; 2] 1))
       ++ teardown_calls 1,
       Done 0 s') ∧
    window_should_close s' = true.
Proof.
  apply (main_frames_until_close_request example_world
           first_definition first_definition 1 3%positive
           [[CursorPosEvent 10 20]; [ScrollEvent 0 1]] [CloseRequest]
           [[ErrorEvent 65537 "unused"]]);
    try reflexivity.
  - by repeat constructor.
  - by repeat constructor.
  - by left.
Defined.

(** ** Keys in [main] *)

(** X15.  With the second [KeyCallback] (lines 201 to 205) registered: in a
    run that gets past initialisation, when a poll brings Escape pressed
    (the polls before bringing cursor and scroll events only), the callback
    calls [glfwSetWindowShouldClose(window, GL_TRUE)], no further frame is
    drawn, and [main] cleans up and returns 0. *)
Theorem main_escape_closes
    (w : World) (error_site : Definition_site)
    (window : GLFWwindow) (program : positive)
    (quiet : list (list Event)) (scancode mods : Z) (rest : list (list Event)) :
  glfwInit_result w = true →
  glfwCreateWindow_result w = Some window →
  glewInit_ok w = true →
  link_result w = inr program →
  Forall (Forall (λ e, pointer_event e = true)) quiet →
  run_main w error_site second_definition
    (quiet ++ [KeyEvent GLFW_KEY_ESCAPE scancode GLFW_PRESS mods] :: rest)
  = (startup_calls w error_site second_definition window
     ++ concat (replicate (S (length quiet))
                  (frame_calls (Z.pos program) (projection w) Matrix4f_Identity
                     [pyramid; cube] [texture_name w 0; texture_name w 1] window))
     ++ [glfwSetWindowShouldClose window GL_TRUE]
     ++ teardown_calls window,
     Done 0 (set_window_should_close true
               (loop_entry_state error_site second_definition))).
Proof.
  intros Hinit Hwindow Hglew Hlink Hquiet.
  set (entry := loop_entry_state error_site second_definition).
  assert (PollEvents window [KeyEvent GLFW_KEY_ESCAPE scancode GLFW_PRESS mods] entry
          = ([glfwPollEvents; glfwSetWindowShouldClose window GL_TRUE],
             Done () (set_window_should_close true entry))) as Hpoll
    by reflexivity.
  assert (length [pyramid; cube] ≤ length [texture_name w 0; texture_name w 1])%nat
    as Hlen by (simpl; lia).
  assert (window_should_close entry = false) as Hopen by reflexivity.
  rewrite (main_initialized _ _ _ _ window program) by done. cbv zeta.
  fold entry.
  rewrite render_loop_quiet by done.
  rewrite (render_loop_iteration _ _ _ _ _ _ _ _ _ _ _ Hlen Hopen Hpoll).
  rewrite render_loop_closed by reflexivity.
  unfold calls, result. cbn [fst snd shader_program_id linked_program].
  f_equal. f_equal. rewrite app_nil_r, <- !app_assoc.
  change (S (length quiet)) with (1 + length quiet)%nat.
  rewrite Nat.add_comm, replicate_add, concat_app.
  cbn [replicate concat]. by rewrite app_nil_r, <- ?app_assoc.
Qed.

(** An instance: one poll with a cursor event, then Escape. *)
Lemma main_escape_closes_witness :
  run_main example_world first_definition second_definition
    ([[CursorPosEvent 10 20]] ++ [KeyEvent GLFW_KEY_ESCAPE 9 GLFW_PRESS 0] :: [])
  = (startup_calls example_world first_definition second_definition 1
     ++ concat (replicate 2
                  (frame_calls 3 (projection example_world) Matrix4f_Identity
                     [pyramid; cube] [1; 2] 1))
     ++ [glfwSetWindowShouldClose 1 GL_TRUE]
     ++ teardown_calls 1,
     Done 0 (set_window_should_close true
               (loop_entry_state first_definition second_definition))).
Proof.
  apply (main_escape_closes example_world first_definition 1 3%positive
           [[CursorPosEvent 10 20]] 9 0 []);
    try reflexivity.
  by repeat constructor.
Defined.

(** X16.  With the first [KeyCallback] (lines 99 to 115) registered: [main]
    never assigns [movement_vector_ptr], so in a run that gets past
    initialisation the first press or release of a key in [0, 1024) that a
    poll brings (the polls before bringing cursor and scroll events only)
    makes the callback go through the null pointer.  The run stops there:
    after the frames drawn so far the only call is the one of Escape
    pressed, if that was the key; nothing is cleaned up. *)
Theorem main_recorded_key_null_pointer
    (w : World) (error_site : Definition_site)
    (window : GLFWwindow) (program : positive)
    (quiet : list (list Event)) (key scancode action mods : Z)
    (more : list Event) (rest : list (list Event)) :
  glfwInit_result w = true →
  glfwCreateWindow_result w = Some window →
  glewInit_ok w = true →
  link_result w = inr program →
  Forall (Forall (λ e, pointer_event e = true)) quiet →
  0 ≤ key < 1024 →
  action = GLFW_PRESS ∨ action = GLFW_RELEASE →
  ∃ s',
    run_main w error_site first_definition
      (quiet ++ (KeyEvent key scancode action mods :: more) :: rest)
    = (startup_calls w error_site first_definition window
       ++ concat (replicate (S (length quiet))
                    (frame_calls (Z.pos program) (projection w) Matrix4f_Identity
                       [pyramid; cube] [texture_name w 0; texture_name w 1] window))
       ++ (if escape_pressed key action
           then [glfwSetWindowShouldClose window GL_TRUE] else []),
       Stopped null_dereference s') ∧
    movement_vector_ptr s' = None.
Proof.
  intros Hinit Hwindow Hglew Hlink Hquiet Hkey Haction.
  set (entry := loop_entry_state error_site first_definition).
  assert ((0 <=? key) && (key <? 1024) = true) as Hrange
    by (apply andb_true_iff; split; [apply Z.leb_le | apply Z.ltb_lt]; lia).
  assert (∃ s',
            PollEvents window (KeyEvent key scancode action mods :: more) entry
            = (glfwPollEvents
               :: (if escape_pressed key action
                   then [glfwSetWindowShouldClose window GL_TRUE] else []),
               Stopped null_dereference s') ∧
            movement_vector_ptr s' = None) as (s' & Hpoll & Hnull).
  { unfold PollEvents, escape_pressed. cbn [deliver_all deliver].
    destruct ((key =? GLFW_KEY_ESCAPE) && (action =? GLFW_PRESS)) eqn:Hesc.
    - eexists. split; [|shelve].
      etrans.
      { run_bind ltac:(reflexivity).
        apply bind_stopped. eapply bind_run; [reflexivity|]. cbn beta.
        unfold entry, loop_entry_state. cbn [key_callback KeyCallback_at].
        unfold UserInputCallbacks.KeyCallback. rewrite Hesc, Hrange. cbn [when].
        eapply bind_run; [apply SetWindowShouldClose_run|].
        destruct Haction as [-> | ->]; reflexivity. }
      reflexivity.
    - eexists. split; [|shelve].
      etrans.
      { run_bind ltac:(reflexivity).
        apply bind_stopped. eapply bind_run; [reflexivity|]. cbn beta.
        unfold entry, loop_entry_state. cbn [key_callback KeyCallback_at].
        unfold UserInputCallbacks.KeyCallback. rewrite Hesc, Hrange. cbn [when].
        eapply bind_run; [reflexivity|].
        destruct Haction as [-> | ->]; reflexivity. }
      reflexivity.
      Unshelve. all: reflexivity. }
  assert (length [pyramid; cube] ≤ length [texture_name w 0; texture_name w 1])%nat
    as Hlen by (simpl; lia).
  assert (window_should_close entry = false) as Hopen by reflexivity.
  exists s'. split; [|done].
  rewrite (main_initialized _ _ _ _ window program) by done. cbv zeta.
  fold entry.
  rewrite render_loop_quiet by done.
  rewrite (render_loop_iteration _ _ _ _ _ _ _ _ _ _ _ Hlen Hopen Hpoll).
  unfold calls, result. cbn [fst snd shader_program_id linked_program].
  f_equal. f_equal. rewrite <- ?app_assoc.
  change (S (length quiet)) with (1 + length quiet)%nat.
  rewrite Nat.add_comm, replicate_add, concat_app.
  cbn [replicate concat]. by rewrite app_nil_r, <- ?app_assoc.
Qed.

(** An instance: W pressed at the first poll. *)
Lemma main_recorded_key_null_pointer_witness :
  ∃ s',
    run_main example_world first_definition first_definition
      ([] ++ (KeyEvent GLFW_KEY_W 25 GLFW_PRESS 0 :: [CloseRequest]) :: [])
    = (startup_calls example_world first_definition first_definition 1
       ++ concat (replicate 1
                    (frame_calls 3 (projection example_world) Matrix4f_Identity
                       [pyramid; cube] [1; 2] 1))
       ++ (if escape_pressed GLFW_KEY_W GLFW_PRESS
           then [glfwSetWindowShouldClose 1 GL_TRUE] else []),
       Stopped null_dereference s') ∧
    movement_vector_ptr s' = None.
Proof.
  apply (main_recorded_key_null_pointer example_world first_definition
           1 3%positive [] GLFW_KEY_W 25 GLFW_PRESS 0 [CloseRequest] []);
    try reflexivity.
  - constructor.
  - unfold GLFW_KEY_W. lia.
  - by left.
Defined.

(** ** Cleaning up *)

Lemma omap_none {A} (f : Call → option A) (l : list Call) :
  Forall (λ c, f c = None) l → omap f l = [].
Proof.
  induction 1 as [|c l Hc _ IH]; [done|]. cbn [omap list_omap]. by rewrite Hc.
Qed.

Lemma render_loop_calls_no_model {A} (f : Call → option A)
    shader_program projection view models window texture_ids polls s :
  (length models ≤ length texture_ids)%nat →
  (∀ c, frame_call c = true → f c = None) →
  (∀ c, callback_call c = true → f c = None) →
  omap f (calls (render_loop shader_program projection view models window
                   texture_ids polls s)) = [].
Proof.
  intros Hlen Hframe Hcallback.
  destruct (render_loop_calls shader_program projection view models window
              texture_ids polls s Hlen) as (reactions & -> & Hall & _).
  apply omap_none, Forall_concat, Forall_fmap.
  eapply Forall_impl; [exact Hall|]. intros reaction Hreaction. unfold compose.
  apply Forall_app. split.
  - eapply Forall_impl; [apply frame_calls_frame_call|]. exact Hframe.
  - eapply Forall_impl; [exact Hreaction|]. exact Hcallback.
Qed.

(** X13.  Whenever [main] returns, the models it deleted are the models it
    uploaded to the device, in the same order: the pyramid and the cube
    when it returns 0, none when it returns -1 (no model exists yet on any
    of the early returns); and these are the only two values it returns. *)
Theorem main_deletes_what_it_uploads
    (w : World) (error_site key_site : Definition_site)
    (polls : list (list Event)) (status : Z) (s : State) :
  result (run_main w error_site key_site polls) = Done status s →
  omap deleted_model (calls (run_main w error_site key_site polls))
  = omap uploaded_model (calls (run_main w error_site key_site polls)) ∧
  ((status = 0 ∧
    omap uploaded_model (calls (run_main w error_site key_site polls))
    = [pyramid; cube])
   ∨ (status = -1 ∧
      omap uploaded_model (calls (run_main w error_site key_site polls)) = [])).
Proof.
  destruct (main_cases w)
    as [Hinit
       |[[Hinit Hwindow]
       |[(window & Hinit & Hwindow & Hglew)
       |[(window & diagnostic & Hinit & Hwindow & Hglew & Hlink)
        |(window & program & Hinit & Hwindow & Hglew & Hlink)]]]].
  - rewrite main_no_windowing_library by done. intros [= <- <-].
    split; [done|]. by right.
  - rewrite main_no_window by done. intros [= <- <-].
    split; [done|]. by right.
  - rewrite (main_no_device_extensions _ _ _ _ window) by done. intros [= <- <-].
    split; [done|]. by right.
  - rewrite (main_no_shader_program _ _ _ _ window diagnostic) by done.
    intros [= <- <-]. split; [done|]. by right.
  - rewrite (main_initialized _ _ _ _ window program) by done. cbv zeta.
    assert (length [pyramid; cube] ≤ length [texture_name w 0; texture_name w 1])%nat
      as Hlen by (simpl; lia).
    pose proof (render_loop_calls_no_model deleted_model
                  (linked_program program) (projection w) Matrix4f_Identity
                  [pyramid; cube] window [texture_name w 0; texture_name w 1]
                  polls (loop_entry_state error_site key_site) Hlen) as Hdeleted.
    pose proof (render_loop_calls_no_model uploaded_model
                  (linked_program program) (projection w) Matrix4f_Identity
                  [pyramid; cube] window [texture_name w 0; texture_name w 1]
                  polls (loop_entry_state error_site key_site) Hlen) as Huploaded.
    destruct (render_loop _ _ _ _ _ _ _ _) as [loop_calls [[] s'|why s']];
      unfold calls, result in *; cbn [fst snd] in *; [|discriminate].
    intros [= <- <-].
    rewrite !omap_app, Hdeleted, Huploaded;
      try (intros c Hc; by destruct c).
    split; [reflexivity|]. left. split; reflexivity.
Qed.

(** Two instances: a run that returns 0, one that returns -1. *)
Lemma main_deletes_what_it_uploads_witness :
  (omap deleted_model
     (calls (run_main example_world first_definition first_definition
               [[]; [CloseRequest]]))
   = omap uploaded_model
       (calls (run_main example_world first_definition first_definition
                 [[]; [CloseRequest]]))) ∧
  (omap deleted_model
     (calls (run_main world_without_shader_program
               first_definition first_definition []))
   = omap uploaded_model
       (calls (run_main world_without_shader_program
                 first_definition first_definition []))).
Proof.
  split.
  - refine (proj1 (main_deletes_what_it_uploads example_world
                     first_definition first_definition [[]; [CloseRequest]]
                     0 (set_window_should_close true
                          (loop_entry_state first_definition first_definition)) _)).
    vm_compute. reflexivity.
  - refine (proj1 (main_deletes_what_it_uploads world_without_shader_program
                     first_definition first_definition []
                     (-1) (set_key_callback first_definition
                             (set_error_callback first_definition initial_state)) _)).
    vm_compute. reflexivity.
Defined.

Lemma render_loop_calls_filtered (f : Call → bool)
    shader_program projection view models window texture_ids polls s :
  (length models ≤ length texture_ids)%nat →
  (∀ c, frame_call c = true → f c = false) →
  (∀ c, callback_call c = true → f c = false) →
  List.filter f (calls (render_loop shader_program projection view models
                          window texture_ids polls s)) = [].
Proof.
  intros Hlen Hframe Hcallback.
  destruct (render_loop_calls shader_program projection view models window
              texture_ids polls s Hlen) as (reactions & -> & Hall & _).
  apply filter_none, Forall_concat, Forall_fmap.
  eapply Forall_impl; [exact Hall|]. intros reaction Hreaction. unfold compose.
  apply Forall_app. split.
  - eapply Forall_impl; [apply frame_calls_frame_call|]. exact Hframe.
  - eapply Forall_impl; [exact Hreaction|]. exact Hcallback.
Qed.

(** X14.  The calls of [glfwDestroyWindow] and [glfwTerminate] in a run of
    [main] that returns: none when [glfwInit] failed; one [glfwTerminate]
    when no window could be created or [glewInit] failed (the window, if
    any, is not destroyed); the window destroyed and then [glfwTerminate]
    when the status is 0; and none at all on the remaining return, the one
    after [CreateShaderProgram] has failed, although the window exists and
    the library is initialised. *)
Theorem main_cleanup_on_return
    (w : World) (error_site key_site : Definition_site)
    (polls : list (list Event)) (status : Z) (s : State) :
  result (run_main w error_site key_site polls) = Done status s →
  List.filter is_cleanup (calls (run_main w error_site key_site polls))
  = if glfwInit_result w then
      match glfwCreateWindow_result w with
      | None => [glfwTerminate]
      | Some window =>
          if status =? 0 then [glfwDestroyWindow window; glfwTerminate]
          else if glewInit_ok w then [] else [glfwTerminate]
      end
    else [].
Proof.
  destruct (main_cases w)
    as [Hinit
       |[[Hinit Hwindow]
       |[(window & Hinit & Hwindow & Hglew)
       |[(window & diagnostic & Hinit & Hwindow & Hglew & Hlink)
        |(window & program & Hinit & Hwindow & Hglew & Hlink)]]]].
  - rewrite main_no_windowing_library by done. intros [= <- <-].
    by rewrite Hinit.
  - rewrite main_no_window by done. intros [= <- <-].
    by rewrite Hinit, Hwindow.
  - rewrite (main_no_device_extensions _ _ _ _ window) by done. intros [= <- <-].
    by rewrite Hinit, Hwindow, Hglew.
  - rewrite (main_no_shader_program _ _ _ _ window diagnostic) by done.
    intros [= <- <-]. by rewrite Hinit, Hwindow, Hglew.
  - rewrite (main_initialized _ _ _ _ window program) by done. cbv zeta.
    assert (length [pyramid; cube] ≤ length [texture_name w 0; texture_name w 1])%nat
      as Hlen by (simpl; lia).
    pose proof (render_loop_calls_filtered is_cleanup
                  (linked_program program) (projection w) Matrix4f_Identity
                  [pyramid; cube] window [texture_name w 0; texture_name w 1]
                  polls (loop_entry_state error_site key_site) Hlen) as Hloop.
    destruct (render_loop _ _ _ _ _ _ _ _) as [loop_calls [[] s'|why s']];
      unfold calls, result in *; cbn [fst snd] in *; [|discriminate].
    intros [= <- <-].
    rewrite !List.filter_app, Hloop; try (intros c Hc; by destruct c).
    by rewrite Hinit, Hwindow.
Qed.

(** The instance: the run in which the shader program cannot be created
    makes none of the two calls. *)
Lemma main_cleanup_on_return_witness :
  List.filter is_cleanup
    (calls (run_main world_without_shader_program
              first_definition first_definition []))
  = [].
Proof.
  refine (main_cleanup_on_return world_without_shader_program
            first_definition first_definition []
            (-1) (set_key_callback first_definition
                    (set_error_callback first_definition initial_state)) _).
  vm_compute. reflexivity.
Defined.

(** ** The camera callbacks without a controller, and at positions no
    [int] holds *)

Lemma camera_controller_call_null s call_made :
  camera_controller_ptr s = None →
  camera_controller_call call_made s = ([], Stopped null_dereference s).
Proof. intros Hc. unfold camera_controller_call. by rewrite Hc. Qed.

Lemma camera_controller_rotation_sensitivity_null s :
  camera_controller_ptr s = None →
  camera_controller_rotation_sensitivity s = ([], Stopped null_dereference s).
Proof. intros Hc. unfold camera_controller_rotation_sensitivity. by rewrite Hc. Qed.


(** X17.  With the controller pointer null, which is how [main] leaves it,
    none of the three functions that go through it reaches the controller.
    [ScrollCallback] stops at once; [MouseCallback] stops at the first
    [rotation_sensitivity()], after seeding the last position if the call
    is the first one; [UpdateCameraPose] stops at the first of W, S, A and D
    that is held.  No call has been made when they stop. *)
Theorem camera_callbacks_null_controller
    (s : State) (window : GLFWwindow) (x y : float) :
  camera_controller_ptr s = None →
  UserInputCallbacks.ScrollCallback window x y s
  = ([], Stopped null_dereference s) ∧
  (first_call s = false →
   UserInputCallbacks.MouseCallback window x y s
   = ([], Stopped null_dereference s)) ∧
  (∀ i j : Z,
     first_call s = true →
     int_of_double x = Some i → int_of_double y = Some j →
     UserInputCallbacks.MouseCallback window x y s
     = ([], Stopped null_dereference
              (set_first_call false (set_last_position i j s)))) ∧
  (∀ v : list bool,
     movement_vector_ptr s = Some v →
     (Z.to_nat GLFW_KEY_W < length v)%nat →
     held v GLFW_KEY_W || held v GLFW_KEY_S
       || held v GLFW_KEY_A || held v GLFW_KEY_D = true →
     UserInputCallbacks.UpdateCameraPose s = ([], Stopped null_dereference s)).
Proof.
  intros Hc. split; [by apply camera_controller_call_null|].
  split; [|split].
  - intros Hfirst. unfold UserInputCallbacks.MouseCallback. etrans.
    { run_bind ltac:(reflexivity). rewrite Hfirst.
      run_bind ltac:(reflexivity).
      apply bind_stopped. by apply camera_controller_rotation_sensitivity_null. }
    reflexivity.
  - intros i j Hfirst Hx Hy. unfold UserInputCallbacks.MouseCallback. etrans.
    { run_bind ltac:(reflexivity). rewrite Hfirst.
      run_bind ltac:(
        run_bind ltac:(by apply (store_last_position_run _ _ i j));
        reflexivity).
      apply bind_stopped. by apply camera_controller_rotation_sensitivity_null. }
    reflexivity.
  - intros v Hv Hlen Hheld.
    destruct (movement_keys_lookup v Hlen) as (HW & HS & HA & HD).
    unfold UserInputCallbacks.UpdateCameraPose.
    destruct (held v GLFW_KEY_W), (held v GLFW_KEY_S),
             (held v GLFW_KEY_A), (held v GLFW_KEY_D); try discriminate;
      (etrans;
       [ repeat first
           [ apply bind_stopped; by apply camera_controller_call_null
           | by apply camera_controller_call_null
           | run_bind ltac:(first
               [ by apply (movement_vector_at_lookup s v GLFW_KEY_W)
               | by apply (movement_vector_at_lookup s v GLFW_KEY_S)
               | by apply (movement_vector_at_lookup s v GLFW_KEY_A)
               | by apply (movement_vector_at_lookup s v GLFW_KEY_D)
               | reflexivity ]) ]
       | reflexivity ]).
Qed.

(** An instance of the last part: D alone held, in the state [main] starts
    from but for the held-key vector. *)
Lemma camera_callbacks_null_controller_witness :
  UserInputCallbacks.UpdateCameraPose
    (set_movement_vector (<[Z.to_nat GLFW_KEY_D := true]> no_key_held)
       initial_state)
  = ([], Stopped null_dereference
           (set_movement_vector (<[Z.to_nat GLFW_KEY_D := true]> no_key_held)
              initial_state)).
Proof.
  refine (proj2 (proj2 (proj2
            (camera_callbacks_null_controller
               (set_movement_vector (<[Z.to_nat GLFW_KEY_D := true]> no_key_held)
                  initial_state) 1 0 0 eq_refl)))
            (<[Z.to_nat GLFW_KEY_D := true]> no_key_held) eq_refl _ _).
  - vm_compute. lia.
  - vm_compute. reflexivity.
Defined.



(** ** OpenGL calls and the context *)

Lemma gl_call_after_prefix (prefix rest : list Call) (i : nat) (c : Call) :
  Forall (λ c, is_gl_call c = false) prefix →
  (prefix ++ rest) !! i = Some c →
  is_gl_call c = true →
  (length prefix ≤ i)%nat.
Proof.
  intros Hprefix Hi Hc.
  destruct (decide (i < length prefix)%nat) as [Hlt|]; [|lia].
  rewrite lookup_app_l in Hi by done.
  rewrite Forall_lookup in Hprefix. specialize (Hprefix i c Hi). congruence.
Qed.

Lemma context_calls_no_gl_call error_site key_site window :
  Forall (λ c, is_gl_call c = false) (context_calls error_site key_site window).
Proof. unfold context_calls. by repeat constructor. Qed.

(** X19.  In every run of [main], whatever the world answers and whatever
    events arrive, an OpenGL function is called only after the window's
    context has been made current and [glewInit] has been called and has
    succeeded: these are calls 10 and 13 of the run, and every OpenGL call
    comes later. *)
Theorem main_gl_calls_follow_glewInit
    (w : World) (error_site key_site : Definition_site)
    (polls : list (list Event)) (i : nat) (c : Call) :
  calls (run_main w error_site key_site polls) !! i = Some c →
  is_gl_call c = true →
  glewInit_ok w = true ∧
  ∃ window,
    glfwCreateWindow_result w = Some window ∧
    calls (run_main w error_site key_site polls) !! 10%nat
    = Some (glfwMakeContextCurrent window) ∧
    calls (run_main w error_site key_site polls) !! 13%nat = Some glewInit ∧
    (13 < i)%nat.
Proof.
  intros Hi Hc. revert Hi.
  destruct (main_cases w)
    as [Hinit
       |[[Hinit Hwindow]
       |[(window & Hinit & Hwindow & Hglew)
       |[(window & diagnostic & Hinit & Hwindow & Hglew & Hlink)
        |(window & program & Hinit & Hwindow & Hglew & Hlink)]]]].
  - rewrite main_no_windowing_library by done. unfold calls. cbn [fst].
    intros Hi. exfalso.
    assert (Forall (λ c, is_gl_call c = false)
              [gflags_ParseCommandLineFlags; google_InitGoogleLogging; glfwInit])
      as Hnone by (by repeat constructor).
    rewrite Forall_lookup in Hnone. specialize (Hnone i c Hi). congruence.
  - rewrite main_no_window by done. unfold calls. cbn [fst].
    intros Hi. exfalso.
    eassert (Forall (λ c, is_gl_call c = false) _) as Hnone;
      [|rewrite Forall_lookup in Hnone; specialize (Hnone i c Hi); congruence].
    by repeat constructor.
  - rewrite (main_no_device_extensions _ _ _ _ window) by done.
    unfold calls. cbn [fst]. intros Hi. exfalso.
    eassert (Forall (λ c, is_gl_call c = false) _) as Hnone;
      [|rewrite Forall_lookup in Hnone; specialize (Hnone i c Hi); congruence].
    by repeat constructor.
  - rewrite (main_no_shader_program _ _ _ _ window diagnostic) by done.
    unfold calls. cbn [fst]. intros Hi.
    split; [done|]. exists window. do 3 (split; [done|]).
    pose proof (gl_call_after_prefix (context_calls error_site key_site window)
                  _ i c (context_calls_no_gl_call _ _ _) Hi Hc) as Hle.
    simpl in Hle. lia.
  - rewrite (main_initialized _ _ _ _ window program) by done. cbv zeta.
    destruct (render_loop _ _ _ _ _ _ _ _) as [loop_calls [[] s'|why s']];
      unfold calls, result; cbn [fst snd]; intros Hi;
      (split; [done|]); exists window; (do 3 (split; [done|]));
      unfold startup_calls in Hi;
      pose proof (gl_call_after_prefix (context_calls error_site key_site window)
                    _ i c (context_calls_no_gl_call _ _ _) Hi Hc) as Hle;
      simpl in Hle; lia.
Qed.

(** An instance: the first OpenGL call of a run, [glViewport], is call 14. *)
Lemma main_gl_calls_follow_glewInit_witness :
  glewInit_ok example_world = true ∧
  ∃ window,
    glfwCreateWindow_result example_world = Some window ∧
    calls (run_main example_world first_definition first_definition
             [[]; [CloseRequest]]) !! 10%nat
    = Some (glfwMakeContextCurrent window) ∧
    calls (run_main example_world first_definition first_definition
             [[]; [CloseRequest]]) !! 13%nat = Some glewInit ∧
    (13 < 14)%nat.
Proof.
  refine (main_gl_calls_follow_glewInit example_world
            first_definition first_definition [[]; [CloseRequest]]
            14 (glViewport 0 0 640 480) _ _).
  - vm_compute. reflexivity.
  - reflexivity.
Defined.
